(** * GitHub issue assistant: a shallow embedding of the backend

    The development follows the three backend modules of the service:
    [app/github_client.py] (issue fetcher with its TTL cache),
    [app/llm_analyzer.py] (prompt construction and normalisation of the
    provider reply) and [app/main.py] (request handler and health check),
    together with the schema declarations of [app/models.py].

    Conventions.
    - A Python [str] is a [string]; every [ascii] stands for the code point
      of the same number, so the model covers texts over U+0000..U+00FF.
    - The value of [time.time()] is an integer number of clock ticks; only
      its order and the addition of the TTL are used by the code.
    - A [dict] with string keys is a [gmap string _]; the two cache
      dictionaries are [gmap]s keyed by the triple (owner, repo, number).
    - Everything the process does not own (the JSON decoder, the wording of
      interpreter errors, the URL check of httpx, the GitHub REST service,
      the LLM provider, the pydantic coercion mode) is a field of the
      record [Env]. *)

From Stdlib Require Import ZArith String Ascii DecimalString DecimalZ.
From stdpp Require Import gmap strings list.

#[local] Set Warnings "-register-all".
#[local] Open Scope string_scope.
#[local] Open Scope Z_scope.

(** ** Python strings *)

Module PyStr.

Definition code (c : ascii) : nat := nat_of_ascii c.

(** [str.isspace] on one character, restricted to U+0000..U+00FF: the
    ASCII controls TAB..CR and FS..US, the space, NEL and NBSP. *)
Definition isspace (c : ascii) : bool :=
  let n := code c in
  ((9 <=? n)%nat && (n <=? 13)%nat)
  || ((28 <=? n)%nat && (n <=? 32)%nat)
  || (n =? 133)%nat || (n =? 160)%nat.

(** [str.lower] on one character of that range: A..Z, and the Latin-1
    capitals U+00C0..U+00DE except the multiplication sign U+00D7. *)
Definition lower_char (c : ascii) : ascii :=
  let n := code c in
  if ((65 <=? n)%nat && (n <=? 90)%nat)
     || ((192 <=? n)%nat && (n <=? 222)%nat && negb (n =? 215)%nat)
  then ascii_of_nat (n + 32) else c.

Fixpoint map_chars (f : ascii → ascii) (s : string) : string :=
  match s with
  | EmptyString => EmptyString
  | String c s' => String (f c) (map_chars f s')
  end.

Definition lower : string → string := map_chars lower_char.

(** [s.replace(a, b)] for one-character [a] and [b]. *)
Definition replace_char (a b : ascii) : string → string :=
  map_chars (λ c, if Ascii.eqb c a then b else c).

Fixpoint lstrip_by (p : ascii → bool) (s : string) : string :=
  match s with
  | EmptyString => EmptyString
  | String c s' => if p c then lstrip_by p s' else s
  end.

(** Drops the longest suffix all of whose characters satisfy [p]. *)
Fixpoint rstrip_by (p : ascii → bool) (s : string) : string :=
  match s with
  | EmptyString => EmptyString
  | String c s' =>
      match rstrip_by p s' with
      | EmptyString => if p c then EmptyString else String c EmptyString
      | r => String c r
      end
  end.

(** [s.strip()] *)
Definition strip (s : string) : string := rstrip_by isspace (lstrip_by isspace s).

(** [s.rstrip(chars)] for a one-character [chars]. *)
Definition rstrip_char (a : ascii) : string → string := rstrip_by (Ascii.eqb a).

(** [sub in s] *)
Fixpoint contains (sub s : string) : bool :=
  String.prefix sub s ||
  match s with
  | EmptyString => false
  | String _ s' => contains sub s'
  end.

Fixpoint take (n : nat) (s : string) : string :=
  match n, s with
  | O, _ => EmptyString
  | S _, EmptyString => EmptyString
  | S k, String c s' => String c (take k s')
  end.

(** [s.split(sep)] for a non-empty [sep]: the text is scanned from the
    left; where [sep] starts, the current piece is closed and the scan
    resumes after the separator.  [skip] counts the characters of a
    separator that is being stepped over.  The result is the non-empty
    list [fst :: snd]. *)
Fixpoint split_scan (sep : string) (skip : nat) (s : string) : string * list string :=
  match s with
  | EmptyString => (EmptyString, [])
  | String c s' =>
      match skip with
      | S k => split_scan sep k s'
      | O =>
          if String.prefix sep s
          then let '(h, t) := split_scan sep (String.length sep - 1) s' in
               (EmptyString, h :: t)
          else let '(h, t) := split_scan sep 0 s' in
               (String c h, t)
      end
  end.

Definition split (sep s : string) : list string :=
  let '(h, t) := split_scan sep 0 s in h :: t.

(** [pieces[-1]] for a list known to be non-empty; [split] never returns
    an empty list, the default is not reached from the code. *)
Definition last_piece (pieces : list string) : string := List.last pieces EmptyString.

(** Predicates on texts, used to state what the operations above do. *)
Fixpoint all_chars (p : ascii → bool) (s : string) : bool :=
  match s with
  | EmptyString => true
  | String c s' => p c && all_chars p s'
  end.

Definition starts_with_char (p : ascii → bool) (s : string) : bool :=
  match s with
  | EmptyString => false
  | String c _ => p c
  end.

Fixpoint ends_with_char (p : ascii → bool) (s : string) : bool :=
  match s with
  | EmptyString => false
  | String c EmptyString => p c
  | String _ s' => ends_with_char p s'
  end.

(** [str(n)] for an [int]. *)
Definition of_int (n : Z) : string := NilEmpty.string_of_int (Z.to_int n).

Definition nl : string := String (ascii_of_nat 10) EmptyString.

End PyStr.

(** ** JSON values, exceptions and results *)

(** What [json.loads] and [response.json()] produce.  A [float] is
    identified with its [repr], which determines it. *)
Inductive json :=
| JNull
| JBool (b : bool)
| JInt (n : Z)
| JFloat (repr : string)
| JStr (s : string)
| JList (l : list json)
| JDict (d : gmap string json).

Inductive exn_class :=
| JSONDecodeError | ValueError | KeyError | TypeError | AttributeError
| ValidationError | RecursionError | InvalidURL | Exception_
| ForeignError (name : string).

(** A raised exception: FastAPI's [HTTPException], or any other exception
    derived from [Exception], with its class and the text [str(e)]. *)
Inductive exn :=
| HTTPException (status_code : Z) (detail : json)
| PyExn (cls : exn_class) (text : string).

Inductive result (A : Type) :=
| Return (a : A)
| Raise (e : exn).
Arguments Return {A} a.
Arguments Raise {A} e.

Definition rbind {A B} (r : result A) (k : A → result B) : result B :=
  match r with
  | Return a => k a
  | Raise e => Raise e
  end.

Notation "'let!' x ':=' r 'in' k" := (rbind r (λ x, k))
  (at level 10, x name, r at level 100, k at level 200, only parsing).

(** Faults raised by the interpreter or a library rather than by the
    program text; [fault_text] of the environment gives their wording. *)
Inductive fault :=
| NoAttribute (v : json) (attr : string)
| NotSubscriptable (v : json)
| MissingKey (k : string)
| NotIterable (v : json)
| NotADocument
| SchemaViolation (fields : list string).

Definition fault_class (f : fault) : exn_class :=
  match f with
  | NoAttribute _ _ => AttributeError
  | NotSubscriptable _ | NotIterable _ | NotADocument => TypeError
  | MissingKey _ => KeyError
  | SchemaViolation _ => ValidationError
  end.

(** What becomes of a request that was sent: [client.get(url, ...)]
    followed by [raise_for_status()] and [response.json()]. *)
Inductive http_outcome :=
| Body (j : json)
| Undecodable (text : string)
| HTTPStatusError (status : Z) (hdrs : list (string * string)) (text : string)
| RequestError (text : string).

(** Outcome of the call as a whole.  httpx parses the URL before anything
    is sent and raises [httpx.InvalidURL], with the given text, for a URL
    it refuses; [InvalidURL] is neither an [HTTPStatusError] nor a
    [RequestError]. *)
Inductive request_outcome :=
| Sent (o : http_outcome)
| Refused (text : string).

Coercion Sent : http_outcome >-> request_outcome.

(** The part of the world the process does not own. *)
Record Env := {
  (** [os.environ] after [load_dotenv()] *)
  environ : gmap string string;
  (** [json.loads]: the decoded value, or the class and the text of what
      it raised: [JSONDecodeError] for a text that is not JSON, but also
      [RecursionError] for a text nested too deeply and [ValueError] for an
      integer literal of more digits than the interpreter converts *)
  json_loads : string → json + (exn_class * string);
  (** [repr] of a list or dict *)
  container_repr : json → string;
  (** wording of interpreter and library faults *)
  fault_text : fault → string;
  (** pydantic 1.x turns numbers given for a [str] field into text, 2.x
      rejects them *)
  coerces_numbers : bool;
  (** importing the SDK of a provider, and configuring it with a key:
      [None] when it goes through, otherwise what it raised *)
  sdk_import : string → option exn;
  sdk_configure : string → string → option exn;
  (** the check httpx makes on a URL before it sends anything: the text of
      the [InvalidURL] raised for a URL it refuses; the check looks at the
      URL only *)
  invalid_url : string → option string;
  (** the GitHub REST service: given the requests sent so far and the
      clock, what becomes of a GET sent to a URL with the given headers,
      and the clock reading once this is known *)
  transport : list string → Z → string → list (string * string) → http_outcome * Z;
  (** the error list FastAPI reports for a request body that violates the
      request schema *)
  validation_errors : string → Z → json;
  (** OpenAI chat completion for a model and a user prompt (the system
      prompt is the constant [SYSTEM_PROMPT]): [message.content] *)
  openai_chat : string → string → result (option string);
  (** Gemini [generate_content(...).text] for a model and a user prompt *)
  gemini_generate : string → string → result string
}.

Definition getenv (env : Env) (name default_ : string) : string :=
  default default_ (environ env !! name).

(** Outcome of one [client.get(url, headers=..., timeout=...)] with
    [raise_for_status()] and [response.json()], and the clock reading once
    it is known: a URL that httpx refuses is not sent. *)
Definition github (env : Env) (sent_ : list string) (now : Z) (url : string)
    (hdrs : list (string * string)) : request_outcome * Z :=
  match invalid_url env url with
  | Some text => (Refused text, now)
  | None => let '(o, t) := transport env sent_ now url hdrs in (Sent o, t)
  end.

Definition raise_fault {A} (env : Env) (f : fault) : result A :=
  Raise (PyExn (fault_class f) (fault_text env f)).

(** [str(v)] *)
Definition py_str (env : Env) (v : json) : string :=
  match v with
  | JNull => "None"
  | JBool true => "True"
  | JBool false => "False"
  | JInt n => PyStr.of_int n
  | JFloat r => r
  | JStr s => s
  | JList _ | JDict _ => container_repr env v
  end.

(** [str(e)]; Starlette prints an [HTTPException] as status and detail. *)
Definition exn_str (env : Env) (e : exn) : string :=
  match e with
  | HTTPException sc d => PyStr.of_int sc ++ ": " ++ py_str env d
  | PyExn _ t => t
  end.

(** [bool(v)] *)
Definition truthy (v : json) : bool :=
  match v with
  | JNull => false
  | JBool b => b
  | JInt n => negb (n =? 0)
  | JFloat r => negb (String.eqb r "0.0" || String.eqb r "-0.0")
  | JStr s => negb (String.eqb s "")
  | JList l => match l with [] => false | _ => true end
  | JDict d => negb (bool_decide (d = ∅))
  end.

(** [v[k]] for a string key *)
Definition subscript (env : Env) (v : json) (k : string) : result json :=
  match v with
  | JDict d => match d !! k with
               | Some x => Return x
               | None => raise_fault env (MissingKey k)
               end
  | _ => raise_fault env (NotSubscriptable v)
  end.

(** [v.get(k, dflt)] *)
Definition py_get (env : Env) (v : json) (k : string) (dflt : json) : result json :=
  match v with
  | JDict d => Return (default dflt (d !! k))
  | _ => raise_fault env (NoAttribute v "get")
  end.

(** [v[:n]]; a value that is neither a list nor a string refuses the
    slice. *)
Definition slice_to (env : Env) (n : nat) (v : json) : result json :=
  match v with
  | JList l => Return (JList (List.firstn n l))
  | JStr s => Return (JStr (PyStr.take n s))
  | _ => raise_fault env (NotSubscriptable v)
  end.

(** ** [app/models.py] *)

Inductive IssueType := BUG | FEATURE_REQUEST | DOCUMENTATION | QUESTION | OTHER.

Definition IssueType_value (t : IssueType) : string :=
  match t with
  | BUG => "bug"
  | FEATURE_REQUEST => "feature_request"
  | DOCUMENTATION => "documentation"
  | QUESTION => "question"
  | OTHER => "other"
  end.

Definition IssueType_members : list IssueType :=
  [BUG; FEATURE_REQUEST; DOCUMENTATION; QUESTION; OTHER].

(** [IssueType(s)]: the member whose value is [s]. *)
Definition IssueType_of (s : string) : option IssueType :=
  List.find (λ t, String.eqb (IssueType_value t) s) IssueType_members.

Record IssueAnalysis := {
  summary : string;
  type : IssueType;
  priority_score : string;
  suggested_labels : list string;
  potential_impact : string
}.

Record GitHubIssueRequest := {
  repo_url : string;
  issue_number : Z
}.

(** [ErrorResponse(...).dict()] *)
Definition ErrorResponse_dict (detail : string) (error_type : option string)
    (metadata : option (gmap string json)) : json :=
  JDict (<["detail" := JStr detail]>
        (<["error_type" := from_option JStr JNull error_type]>
        (<["metadata" := from_option JDict JNull metadata]> ∅))).

Section Models.
Context (env : Env).

(** pydantic validation of a value given for a field declared [str]. *)
Definition validate_str (v : json) : option string :=
  match v with
  | JStr s => Some s
  | JInt _ | JFloat _ | JBool _ =>
      if coerces_numbers env then Some (py_str env v) else None
  | _ => None
  end.

Fixpoint validate_strs (l : list json) : option (list string) :=
  match l with
  | [] => Some []
  | v :: l' =>
      match validate_str v, validate_strs l' with
      | Some s, Some ss => Some (s :: ss)
      | _, _ => None
      end
  end.

(** A field declared [List[str]] with [min_items=1, max_items=5]. *)
Definition validate_labels (v : json) : option (list string) :=
  match v with
  | JList l =>
      match validate_strs l with
      | Some ss =>
          if (1 <=? List.length ss)%nat && (List.length ss <=? 5)%nat
          then Some ss else None
      | None => None
      end
  | _ => None
  end.

(** The constructor [IssueAnalysis(summary=.., type=.., ..)]: every field
    is validated against its declaration; the fields in violation are
    reported together in one pydantic [ValidationError]. *)
Definition IssueAnalysis_new (summary_ : json) (type_ : IssueType)
    (priority_score_ : string) (suggested_labels_ potential_impact_ : json)
    : result IssueAnalysis :=
  match validate_str summary_, validate_labels suggested_labels_,
        validate_str potential_impact_ with
  | Some s, Some ls, Some p =>
      Return {| summary := s; type := type_; priority_score := priority_score_;
                suggested_labels := ls; potential_impact := p |}
  | s, ls, p =>
      raise_fault env
        (SchemaViolation
           ((if s is None then ["summary"] else [])
            ++ (if ls is None then ["suggested_labels"] else [])
            ++ (if p is None then ["potential_impact"] else []))%list)
  end.

End Models.

(** ** [app/llm_analyzer.py] *)

Record LLMAnalyzer := { provider : string }.

Record IssueBundle := { issue : json; comments : json }.

Module LLM.
Section Analyzer.
Context (env : Env).

Definition check_sdk (o : option exn) : result unit :=
  match o with
  | None => Return tt
  | Some e => Raise e
  end.

(** [os.getenv(name)] as tested by [if not api_key]: an unset and an
    empty variable both count as no key. *)
Definition credential (name : string) : option string :=
  match environ env !! name with
  | Some k => if String.eqb k "" then None else Some k
  | None => None
  end.

Definition require_key (name : string) : result string :=
  match credential name with
  | Some k => Return k
  | None => Raise (PyExn ValueError (name ++ " environment variable is not set"))
  end.

(** [LLMAnalyzer.__init__] *)
Definition LLMAnalyzer_init : result LLMAnalyzer :=
  let provider_ := PyStr.lower (getenv env "LLM_PROVIDER" "openai") in
  if String.eqb provider_ "openai" then
    let! _i := check_sdk (sdk_import env "openai") in
    let! api_key := require_key "OPENAI_API_KEY" in
    let! _c := check_sdk (sdk_configure env "openai" api_key) in
    Return {| provider := provider_ |}
  else if String.eqb provider_ "gemini" then
    let! _i := check_sdk (sdk_import env "gemini") in
    let! api_key := require_key "GEMINI_API_KEY" in
    let! _c := check_sdk (sdk_configure env "gemini" api_key) in
    Return {| provider := provider_ |}
  else Raise (PyExn ValueError "Unsupported LLM_PROVIDER. Use 'openai' or 'gemini'.").

(** The module-level singleton: [None] when the constructor raised. *)
Definition llm_analyzer : option LLMAnalyzer :=
  match LLMAnalyzer_init with
  | Return a => Some a
  | Raise _ => None
  end.

(** The loop over [enumerate(comments, 1)] of [_format_issue_data]. *)
Fixpoint format_comments (i : Z) (cs : list json) (comments_text : string)
    : result string :=
  match cs with
  | [] => Return comments_text
  | comment :: cs' =>
      let! user := subscript env comment "user" in
      let! login := subscript env user "login" in
      let! body := subscript env comment "body" in
      format_comments (i + 1) cs'
        (comments_text ++ PyStr.nl ++ "--- Comment " ++ PyStr.of_int i ++ " by "
           ++ py_str env login ++ " ---" ++ PyStr.nl ++ py_str env body ++ PyStr.nl)
  end.

Definition _format_issue_data (issue_data : IssueBundle) : result string :=
  let issue_ := issue issue_data in
  let comments_ := comments issue_data in
  let! comments_text :=
    if truthy comments_ then
      match comments_ with
      | JList cs => format_comments 1 cs (PyStr.nl ++ PyStr.nl ++ "Comments:" ++ PyStr.nl)
      | _ => raise_fault env (NotIterable comments_)
      end
    else Return "" in
  let! number := subscript env issue_ "number" in
  let! title := subscript env issue_ "title" in
  let! state := subscript env issue_ "state" in
  let! user := subscript env issue_ "user" in
  let! login := subscript env user "login" in
  let! created_at := subscript env issue_ "created_at" in
  let! updated_at := subscript env issue_ "updated_at" in
  let! body := py_get env issue_ "body" (JStr "No description provided.") in
  Return (PyStr.strip
    (PyStr.nl ++ "# GitHub Issue Analysis" ++ PyStr.nl ++ PyStr.nl
     ++ "## Issue: #" ++ py_str env number ++ " - " ++ py_str env title ++ PyStr.nl ++ PyStr.nl
     ++ "**State:** " ++ (match state with JStr "open" => "Open" | _ => "Closed" end) ++ PyStr.nl
     ++ "**Created by:** " ++ py_str env login ++ PyStr.nl
     ++ "**Created at:** " ++ py_str env created_at ++ PyStr.nl
     ++ "**Updated at:** " ++ py_str env updated_at ++ PyStr.nl ++ PyStr.nl
     ++ "## Description" ++ PyStr.nl
     ++ py_str env body ++ PyStr.nl
     ++ comments_text ++ PyStr.nl ++ PyStr.nl
     ++ "## Your Analysis" ++ PyStr.nl
     ++ "Please analyze this issue and provide the requested JSON response." ++ PyStr.nl)).

(** The provider call of [analyze_issue]: [response.choices[0].message.content]
    for OpenAI, [result.text] for Gemini. *)
Definition provider_reply (self : LLMAnalyzer) (user_prompt : string)
    : result (option string) :=
  if String.eqb (provider self) "openai" then
    openai_chat env (getenv env "OPENAI_MODEL" "gpt-4o-mini") user_prompt
  else
    let! text := gemini_generate env (getenv env "GEMINI_MODEL" "gemini-1.5-flash") user_prompt in
    Return (Some text).

(** [json.loads(content)] *)
Definition loads (content : option string) : result json :=
  match content with
  | None => raise_fault env NotADocument
  | Some c =>
      match json_loads env c with
      | inl v => Return v
      | inr (cls, text) => Raise (PyExn cls text)
      end
  end.

(** [{t.value for t in IssueType}] *)
Definition known_type (s : string) : bool :=
  existsb (String.eqb s) (List.map IssueType_value IssueType_members).

(** The clean-up of the text of the type, before the membership test. *)
Definition clean_type (t : json) : string :=
  PyStr.replace_char " " "_" (PyStr.lower (PyStr.strip (py_str env t))).

(** Lines 125-127: the normalised value of ['type']. *)
Definition normalize_type (parsed : json) : result string :=
  let! t := py_get env parsed "type" (JStr "other") in
  let parsed_type := clean_type t in
  Return (if known_type parsed_type then parsed_type else "other").

(** Lines 130-132: the priority as a string. *)
Definition normalize_priority (parsed : json) : result string :=
  let! prio := py_get env parsed "priority_score" (JStr "1") in
  Return (match prio with
          | JStr s => s
          | _ => py_str env prio
          end).

(** The argument [parsed.get("suggested_labels", [])[:5]]. *)
Definition normalize_labels (parsed : json) : result json :=
  let! labels := py_get env parsed "suggested_labels" (JList []) in
  slice_to env 5 labels.

Definition IssueType_call (s : string) : result IssueType :=
  match IssueType_of s with
  | Some t => Return t
  | None => Raise (PyExn ValueError ("'" ++ s ++ "' is not a valid IssueType"))
  end.

(** Lines 124-140: from the decoded reply to the validated analysis. *)
Definition build_analysis (parsed : json) : result IssueAnalysis :=
  let! parsed_type := normalize_type parsed in
  let! prio := normalize_priority parsed in
  let! summary_ := py_get env parsed "summary" (JStr "") in
  let! type_ := IssueType_call parsed_type in
  let! labels := normalize_labels parsed in
  let! impact := py_get env parsed "potential_impact" (JStr "") in
  IssueAnalysis_new env summary_ type_ prio labels impact.

(** The body of the [try] block. *)
Definition analyze_body (self : LLMAnalyzer) (user_prompt : string)
    : result IssueAnalysis :=
  let! content := provider_reply self user_prompt in
  let! parsed := loads content in
  build_analysis parsed.

(** [LLMAnalyzer.analyze_issue]: the prompt is built outside the [try];
    [except json.JSONDecodeError] comes before [except Exception]. *)
Definition analyze_issue (self : LLMAnalyzer) (issue_data : IssueBundle)
    : result IssueAnalysis :=
  let! user_prompt := _format_issue_data issue_data in
  match analyze_body self user_prompt with
  | Return a => Return a
  | Raise (PyExn JSONDecodeError text) =>
      Raise (PyExn ValueError ("Failed to parse LLM response: " ++ text))
  | Raise e =>
      Raise (PyExn Exception_ ("Error during LLM analysis: " ++ exn_str env e))
  end.

End Analyzer.
End LLM.

(** Two notions the statements about the normaliser use: the provider
    answered the prompt built for a bundle with a given content, and the
    value of a field of a decoded reply (no field in a reply that is not an
    object). *)
Definition replied (env : Env) (self : LLMAnalyzer) (issue_data : IssueBundle)
    (content : option string) : Prop :=
  ∃ user_prompt,
    LLM._format_issue_data env issue_data = Return user_prompt
    ∧ LLM.provider_reply env self user_prompt = Return content.

Definition field (parsed : json) (k : string) : option json :=
  match parsed with
  | JDict d => d !! k
  | _ => None
  end.

(** ** [app/github_client.py] *)

Record GitHubClient := {
  headers : list (string * string);
  _cache : gmap (string * string * Z) IssueBundle;
  _cache_expiry : gmap (string * string * Z) Z;
  ttl_seconds : Z
}.

(** The mutable surroundings of the process: the wall clock read by
    [time.time()], and the GitHub requests handed to the transport so far,
    oldest first (a request that the transport fails to deliver counts; one
    that httpx refuses does not). *)
Record world := { clock : Z; sent : list string }.

Definition BASE_URL : string := "https://api.github.com".

(** [sep.join(pieces)] *)
Fixpoint join (sep : string) (pieces : list string) : string :=
  match pieces with
  | [] => ""
  | [p] => p
  | p :: rest => p ++ sep ++ join sep rest
  end.

(** The values of the headers of a name, in the order received; httpx
    compares header names without regard to case. *)
Definition header_values (hdrs : list (string * string)) (name : string) : list string :=
  List.map snd
    (List.filter (λ h, String.eqb (PyStr.lower (fst h)) (PyStr.lower name)) hdrs).

(** [headers.get(name, dflt)] on a response: the values of a header that
    was sent more than once are joined with a comma and a space. *)
Definition header_get (hdrs : list (string * string)) (name dflt : string) : string :=
  match header_values hdrs name with
  | [] => dflt
  | values => join ", " values
  end.

(** The two endpoints of an issue. *)
Definition issue_url (owner repo : string) (issue_number : Z) : string :=
  BASE_URL ++ "/repos/" ++ owner ++ "/" ++ repo ++ "/issues/" ++ PyStr.of_int issue_number.

Definition comments_url (owner repo : string) (issue_number : Z) : string :=
  BASE_URL ++ "/repos/" ++ owner ++ "/" ++ repo ++ "/issues/" ++ PyStr.of_int issue_number
  ++ "/comments".

Section Client.
Context (env : Env).

(** [GitHubClient.__init__], with [ttl] the integer read from
    [GITHUB_CACHE_TTL] (300 when unset). *)
Definition GitHubClient_init (ttl : Z) : GitHubClient :=
  let base := [("Accept", "application/vnd.github+json");
               ("X-GitHub-Api-Version", "2022-11-28")] in
  {| headers := match environ env !! "GITHUB_TOKEN" with
                | Some token => if String.eqb token "" then base
                                else base ++ [("Authorization", "Bearer " ++ token)]
                | None => base
                end;
     _cache := ∅; _cache_expiry := ∅; ttl_seconds := ttl |}.

Definition _cache_get (owner repo : string) (issue_number : Z)
    (self : GitHubClient) (w : world) : option IssueBundle * GitHubClient :=
  let key := (owner, repo, issue_number) in
  let now := clock w in
  match _cache self !! key with
  | Some value =>
      if now <? default 0 (_cache_expiry self !! key) then (Some value, self)
      else (None, {| headers := headers self;
                     _cache := delete key (_cache self);
                     _cache_expiry := delete key (_cache_expiry self);
                     ttl_seconds := ttl_seconds self |})
  | None => (None, self)
  end.

Definition _cache_set (owner repo : string) (issue_number : Z) (value : IssueBundle)
    (self : GitHubClient) (w : world) : GitHubClient :=
  let key := (owner, repo, issue_number) in
  {| headers := headers self;
     _cache := <[key := value]> (_cache self);
     _cache_expiry := <[key := clock w + ttl_seconds self]> (_cache_expiry self);
     ttl_seconds := ttl_seconds self |}.

(** One [client.get(url, headers=self.headers, timeout=10.0)]; a request
    that httpx refuses leaves no trace in the world. *)
Definition http_get (self : GitHubClient) (url : string) (w : world)
    : request_outcome * world :=
  let '(out, t) := github env (sent w) (clock w) url (headers self) in
  (out, match out with
        | Sent _ => {| clock := t; sent := sent w ++ [url] |}
        | Refused _ => w
        end).

Definition get_issue (owner repo : string) (issue_number : Z)
    (self : GitHubClient) (w : world) : result json * world :=
  let url := issue_url owner repo issue_number in
  let '(out, w') := http_get self url w in
  (match out with
   | Refused text => Raise (PyExn InvalidURL text)
   | Sent (Body j) => Return j
   | Sent (Undecodable text) => Raise (PyExn JSONDecodeError text)
   | Sent (HTTPStatusError status hdrs text) =>
       if status =? 404 then
         Raise (HTTPException 404
                  (JStr ("Issue #" ++ PyStr.of_int issue_number ++ " not found in "
                         ++ owner ++ "/" ++ repo ++ " or repository is private")))
       else if (status =? 403)
               && String.eqb (header_get hdrs "X-RateLimit-Remaining" "unknown") "0" then
         Raise (HTTPException 429
                  (JDict (<["message" := JStr "GitHub API rate limit exceeded"]>
                         (<["reset_time" := JStr (header_get hdrs "X-RateLimit-Reset" "unknown")]>
                         (<["docs" := JStr "https://docs.github.com/en/rest/overview/resources-in-the-rest-api#rate-limiting"]> ∅)))))
       else Raise (HTTPException status (JStr ("GitHub API error: " ++ text)))
   | Sent (RequestError text) =>
       Raise (HTTPException 503 (JStr ("Failed to connect to GitHub API: " ++ text)))
   end, w').

Definition get_issue_comments (owner repo : string) (issue_number : Z)
    (self : GitHubClient) (w : world) : result json * world :=
  let url := comments_url owner repo issue_number in
  let '(out, w') := http_get self url w in
  (match out with
   | Refused text => Raise (PyExn InvalidURL text)
   | Sent (Body j) => Return j
   | Sent (Undecodable text) => Raise (PyExn JSONDecodeError text)
   | Sent (HTTPStatusError status hdrs text) =>
       if status =? 404 then Return (JList [])
       else Raise (HTTPException status (JStr ("Failed to fetch comments: " ++ text)))
   | Sent (RequestError text) =>
       Raise (HTTPException 503 (JStr ("Failed to connect to GitHub API: " ++ text)))
   end, w').

(** A stored value is always a dictionary built by this function, never
    [None], so [cached is not None] tests for a hit. *)
Definition get_issue_data (owner repo : string) (issue_number : Z)
    (self : GitHubClient) (w : world) : result IssueBundle * GitHubClient * world :=
  match _cache_get owner repo issue_number self w with
  | (Some cached, self1) => (Return cached, self1, w)
  | (None, self1) =>
      match get_issue owner repo issue_number self1 w with
      | (Raise e, w1) => (Raise e, self1, w1)
      | (Return issue_, w1) =>
          match get_issue_comments owner repo issue_number self1 w1 with
          | (Raise e, w2) => (Raise e, self1, w2)
          | (Return comments_, w2) =>
              let result_ := {| issue := issue_; comments := comments_ |} in
              (Return result_, _cache_set owner repo issue_number result_ self1 w2, w2)
          end
      end
  end.

End Client.

(** ** [app/main.py] *)

Inductive payload :=
| Analysis (a : IssueAnalysis)
| Json (j : json).

Record response := { status_code : Z; content : payload }.

Record HealthCheck := {
  status : string;
  version : string;
  uptime : option Z;
  dependencies : option (gmap string string)
}.

Module Main.
Section Handlers.
Context (env : Env).

Definition APP_VERSION : string := "1.0.0".

Definition extract_owner_repo (repo_url : string) : result (string * string) :=
  let repo_url := PyStr.rstrip_char "/" repo_url in
  let body : result (string * string) :=
    if negb (PyStr.contains "github.com" repo_url) then
      Raise (PyExn ValueError "Invalid GitHub URL")
    else
      let parts := PyStr.split "/" (PyStr.last_piece (PyStr.split "github.com/" repo_url)) in
      match parts with
      | owner :: repo :: _ => Return (owner, repo)
      | _ => Raise (PyExn ValueError "Invalid GitHub repository URL format")
      end in
  match body with
  | Return p => Return p
  | Raise e =>
      Raise (HTTPException 400
               (ErrorResponse_dict ("Invalid GitHub repository URL: " ++ exn_str env e)
                  (Some "invalid_url") (Some {[ "input" := JStr repo_url ]})))
  end.

(** The endpoint function of [POST /analyze]; [analyzer] is the value of
    the global [llm_analyzer] when the request runs. *)
Definition analyze_issue (analyzer : option LLMAnalyzer) (request : GitHubIssueRequest)
    (client : GitHubClient) (w : world) : result IssueAnalysis * GitHubClient * world :=
  let '(r, client', w') :=
    match extract_owner_repo (repo_url request) with
    | Raise e => (Raise e, client, w)
    | Return (owner, repo) =>
        match get_issue_data env owner repo (issue_number request) client w with
        | (Raise e, c1, w1) => (Raise e, c1, w1)
        | (Return issue_data, c1, w1) =>
            match analyzer with
            | None =>
                (Raise (HTTPException 503
                          (ErrorResponse_dict "LLM service is not available"
                             (Some "service_unavailable") None)), c1, w1)
            | Some a => (LLM.analyze_issue env a issue_data, c1, w1)
            end
        end
    end in
  (match r with
   | Return analysis => Return analysis
   | Raise (HTTPException sc d) => Raise (HTTPException sc d)
   | Raise e =>
       Raise (HTTPException 500
                (ErrorResponse_dict
                   ("An error occurred while processing your request: " ++ exn_str env e)
                   (Some "analysis_error") None))
   end, client', w').

(** [http_exception_handler] *)
Definition http_exception_handler (sc : Z) (detail : json) : response :=
  {| status_code := sc;
     content := Json (JDict (<["detail" := match detail with
                                           | JDict _ => detail
                                           | _ => JStr (py_str env detail)
                                           end]>
                            (<["status_code" := JInt sc]> ∅))) |}.

(** [global_exception_handler] *)
Definition global_exception_handler (e : exn) : response :=
  {| status_code := 500;
     content :=
       Json (JDict (<["detail" := JStr ("An unexpected error occurred: " ++ exn_str env e)]>
                   (<["error_type" := JStr "internal_server_error"]>
                   (<["status_code" := JInt 500]> ∅)))) |}.

(** [POST /analyze] as served by the application: FastAPI validates the
    body against [GitHubIssueRequest] ([issue_number] is declared [gt=0])
    and answers a violation with 422 before the endpoint function runs; an
    [HTTPException] raised by the endpoint goes to [http_exception_handler],
    any other exception to [global_exception_handler]; a returned analysis
    is sent with 200. *)
Definition post_analyze (analyzer : option LLMAnalyzer) (request : GitHubIssueRequest)
    (client : GitHubClient) (w : world) : response * GitHubClient * world :=
  if negb (0 <? issue_number request) then
    ({| status_code := 422;
        content := Json (JDict {[ "detail" :=
                     validation_errors env (repo_url request) (issue_number request) ]}) |},
     client, w)
  else
    let '(r, client', w') := analyze_issue analyzer request client w in
    (match r with
     | Return analysis => {| status_code := 200; content := Analysis analysis |}
     | Raise (HTTPException sc d) => http_exception_handler sc d
     | Raise e => global_exception_handler e
     end, client', w').

(** [GET /health]: the endpoint function returns the dictionary below and
    FastAPI sends it with 200; [started] is [START_TIME]. *)
Definition health_check (analyzer : option LLMAnalyzer) (started : Z) (w : world)
    : Z * HealthCheck :=
  (200,
   {| status := "healthy";
      version := APP_VERSION;
      uptime := Some (clock w - started);
      dependencies :=
        Some (<["github_api" := "operational"]>
             (<["llm_service" := match analyzer with
                                 | Some _ => "operational"
                                 | None => "unavailable"
                                 end]> ∅)) |}).

End Handlers.
End Main.

(** Two notions the statements about the request handler use: a request
    that passed the boundary checks and whose bundle was obtained, leaving
    the client and the world in a given state; and the response sent for a
    failure of the analysis with a given text. *)
Definition fetched (env : Env) (request : GitHubIssueRequest) (client : GitHubClient)
    (w : world) (issue_data : IssueBundle) (client' : GitHubClient) (w' : world) : Prop :=
  0 < issue_number request
  ∧ ∃ owner repo,
      Main.extract_owner_repo env (repo_url request) = Return (owner, repo)
      ∧ get_issue_data env owner repo (issue_number request) client w
        = (Return issue_data, client', w').

Definition processing_failure (text : string) : response :=
  {| status_code := 500;
     content :=
       Json (JDict (<["detail" :=
                        ErrorResponse_dict
                          ("An error occurred while processing your request: " ++ text)
                          (Some "analysis_error") None]>
                   (<["status_code" := JInt 500]> ∅))) |}.

(** ** The URL check of httpx

    As made by [httpx._urlparse.urlparse] in the current releases: a URL of
    more than 65536 characters is refused, and so is one that holds an
    ASCII character that is not printable (U+0000..U+001F and U+007F). *)

Module Httpx.

Definition MAX_URL_LENGTH : N := 65536.

Definition non_printable (c : ascii) : bool :=
  (PyStr.code c <? 32)%nat || (PyStr.code c =? 127)%nat.

(** The first character that satisfies [p], with its index counted from
    [i]. *)
Fixpoint first_char (p : ascii → bool) (s : string) (i : Z) : option (ascii * Z) :=
  match s with
  | EmptyString => None
  | String c s' => if p c then Some (c, i) else first_char p s' (i + 1)
  end.

Definition hex_digit (d : nat) : ascii :=
  if (d <? 10)%nat then ascii_of_nat (48 + d) else ascii_of_nat (87 + d).

(** [repr] of a text of one ASCII control character. *)
Definition repr_control (c : ascii) : string :=
  let n := PyStr.code c in
  "'"
  ++ (if (n =? 9)%nat then "\t"
      else if (n =? 10)%nat then "\n"
      else if (n =? 13)%nat then "\r"
      else "\x" ++ String (hex_digit (n / 16)) (String (hex_digit (n mod 16)) ""))
  ++ "'".

Definition invalid_url (url : string) : option string :=
  if (MAX_URL_LENGTH <? N.of_nat (String.length url))%N then Some "URL too long"
  else
    match first_char non_printable url 0 with
    | Some (c, i) =>
        Some ("Invalid non-printable ASCII character in URL, " ++ repr_control c
              ++ " at position " ++ PyStr.of_int i ++ ".")
    | None => None
    end.

End Httpx.

(** ** A concrete environment

    Used to run the model on closed inputs: a GitHub service that knows one
    repository, a provider that answers every prompt with a fixed text, and
    a decoder that knows the few documents the examples use. *)

Module Sample.

Definition q : string := String (ascii_of_nat 34) EmptyString.

(** ['[' * 1000]: a text that is not JSON and is nested too deeply for the
    decoder to find that out. *)
Fixpoint copies (n : nat) (c : ascii) : string :=
  match n with
  | O => EmptyString
  | S k => String c (copies k c)
  end.

Definition deep_reply : string := copies 1000 "[".

(** The text of a reply with three fields, and the text of a reply with
    eight labels. *)
Definition reply_three : string :=
  "{" ++ q ++ "summary" ++ q ++ ": " ++ q ++ "Login fails" ++ q ++ ", "
  ++ q ++ "suggested_labels" ++ q ++ ": [" ++ q ++ "bug" ++ q ++ ", "
  ++ q ++ "authentication" ++ q ++ "], "
  ++ q ++ "potential_impact" ++ q ++ ": " ++ q ++ "Users are locked out" ++ q ++ "}".

Definition reply_eight : string :=
  "{" ++ q ++ "type" ++ q ++ ": " ++ q ++ " FEATURE REQUEST " ++ q ++ ", "
  ++ q ++ "priority_score" ++ q ++ ": 5, "
  ++ q ++ "suggested_labels" ++ q ++ ": ["
  ++ q ++ "a" ++ q ++ ", " ++ q ++ "b" ++ q ++ ", " ++ q ++ "c" ++ q ++ ", "
  ++ q ++ "d" ++ q ++ ", " ++ q ++ "e" ++ q ++ ", " ++ q ++ "f" ++ q ++ ", "
  ++ q ++ "g" ++ q ++ ", " ++ q ++ "h" ++ q ++ "]}".

Definition doc_three : gmap string json :=
  <["summary" := JStr "Login fails"]>
  (<["suggested_labels" := JList [JStr "bug"; JStr "authentication"]]>
  (<["potential_impact" := JStr "Users are locked out"]> ∅)).

Definition doc_eight : gmap string json :=
  <["type" := JStr " FEATURE REQUEST "]>
  (<["priority_score" := JInt 5]>
  (<["suggested_labels" :=
       JList (List.map JStr ["a"; "b"; "c"; "d"; "e"; "f"; "g"; "h"])]> ∅)).

Definition decode (text : string) : json + (exn_class * string) :=
  if String.eqb text reply_three then inl (JDict doc_three)
  else if String.eqb text reply_eight then inl (JDict doc_eight)
  else if String.eqb text "{}" then inl (JDict ∅)
  else if String.eqb text "[]" then inl (JList [])
  else if String.eqb text deep_reply then
    inr (RecursionError,
         "maximum recursion depth exceeded while decoding a JSON array from a unicode string")
  else inr (JSONDecodeError, "Expecting value: line 1 column 1 (char 0)").

Definition an_issue : json :=
  JDict (<["number" := JInt 1]>
        (<["title" := JStr "Login error"]>
        (<["body" := JStr "500 when logging in"]>
        (<["user" := JDict {[ "login" := JStr "alice" ]}]>
        (<["state" := JStr "open"]>
        (<["created_at" := JStr "2024-01-01"]>
        (<["updated_at" := JStr "2024-01-02"]> ∅))))))).

(** Issue 1 of facebook/react exists and its comments endpoint answers
    404; every other URL answers 404 as well.  A reply takes one tick. *)
Definition service (_ : list string) (now : Z) (url : string)
    (_ : list (string * string)) : http_outcome * Z :=
  (if String.eqb url "https://api.github.com/repos/facebook/react/issues/1"
   then Body an_issue
   else HTTPStatusError 404 [] "Client error '404 Not Found'",
   now + 1).

Definition env (vars : gmap string string) (reply : string) : Env :=
  {| environ := vars;
     json_loads := decode;
     container_repr := λ _, "<container>";
     fault_text := λ _, "<fault>";
     coerces_numbers := true;
     sdk_import := λ _, None;
     sdk_configure := λ _ _, None;
     invalid_url := Httpx.invalid_url;
     transport := service;
     validation_errors := λ _ _, JList [];
     openai_chat := λ _ _, Return (Some reply);
     gemini_generate := λ _ _, Return reply |}.

(** The same surroundings with GitHub out of reach. *)
Definition offline (reply : string) : Env :=
  {| environ := ∅;
     json_loads := decode;
     container_repr := λ _, "<container>";
     fault_text := λ _, "<fault>";
     coerces_numbers := true;
     sdk_import := λ _, None;
     sdk_configure := λ _ _, None;
     invalid_url := Httpx.invalid_url;
     transport := λ _ now _ _, (RequestError "All connection attempts failed", now + 1);
     validation_errors := λ _ _, JList [];
     openai_chat := λ _ _, Return (Some reply);
     gemini_generate := λ _ _, Return reply |}.

Definition with_openai_key : gmap string string := {[ "OPENAI_API_KEY" := "sk-test" ]}.

(** Both credentials are present, the selector names neither provider. *)
Definition other_selector : gmap string string :=
  <["LLM_PROVIDER" := "anthropic"]>
  (<["OPENAI_API_KEY" := "sk-test"]>
  (<["GEMINI_API_KEY" := "g-test"]> ∅)).

Definition openai : LLMAnalyzer := {| provider := "openai" |}.

Definition client0 : GitHubClient :=
  {| headers := []; _cache := ∅; _cache_expiry := ∅; ttl_seconds := 300 |}.

Definition world0 : world := {| clock := 1000; sent := [] |}.

Definition react1 : GitHubIssueRequest :=
  {| repo_url := "https://github.com/facebook/react"; issue_number := 1 |}.

Definition bundle1 : IssueBundle := {| issue := an_issue; comments := JList [] |}.

(** What the analyser makes of the two replies. *)
Definition analysis_three : IssueAnalysis :=
  {| summary := "Login fails"; type := OTHER; priority_score := "1";
     suggested_labels := ["bug"; "authentication"];
     potential_impact := "Users are locked out" |}.

Definition analysis_eight : IssueAnalysis :=
  {| summary := ""; type := FEATURE_REQUEST; priority_score := "5";
     suggested_labels := ["a"; "b"; "c"; "d"; "e"];
     potential_impact := "" |}.

End Sample.

(** ** Further vocabulary *)

(** The two cache dictionaries hold the same keys. *)
Definition cache_consistent (c : GitHubClient) : Prop :=
  dom (_cache c) = dom (_cache_expiry c).

(** The text [_format_issue_data] adds for the [i]-th comment, for the
    login of its author and its body. *)
Definition comment_block (env : Env) (i : Z) (login body : json) : string :=
  PyStr.nl ++ "--- Comment " ++ PyStr.of_int i ++ " by " ++ py_str env login
  ++ " ---" ++ PyStr.nl ++ py_str env body ++ PyStr.nl.

(** The author login and the body of a comment, when it has both. *)
Definition comment_parts (comment : json) : option (json * json) :=
  match comment with
  | JDict c =>
      match c !! "user", c !! "body" with
      | Some (JDict u), Some body =>
          match u !! "login" with
          | Some login => Some (login, body)
          | None => None
          end
      | _, _ => None
      end
  | _ => None
  end.

(** The blocks of a list of comments, numbered from [i]. *)
Fixpoint comment_blocks (env : Env) (i : Z) (cs : list json) : option string :=
  match cs with
  | [] => Some ""
  | comment :: cs' =>
      match comment_parts comment, comment_blocks env (i + 1) cs' with
      | Some (login, body), Some rest => Some (comment_block env i login body ++ rest)
      | _, _ => None
      end
  end.

(** The body FastAPI sends for a returned [IssueAnalysis]; a member of
    [IssueType], a [str] enumeration, is sent as its value. *)
Definition IssueAnalysis_json (a : IssueAnalysis) : gmap string json :=
  <["summary" := JStr (summary a)]>
  (<["type" := JStr (IssueType_value (type a))]>
  (<["priority_score" := JStr (priority_score a)]>
  (<["suggested_labels" := JList (List.map JStr (suggested_labels a))]>
  (<["potential_impact" := JStr (potential_impact a)]> ∅)))).

(** A field of a reply that is either absent or a text: the text the
    analysis gets for it. *)
Definition text_field (d : gmap string json) (k : string) : option string :=
  match d !! k with
  | None => Some ""
  | Some (JStr s) => Some s
  | Some _ => None
  end.

(** [pieces[-2:]] *)
Definition last_two (pieces : list string) : list string :=
  List.skipn (List.length pieces - 2) pieces.

(** ** [frontend/streamlit_app.py] *)

Module Frontend.

Definition get_priority_class (score : Z) : string :=
  if 4 <=? score then "priority-high"
  else if 3 <=? score then "priority-medium"
  else "priority-low".

Definition type_classes : gmap string string :=
  <["bug" := "bug-tag"]>
  (<["feature_request" := "feature-tag"]>
  (<["documentation" := "docs-tag"]>
  (<["question" := "question-tag"]> ∅))).

Definition get_issue_type_tag (issue_type : string) : string :=
  default "other-tag" (type_classes !! issue_type).

(** [c.isdigit()] for a character of U+0000..U+00FF: the ASCII digits and
    the superscripts two, three and one.  (Beyond this range, which the
    texts of this development do not reach, [isdigit] also holds of the
    decimal digits of other scripts.) *)
Definition isdigit (c : ascii) : bool :=
  let n := PyStr.code c in
  ((48 <=? n)%nat && (n <=? 57)%nat) || (n =? 178)%nat || (n =? 179)%nat || (n =? 185)%nat.

(** [int(c)] for a text of one character of U+0000..U+00FF: only an ASCII
    digit has a value, anything else raises [ValueError].  (Beyond this
    range [int] also gives the value of a decimal digit of another
    script.) *)
Definition int_of_char (c : ascii) : option Z :=
  let n := PyStr.code c in
  if (48 <=? n)%nat && (n <=? 57)%nat then Some (Z.of_nat n - 48) else None.

(** Lines 176-181 of [display_analysis], for a priority text over
    U+0000..U+00FF: the score read off the text; every exception
    ([IndexError] on an empty text, [ValueError] of [int]) gives 1. *)
Definition prio_num (env : Env) (result : gmap string json) : Z :=
  let prio_str := py_str env (default (JStr "1") (result !! "priority_score")) in
  match PyStr.strip prio_str with
  | EmptyString => 1
  | String c _ =>
      if isdigit c then
        match int_of_char c with
        | Some n => n
        | None => 1
        end
      else 1
  end.

Definition priority_class (env : Env) (result : gmap string json) : string :=
  get_priority_class (prio_num env result).

(** Line 188: the labels a tag is drawn for. *)
Definition shown_labels (env : Env) (result_ : gmap string json) : result json :=
  slice_to env 4 (default (JList []) (result_ !! "suggested_labels")).

(** Lines 247-248 of [main]: the link to the issue. *)
Definition repo_path (repo_url : string) : string :=
  join "/" (last_two (PyStr.split "/" (PyStr.rstrip_char "/" repo_url))).

Definition issue_link (repo_url : string) (issue_number : Z) : string :=
  "https://github.com/" ++ repo_path repo_url ++ "/issues/" ++ PyStr.of_int issue_number.

(** [analyze_issue] applied to the answer of the backend, with the messages
    given to [st.error]: [raise_for_status] raises for the statuses 400 to
    599, and then nothing is returned and the [detail] of the body is
    shown, [error_text], the [str(e)] of the [HTTPError], standing in for a
    missing one; otherwise the decoded body is returned.  An error body
    that is not an object has no [get] and the [AttributeError] escapes. *)
Definition analyze_issue (env : Env) (error_text : string) (r : response)
    : result (option json * list string) :=
  let body := match content r with
              | Analysis a => JDict (IssueAnalysis_json a)
              | Json j => j
              end in
  if (400 <=? status_code r) && (status_code r <? 600) then
    match py_get env body "detail" (JStr error_text) with
    | Return d => Return (None, ["Error: " ++ py_str env d])
    | Raise e => Raise e
    end
  else Return (Some body, []).

End Frontend.

(** ** Further concrete surroundings *)

Module Scenario.

(** The surroundings of [Sample.env] with another GitHub service and
    other variables. *)
Definition env (vars : gmap string string)
    (svc : list string → Z → string → list (string * string) → http_outcome * Z)
    (reply : string) : Env :=
  {| environ := vars;
     json_loads := Sample.decode;
     container_repr := λ _, "<container>";
     fault_text := λ _, "<fault>";
     coerces_numbers := true;
     sdk_import := λ _, None;
     sdk_configure := λ _ _, None;
     invalid_url := Httpx.invalid_url;
     transport := svc;
     validation_errors := λ _ _, JList [];
     openai_chat := λ _ _, Return (Some reply);
     gemini_generate := λ _ _, Return reply |}.

(** Every request is refused for rate limiting; the header names are in
    lower case, as HTTP/2 sends them. *)
Definition rate_limited (_ : list string) (now : Z) (_ : string)
    (_ : list (string * string)) : http_outcome * Z :=
  (HTTPStatusError 403
     [("x-ratelimit-remaining", "0"); ("x-ratelimit-reset", "1625097600")]
     "Client error '403 Forbidden'",
   now + 1).

(** The same refusal with the header [x-ratelimit-remaining] sent twice. *)
Definition limit_sent_twice (_ : list string) (now : Z) (_ : string)
    (_ : list (string * string)) : http_outcome * Z :=
  (HTTPStatusError 403
     [("x-ratelimit-remaining", "0"); ("x-ratelimit-remaining", "0")]
     "Client error '403 Forbidden'",
   now + 1).

(** The issue is served, the comments endpoint is refused for rate
    limiting. *)
Definition comments_refused (sent_ : list string) (now : Z) (url : string)
    (hdrs : list (string * string)) : http_outcome * Z :=
  if String.eqb url "https://api.github.com/repos/facebook/react/issues/1"
  then (Body Sample.an_issue, now + 1)
  else rate_limited sent_ now url hdrs.

(** One comment by bob on issue 1. *)
Definition a_comment : json :=
  JDict (<["user" := JDict {[ "login" := JStr "bob" ]}]>
        (<["body" := JStr "Same here"]> ∅)).

Definition with_comment (_ : list string) (now : Z) (url : string)
    (_ : list (string * string)) : http_outcome * Z :=
  (if String.eqb url "https://api.github.com/repos/facebook/react/issues/1"
   then Body Sample.an_issue
   else Body (JList [a_comment]),
   now + 1).

End Scenario.

(** * Properties *)

(** ** Strings *)

Module PyStrFacts.
Import PyStr.

Lemma append_cons c (a b : string) : String c a ++ b = String c (a ++ b).
Proof. reflexivity. Qed.

Lemma append_nil (b : string) : "" ++ b = b.
Proof. reflexivity. Qed.

Lemma lstrip_by_split p s :
  ∃ pre, s = pre ++ lstrip_by p s ∧ all_chars p pre = true.
Proof.
  induction s as [|c s IH]; simpl.
  - by exists "".
  - destruct (p c) eqn:Hc.
    + destruct IH as (pre & Heq & Hall).
      exists (String c pre). simpl. rewrite Hc, Hall, append_cons. by rewrite <- Heq.
    + by exists "".
Qed.

Lemma lstrip_by_head p s : starts_with_char p (lstrip_by p s) = false.
Proof.
  induction s as [|c s IH]; simpl; [done |].
  destruct (p c) eqn:Hc; [done | by simpl].
Qed.

Lemma rstrip_by_split p s :
  ∃ post, s = rstrip_by p s ++ post ∧ all_chars p post = true.
Proof.
  induction s as [|c s IH]; simpl.
  - by exists "".
  - destruct IH as (post & Heq & Hall).
    destruct (rstrip_by p s) as [|c' r] eqn:Hr.
    + destruct (p c) eqn:Hc.
      * exists (String c post). rewrite append_nil in *. simpl. rewrite Hc, Hall. by rewrite <- Heq.
      * exists post. rewrite append_nil in Heq. rewrite append_cons, append_nil. by subst.
    + exists post. rewrite append_cons. by rewrite <- Heq.
Qed.

Lemma rstrip_by_tail p s : ends_with_char p (rstrip_by p s) = false.
Proof.
  induction s as [|c s IH]; simpl; [done |].
  destruct (rstrip_by p s) as [|c' r] eqn:Hr.
  - destruct (p c) eqn:Hc; simpl; done.
  - exact IH.
Qed.

Lemma rstrip_by_head p s :
  starts_with_char p s = false → starts_with_char p (rstrip_by p s) = false.
Proof.
  destruct s as [|c s]; simpl; [done |].
  intros Hc. destruct (rstrip_by p s); simpl; [by rewrite Hc | done].
Qed.

Lemma map_chars_length f s : String.length (map_chars f s) = String.length s.
Proof. induction s; simpl; congruence. Qed.

Lemma replace_char_absent a b s :
  a ≠ b → all_chars (λ c, negb (Ascii.eqb c a)) (replace_char a b s) = true.
Proof.
  intros Hab. unfold replace_char.
  induction s as [|c s IH]; simpl; [done |].
  rewrite IH, andb_true_r.
  destruct (Ascii.eqb c a) eqn:Hc.
  - apply negb_true_iff, Ascii.eqb_neq. congruence.
  - by rewrite Hc.
Qed.

End PyStrFacts.

(** ** The analysis normaliser *)

Section AnalyzerFacts.
Context (env : Env).

Lemma known_type_value t : LLM.known_type (IssueType_value t) = true.
Proof. by destruct t. Qed.

Lemma known_type_inv s : LLM.known_type s = true → ∃ t, IssueType_value t = s.
Proof.
  unfold LLM.known_type. simpl. rewrite !orb_true_iff, !String.eqb_eq.
  intros [H|[H|[H|[H|[H|H]]]]]; try done; subst.
  - by exists BUG.
  - by exists FEATURE_REQUEST.
  - by exists DOCUMENTATION.
  - by exists QUESTION.
  - by exists OTHER.
Qed.

Lemma IssueType_of_value t : IssueType_of (IssueType_value t) = Some t.
Proof. by destruct t. Qed.

Lemma normalize_type_dict d :
  LLM.normalize_type env (JDict d) =
  Return (let c := LLM.clean_type env (default (JStr "other") (d !! "type")) in
          if LLM.known_type c then c else "other").
Proof. reflexivity. Qed.

(** The normalised type is always the value of a member of [IssueType]. *)
Lemma normalize_type_member d :
  ∃ ty, LLM.normalize_type env (JDict d) = Return (IssueType_value ty)
        ∧ LLM.IssueType_call (IssueType_value ty) = Return ty
        ∧ let c := LLM.clean_type env (default (JStr "other") (d !! "type")) in
          c = IssueType_value ty ∨ (ty = OTHER ∧ ∀ t, IssueType_value t ≠ c).
Proof.
  rewrite normalize_type_dict. cbv zeta.
  destruct (LLM.known_type _) eqn:Hk.
  - destruct (known_type_inv _ Hk) as [t Ht]. exists t.
    unfold LLM.IssueType_call. rewrite IssueType_of_value.
    split; [by rewrite Ht |]. split; [done | by left].
  - exists OTHER. repeat split. right. split; [done |].
    intros t Ht. rewrite <- Ht, known_type_value in Hk. done.
Qed.

End AnalyzerFacts.

(** C2: the type given by the provider is stripped of surrounding white
    space, lower-cased and has its spaces replaced by underscores; the
    outcome is kept when it is the value of one of the five members of
    [IssueType] and replaced by [other] otherwise, so the step always
    yields a member and [IssueType(...)] never fails on it.  The inputs
    "Bug", " FEATURE REQUEST " and "nonsense" give [bug],
    [feature_request] and [other]. *)
Theorem C2_type_normalization (env : Env) (d : gmap string json) :
  let given := py_str env (default (JStr "other") (d !! "type")) in
  let cleaned := PyStr.replace_char " " "_" (PyStr.lower (PyStr.strip given)) in
  (∃ ty, LLM.normalize_type env (JDict d) = Return (IssueType_value ty)
         ∧ LLM.IssueType_call (IssueType_value ty) = Return ty
         ∧ (cleaned = IssueType_value ty
            ∨ (ty = OTHER ∧ ∀ t, IssueType_value t ≠ cleaned)))
  ∧ (∃ pre post, given = pre ++ PyStr.strip given ++ post
                 ∧ PyStr.all_chars PyStr.isspace pre = true
                 ∧ PyStr.all_chars PyStr.isspace post = true
                 ∧ PyStr.starts_with_char PyStr.isspace (PyStr.strip given) = false
                 ∧ PyStr.ends_with_char PyStr.isspace (PyStr.strip given) = false)
  ∧ String.length cleaned = String.length (PyStr.strip given)
  ∧ PyStr.all_chars (λ c, negb (Ascii.eqb c " ")) cleaned = true
  ∧ LLM.normalize_type env (JDict {[ "type" := JStr "Bug" ]}) = Return "bug"
  ∧ LLM.normalize_type env (JDict {[ "type" := JStr " FEATURE REQUEST " ]})
    = Return "feature_request"
  ∧ LLM.normalize_type env (JDict {[ "type" := JStr "nonsense" ]}) = Return "other".
Proof.
  intros given cleaned.
  split; [exact (normalize_type_member env d) |].
  split.
  { destruct (PyStrFacts.lstrip_by_split PyStr.isspace given) as (pre & Hpre & Hblank).
    destruct (PyStrFacts.rstrip_by_split PyStr.isspace
                (PyStr.lstrip_by PyStr.isspace given)) as (post & Hpost & Hblank').
    exists pre, post. unfold PyStr.strip.
    rewrite <- Hpost, <- Hpre. repeat split; try done.
    - apply PyStrFacts.rstrip_by_head, PyStrFacts.lstrip_by_head.
    - apply PyStrFacts.rstrip_by_tail. }
  split.
  { unfold cleaned, PyStr.replace_char, PyStr.lower.
    by rewrite !PyStrFacts.map_chars_length. }
  split; [by apply PyStrFacts.replace_char_absent |].
  by vm_compute.
Qed.

Section ReplyFacts.
Context (env : Env).

(** [analyze_issue] once the provider has answered. *)
Lemma analyze_issue_replied self bundle content :
  replied env self bundle content →
  LLM.analyze_issue env self bundle =
  match rbind (LLM.loads env content) (LLM.build_analysis env) with
  | Return a => Return a
  | Raise (PyExn JSONDecodeError text) =>
      Raise (PyExn ValueError ("Failed to parse LLM response: " ++ text))
  | Raise e => Raise (PyExn Exception_ ("Error during LLM analysis: " ++ exn_str env e))
  end.
Proof.
  intros (prompt & Hfmt & Hrep).
  unfold LLM.analyze_issue, LLM.analyze_body. rewrite Hfmt. simpl. by rewrite Hrep.
Qed.

(** A returned analysis comes from a provider answer that decoded. *)
Lemma analyze_issue_return self bundle a :
  LLM.analyze_issue env self bundle = Return a →
  ∃ content parsed,
    replied env self bundle (Some content)
    ∧ json_loads env content = inl parsed
    ∧ LLM.build_analysis env parsed = Return a.
Proof.
  unfold LLM.analyze_issue, LLM.analyze_body, replied.
  destruct (LLM._format_issue_data env bundle) as [prompt|e] eqn:Hfmt; simpl; [| done].
  destruct (LLM.provider_reply env self prompt) as [content|e] eqn:Hrep; simpl.
  - destruct content as [c|]; simpl.
    + destruct (json_loads env c) as [v|[cls t]] eqn:Hl; simpl.
      * destruct (LLM.build_analysis env v) as [a'|e] eqn:Hb.
        -- intros [= ->]. exists c, v. eauto.
        -- by destruct e as [| [] ].
      * by destruct cls.
    + done.
  - by destruct e as [| [] ].
Qed.

Lemma validate_strs_length l ss :
  validate_strs env l = Some ss → List.length ss = List.length l.
Proof.
  revert ss. induction l as [|v l IH]; simpl; intros ss.
  - by intros [= <-].
  - destruct (validate_str env v); [| done].
    destruct (validate_strs env l) as [ss'|]; [| done].
    intros [= <-]. simpl. f_equal. by apply IH.
Qed.

(** What a returned analysis says about the decoded reply. *)
Lemma build_analysis_return parsed a :
  LLM.build_analysis env parsed = Return a →
  ∃ d ls,
    parsed = JDict d
    ∧ LLM.normalize_type env parsed = Return (IssueType_value (type a))
    ∧ LLM.normalize_priority env parsed = Return (priority_score a)
    ∧ LLM.normalize_labels env parsed = Return (JList ls)
    ∧ validate_strs env ls = Some (suggested_labels a)
    ∧ (1 ≤ List.length (suggested_labels a) ≤ 5)%nat
    ∧ validate_str env (default (JStr "") (d !! "summary")) = Some (summary a)
    ∧ validate_str env (default (JStr "") (d !! "potential_impact"))
      = Some (potential_impact a).
Proof.
  destruct parsed as [| | | | | |d]; try done.
  intros Hb. exists d.
  destruct (normalize_type_member env d) as (ty & Hty & Hcall & _).
  unfold LLM.build_analysis in Hb. rewrite Hty in Hb. simpl in Hb.
  rewrite Hcall in Hb. simpl in Hb.
  unfold LLM.normalize_labels in *. simpl in *.
  destruct (slice_to env 5 (default (JList []) (d !! "suggested_labels")))
    as [labels|e] eqn:Hs; simpl in Hb; [| done].
  unfold IssueAnalysis_new in Hb.
  destruct (validate_str env (default (JStr "") (d !! "summary"))) as [s|] eqn:Hsum;
    destruct (validate_labels env labels) as [ls|] eqn:Hls;
    destruct (validate_str env (default (JStr "") (d !! "potential_impact")))
      as [p|] eqn:Himp; try done.
  injection Hb as <-. simpl.
  unfold validate_labels in Hls.
  destruct labels as [| | | | |l|]; try done.
  destruct (validate_strs env l) as [ss|] eqn:Hss; [| done].
  destruct ((1 <=? List.length ss)%nat && (List.length ss <=? 5)%nat) eqn:Hlen; [| done].
  injection Hls as <-.
  apply andb_true_iff in Hlen as [H1 H5].
  apply Nat.leb_le in H1, H5.
  exists l. repeat split; try done.
Qed.

(** Nothing in the normalisation raises a [JSONDecodeError]. *)
Lemma build_analysis_raise parsed e :
  LLM.build_analysis env parsed = Raise e →
  ∃ cls text, e = PyExn cls text ∧ cls ≠ JSONDecodeError.
Proof.
  destruct parsed as [| | | | | |d];
    try (intros [= <-]; eexists _, _; split; [reflexivity | done]).
  destruct (normalize_type_member env d) as (ty & Hty & Hcall & _).
  unfold LLM.build_analysis. rewrite Hty. simpl. rewrite Hcall. simpl.
  unfold LLM.normalize_labels. simpl.
  destruct (default (JList []) (d !! "suggested_labels")) as [| | | | | |] eqn:Hl; simpl;
    try (intros [= <-]; eexists _, _; split; [reflexivity | done]);
    unfold IssueAnalysis_new;
    repeat match goal with
           | |- context [match ?x with _ => _ end] => destruct x eqn:?
           end;
    try done;
    try (intros [= <-]; eexists _, _; split; [reflexivity | done]).
Qed.

End ReplyFacts.

(** A returned analysis is the one built from the decoded reply. *)
Lemma analyze_issue_decoded env self bundle content parsed a :
  replied env self bundle (Some content) →
  json_loads env content = inl parsed →
  LLM.analyze_issue env self bundle = Return a →
  LLM.build_analysis env parsed = Return a.
Proof.
  intros Hrep Hload. rewrite (analyze_issue_replied env _ _ _ Hrep).
  simpl. rewrite Hload. simpl.
  destruct (LLM.build_analysis env parsed) as [a'|e]; [congruence |].
  by destruct e as [| [] ].
Qed.

Section ReplyShapes.
Context (env : Env).

Lemma validate_strs_texts ls : validate_strs env (List.map JStr ls) = Some ls.
Proof. induction ls as [|s ls IH]; [done |]. simpl. by rewrite IH. Qed.

Lemma text_field_validate d k s :
  text_field d k = Some s → validate_str env (default (JStr "") (d !! k)) = Some s.
Proof.
  unfold text_field. destruct (d !! k) as [[| | | | | |]|]; simpl; congruence.
Qed.

Lemma firstn_map_JStr n (ls : list string) :
  List.firstn n (List.map JStr ls) = List.map JStr (List.firstn n ls).
Proof. apply firstn_map. Qed.

(** [build_analysis] on an object, with the type and the priority the
    normalisation gives. *)
Lemma build_analysis_object d :
  ∃ ty prio,
    LLM.normalize_type env (JDict d) = Return (IssueType_value ty)
    ∧ LLM.normalize_priority env (JDict d) = Return prio
    ∧ LLM.build_analysis env (JDict d)
      = rbind (slice_to env 5 (default (JList []) (d !! "suggested_labels")))
          (λ labels, IssueAnalysis_new env (default (JStr "") (d !! "summary")) ty prio
                       labels (default (JStr "") (d !! "potential_impact"))).
Proof.
  destruct (normalize_type_member env d) as (ty & Hty & Hcall & _).
  exists ty. eexists. split; [exact Hty |]. split; [reflexivity |].
  unfold LLM.build_analysis. rewrite Hty. cbn [rbind]. rewrite Hcall.
  reflexivity.
Qed.

End ReplyShapes.

(** The analysis made of a reply with all its fields in order. *)
Lemma analyze_issue_well_formed env self bundle content d (ls : list string) s p :
  replied env self bundle (Some content) →
  json_loads env content = inl (JDict d) →
  d !! "suggested_labels" = Some (JList (List.map JStr ls)) →
  ls ≠ [] →
  text_field d "summary" = Some s →
  text_field d "potential_impact" = Some p →
  ∃ ty prio,
    LLM.normalize_type env (JDict d) = Return (IssueType_value ty)
    ∧ LLM.normalize_priority env (JDict d) = Return prio
    ∧ LLM.analyze_issue env self bundle
      = Return {| summary := s; type := ty; priority_score := prio;
                  suggested_labels := List.firstn 5 ls; potential_impact := p |}.
Proof.
  intros Hrep Hload Hl Hne Hs Hp.
  destruct (build_analysis_object env d) as (ty & prio & Hty & Hprio & Hb).
  exists ty, prio. split; [exact Hty |]. split; [exact Hprio |].
  rewrite (analyze_issue_replied env _ _ _ Hrep). simpl. rewrite Hload. simpl.
  rewrite Hb, Hl. simpl. unfold IssueAnalysis_new.
  rewrite (text_field_validate env _ _ _ Hs), (text_field_validate env _ _ _ Hp).
  unfold validate_labels.
  rewrite firstn_map_JStr, validate_strs_texts.
  assert ((1 <=? List.length (List.firstn 5 ls))%nat
          && (List.length (List.firstn 5 ls) <=? 5)%nat = true) as ->.
  { rewrite List.length_firstn. apply andb_true_iff. split; apply Nat.leb_le.
    - destruct ls; [done | simpl; lia].
    - lia. }
  done.
Qed.


(** The sample request and the sample provider. *)
Lemma sample_fetched reply :
  fetched (Sample.env ∅ reply) Sample.react1 Sample.client0 Sample.world0 Sample.bundle1
    (_cache_set "facebook" "react" 1 Sample.bundle1 Sample.client0
       {| clock := 1002; sent := [] |})
    {| clock := 1002;
       sent := ["https://api.github.com/repos/facebook/react/issues/1";
                "https://api.github.com/repos/facebook/react/issues/1/comments"] |}.
Proof. split; [done |]. exists "facebook", "react". split; by vm_compute. Qed.

Lemma sample_replied vars reply :
  replied (Sample.env vars reply) Sample.openai Sample.bundle1 (Some reply).
Proof. eexists. split; by vm_compute. Qed.

(** C7: the labels handed to the schema are the first five entries of the
    list the provider gave, hence at most five; a list of eight entries is
    cut to exactly five; without the field the empty list is handed over.
    The analysis that is returned carries exactly these labels: its labels
    are the first five entries of the reply, one for one and in order, so
    exactly five for a reply with eight; and a reply with all its fields in
    order and a non-empty list of labels does give an analysis, with the
    first five labels of the list. *)
Theorem C7_labels_truncated (env : Env) (d : gmap string json) (l : list json) :
  LLM.normalize_labels env (JDict (<["suggested_labels" := JList l]> d))
    = Return (JList (List.firstn 5 l))
  ∧ List.length (List.firstn 5 l) = Nat.min 5 (List.length l)
  ∧ (List.length l = 8%nat → List.length (List.firstn 5 l) = 5%nat)
  ∧ LLM.normalize_labels env (JDict (delete "suggested_labels" d)) = Return (JList [])
  ∧ (∀ self bundle a,
       LLM.analyze_issue env self bundle = Return a →
       (List.length (suggested_labels a) ≤ 5)%nat)
  ∧ (∃ ty prio,
       LLM.build_analysis env (JDict (<["suggested_labels" := JList l]> d))
       = IssueAnalysis_new env (default (JStr "") (d !! "summary")) ty prio
           (JList (List.firstn 5 l)) (default (JStr "") (d !! "potential_impact")))
  ∧ (∃ ty prio,
       LLM.build_analysis env (JDict (delete "suggested_labels" d))
       = IssueAnalysis_new env (default (JStr "") (d !! "summary")) ty prio
           (JList []) (default (JStr "") (d !! "potential_impact")))
  ∧ (∀ self bundle content a,
       replied env self bundle (Some content) →
       json_loads env content = inl (JDict (<["suggested_labels" := JList l]> d)) →
       LLM.analyze_issue env self bundle = Return a →
       validate_strs env (List.firstn 5 l) = Some (suggested_labels a)
       ∧ List.length (suggested_labels a) = Nat.min 5 (List.length l)
       ∧ (List.length l = 8%nat → List.length (suggested_labels a) = 5%nat)
       ∧ (∀ ls : list string, l = List.map JStr ls →
                              suggested_labels a = List.firstn 5 ls))
  ∧ (∀ self bundle content (ls : list string) s p,
       replied env self bundle (Some content) →
       json_loads env content = inl (JDict (<["suggested_labels" := JList l]> d)) →
       l = List.map JStr ls →
       ls ≠ [] →
       text_field d "summary" = Some s →
       text_field d "potential_impact" = Some p →
       ∃ a, LLM.analyze_issue env self bundle = Return a
            ∧ suggested_labels a = List.firstn 5 ls).
Proof.
  assert (Hin : ∀ k, k ≠ "suggested_labels" →
                     (<["suggested_labels" := JList l]> d : gmap string json) !! k = d !! k).
  { intros k Hk. by rewrite lookup_insert_ne. }
  assert (Hdel : ∀ k, k ≠ "suggested_labels" →
                      (delete "suggested_labels" d : gmap string json) !! k = d !! k).
  { intros k Hk. by rewrite lookup_delete_ne. }
  split.
  { unfold LLM.normalize_labels. simpl. by rewrite lookup_insert_eq. }
  split; [apply List.length_firstn |].
  split; [intros H8; rewrite List.length_firstn, H8; reflexivity |].
  split.
  { unfold LLM.normalize_labels. simpl. by rewrite lookup_delete_eq. }
  split.
  { intros self bundle a Ha.
    destruct (analyze_issue_return env _ _ _ Ha) as (content & parsed & _ & _ & Hb).
    destruct (build_analysis_return env _ _ Hb)
      as (d' & ls & _ & _ & _ & _ & _ & Hlen & _).
    lia. }
  split.
  { destruct (build_analysis_object env (<["suggested_labels" := JList l]> d))
      as (ty & prio & _ & _ & Hb).
    exists ty, prio. rewrite Hb, lookup_insert_eq, !Hin by done. reflexivity. }
  split.
  { destruct (build_analysis_object env (delete "suggested_labels" d))
      as (ty & prio & _ & _ & Hb).
    exists ty, prio. rewrite Hb, lookup_delete_eq, !Hdel by done. reflexivity. }
  split.
  { intros self bundle content a Hrep Hload Ha.
    pose proof (analyze_issue_decoded env _ _ _ _ _ Hrep Hload Ha) as Hb.
    destruct (build_analysis_return env _ _ Hb)
      as (d' & ls' & _ & _ & _ & Hl & Hv & _).
    unfold LLM.normalize_labels in Hl. simpl in Hl. rewrite lookup_insert_eq in Hl.
    simpl in Hl. injection Hl as <-.
    pose proof (validate_strs_length env _ _ Hv) as Hn.
    rewrite List.length_firstn in Hn.
    split; [exact Hv |]. split; [exact Hn |].
    split; [intros H8; by rewrite Hn, H8 |].
    intros ls ->. rewrite firstn_map_JStr, validate_strs_texts in Hv.
    by injection Hv. }
  intros self bundle content ls s p Hrep Hload -> Hne Hs Hp.
  destruct (analyze_issue_well_formed env self bundle content
              (<["suggested_labels" := JList (List.map JStr ls)]> d) ls s p)
    as (ty & prio & _ & _ & Ha); try done.
  - apply lookup_insert_eq.
  - unfold text_field in *. by rewrite Hin.
  - unfold text_field in *. by rewrite Hin.
  - eexists. split; [exact Ha | done].
Qed.

Lemma C7_labels_truncated_witness :
  LLM.analyze_issue (Sample.env ∅ Sample.reply_eight) Sample.openai Sample.bundle1
    = Return Sample.analysis_eight
  ∧ suggested_labels Sample.analysis_eight
    = List.firstn 5 ["a"; "b"; "c"; "d"; "e"; "f"; "g"; "h"]
  ∧ List.length (suggested_labels Sample.analysis_eight) = 5%nat.
Proof.
  pose proof (C7_labels_truncated (Sample.env ∅ Sample.reply_eight)
                (delete "suggested_labels" Sample.doc_eight)
                (List.map JStr ["a"; "b"; "c"; "d"; "e"; "f"; "g"; "h"]))
    as (_ & _ & _ & _ & _ & _ & _ & Hret & Hgives).
  destruct (Hgives Sample.openai Sample.bundle1 Sample.reply_eight
              ["a"; "b"; "c"; "d"; "e"; "f"; "g"; "h"] "" "")
    as (a & Ha & Hlabels);
    [apply sample_replied | by vm_compute | done | done | done | done |].
  destruct (Hret Sample.openai Sample.bundle1 Sample.reply_eight a)
    as (_ & _ & H8 & _);
    [apply sample_replied | by vm_compute | done |].
  assert (a = Sample.analysis_eight) as ->.
  { vm_compute in Ha. by injection Ha. }
  split; [exact Ha |]. split; [exact Hlabels |]. by apply H8.
Defined.



(** ** The request handler, once the bundle is there *)

Lemma post_analyze_fetched env self request client w bundle c1 w1 :
  fetched env request client w bundle c1 w1 →
  Main.post_analyze env (Some self) request client w =
  (match LLM.analyze_issue env self bundle with
   | Return a => {| status_code := 200; content := Analysis a |}
   | Raise (HTTPException sc d) => Main.http_exception_handler env sc d
   | Raise e => processing_failure (exn_str env e)
   end, c1, w1).
Proof.
  intros (Hpos & owner & repo & Hurl & Hget).
  unfold Main.post_analyze, Main.analyze_issue.
  apply Z.ltb_lt in Hpos. rewrite Hpos. simpl.
  rewrite Hurl, Hget.
  destruct (LLM.analyze_issue env self bundle) as [a|[sc d|cls text]]; reflexivity.
Qed.


Lemma build_analysis_no_labels env d :
  d !! "suggested_labels" = None ∨ d !! "suggested_labels" = Some (JList []) →
  ∃ fields, "suggested_labels" ∈ fields
            ∧ LLM.build_analysis env (JDict d) = raise_fault env (SchemaViolation fields).
Proof.
  intros Hl.
  destruct (normalize_type_member env d) as (ty & Hty & Hcall & _).
  unfold LLM.build_analysis. rewrite Hty. simpl. rewrite Hcall. simpl.
  unfold LLM.normalize_labels. simpl.
  assert (default (JList []) (d !! "suggested_labels") = JList []) as ->.
  { destruct Hl as [H | H]; by rewrite H. }
  simpl. unfold IssueAnalysis_new.
  destruct (validate_str env (default (JStr "") (d !! "summary")));
    destruct (validate_str env (default (JStr "") (d !! "potential_impact")));
    simpl; eexists; (split; [| reflexivity]);
    rewrite !elem_of_cons; tauto.
Qed.

(** C9: a reply that decodes but has no [suggested_labels], or an empty
    list, never yields an analysis: the empty list handed to the schema
    violates the minimum of one label, the [ValidationError] leaves
    [analyze_issue] through the generic handler, and the request is
    answered with the 500 analysis-error envelope. *)
Theorem C9_empty_labels_rejected (env : Env) (self : LLMAnalyzer) (bundle : IssueBundle)
    (content : string) (parsed : json) :
  replied env self bundle (Some content) →
  json_loads env content = inl parsed →
  field parsed "suggested_labels" = None
  ∨ field parsed "suggested_labels" = Some (JList []) →
  validate_labels env (JList []) = None
  ∧ ∃ text,
      LLM.analyze_issue env self bundle
        = Raise (PyExn Exception_ ("Error during LLM analysis: " ++ text))
      ∧ (∀ d, parsed = JDict d →
              ∃ fields, "suggested_labels" ∈ fields
                        ∧ text = fault_text env (SchemaViolation fields))
      ∧ (∀ request client w c1 w1,
           fetched env request client w bundle c1 w1 →
           Main.post_analyze env (Some self) request client w
             = (processing_failure ("Error during LLM analysis: " ++ text), c1, w1)).
Proof.
  intros Hrep Hload Hl. split; [reflexivity |].
  assert (∃ cls text,
            LLM.build_analysis env parsed = Raise (PyExn cls text)
            ∧ cls ≠ JSONDecodeError
            ∧ (∀ d, parsed = JDict d →
                    ∃ fields, "suggested_labels" ∈ fields
                              ∧ text = fault_text env (SchemaViolation fields)))
    as (cls & text & Hb & Hcls & Hd).
  { destruct parsed as [| | | | | |d];
      try (exists AttributeError; eexists; split; [reflexivity | split; [done |]];
           intros d' [=]).
    destruct (build_analysis_no_labels env d Hl) as (fields & Hin & Hb).
    exists ValidationError, (fault_text env (SchemaViolation fields)).
    split; [exact Hb |]. split; [done |]. intros d' _. eauto. }
  assert (Ha : LLM.analyze_issue env self bundle
               = Raise (PyExn Exception_ ("Error during LLM analysis: " ++ text))).
  { rewrite (analyze_issue_replied env _ _ _ Hrep). simpl. rewrite Hload. simpl.
    rewrite Hb. by destruct cls. }
  exists text. split; [exact Ha |]. split; [exact Hd |].
  intros request client w c1 w1 Hf.
  rewrite (post_analyze_fetched env self _ _ _ _ _ _ Hf). by rewrite Ha.
Qed.

Lemma C9_empty_labels_rejected_witness :
  ∃ text,
    LLM.analyze_issue (Sample.env ∅ "{}") Sample.openai Sample.bundle1
      = Raise (PyExn Exception_ ("Error during LLM analysis: " ++ text))
    ∧ status_code (Main.post_analyze (Sample.env ∅ "{}") (Some Sample.openai)
                     Sample.react1 Sample.client0 Sample.world0).1.1 = 500.
Proof.
  destruct (C9_empty_labels_rejected (Sample.env ∅ "{}") Sample.openai Sample.bundle1
              "{}" (JDict ∅) (sample_replied ∅ "{}") eq_refl (or_introl eq_refl))
    as (_ & text & Ha & _ & Hpost).
  exists text. split; [exact Ha |].
  by rewrite (Hpost _ _ _ _ _ (sample_fetched "{}")).
Defined.






(** ** The issue fetcher and its cache *)

Section ClientFacts.
Context (env : Env).
Implicit Types (c : GitHubClient) (w : world) (b : IssueBundle).

Lemma _cache_get_visible owner repo n c w v :
  (_cache_get owner repo n c w).1 = Some v ↔
  _cache c !! (owner, repo, n) = Some v
  ∧ clock w < default 0 (_cache_expiry c !! (owner, repo, n)).
Proof.
  unfold _cache_get.
  destruct (_cache c !! (owner, repo, n)) as [v'|] eqn:Hc; simpl.
  - destruct (Z.ltb_spec (clock w) (default 0 (_cache_expiry c !! (owner, repo, n))));
      simpl; split.
    + intros [= ->]. done.
    + by intros [[= ->] _].
    + done.
    + intros [_ ?]. lia.
  - split; [done | by intros [? _]].
Qed.

Lemma _cache_get_hit owner repo n c w v :
  (_cache_get owner repo n c w).1 = Some v →
  _cache_get owner repo n c w = (Some v, c).
Proof.
  unfold _cache_get.
  destruct (_cache c !! (owner, repo, n)) as [v'|]; simpl; [| done].
  destruct (clock w <? default 0 (_cache_expiry c !! (owner, repo, n)));
    simpl; [by intros [= ->] | done].
Qed.

Lemma _cache_get_expired owner repo n c w :
  default 0 (_cache_expiry c !! (owner, repo, n)) ≤ clock w →
  (_cache_get owner repo n c w).1 = None
  ∧ _cache (_cache_get owner repo n c w).2 !! (owner, repo, n) = None
  ∧ (is_Some (_cache c !! (owner, repo, n)) →
     _cache_expiry (_cache_get owner repo n c w).2 !! (owner, repo, n) = None).
Proof.
  intros He. unfold _cache_get.
  destruct (_cache c !! (owner, repo, n)) as [v'|] eqn:Hc; simpl.
  - destruct (Z.ltb_spec (clock w) (default 0 (_cache_expiry c !! (owner, repo, n))));
      [lia |].
    simpl. by rewrite !lookup_delete_eq.
  - split; [done |]. split; [done |]. by intros [? [=]].
Qed.


Lemma _cache_get_config owner repo n c w :
  ttl_seconds (_cache_get owner repo n c w).2 = ttl_seconds c
  ∧ headers (_cache_get owner repo n c w).2 = headers c.
Proof.
  unfold _cache_get.
  destruct (_cache c !! (owner, repo, n)); simpl; [| done].
  by destruct (clock w <? default 0 (_cache_expiry c !! (owner, repo, n))).
Qed.

(** The outcome of a request: httpx refuses the URL, or the transport
    answers. *)
Lemma github_outcome sent_ now url hdrs :
  (github env sent_ now url hdrs).1 =
  match invalid_url env url with
  | Some text => Refused text
  | None => Sent (transport env sent_ now url hdrs).1
  end.
Proof.
  unfold github. destruct (invalid_url env url); [done |].
  by destruct (transport env _ _ _ _).
Qed.

Lemma github_refused sent_ now url hdrs text :
  (github env sent_ now url hdrs).1 = Refused text ↔ invalid_url env url = Some text.
Proof.
  rewrite github_outcome. destruct (invalid_url env url); split; congruence.
Qed.

(** The world after one request. *)
Lemma http_get_world c url w :
  (http_get env c url w).2 =
  match invalid_url env url with
  | Some _ => w
  | None => {| clock := (github env (sent w) (clock w) url (headers c)).2;
               sent := sent w ++ [url] |}
  end.
Proof.
  unfold http_get, github. destruct (invalid_url env url); [done |].
  by destruct (transport env _ _ _ _).
Qed.

Lemma http_get_outcome c url w :
  (http_get env c url w).1 = (github env (sent w) (clock w) url (headers c)).1.
Proof. unfold http_get. by destruct (github env _ _ _ _). Qed.

Lemma get_issue_world owner repo n c w :
  (get_issue env owner repo n c w).2 = (http_get env c (issue_url owner repo n) w).2.
Proof. unfold get_issue. by destruct (http_get env _ _ _). Qed.

Lemma get_issue_comments_world owner repo n c w :
  (get_issue_comments env owner repo n c w).2
  = (http_get env c (comments_url owner repo n) w).2.
Proof. unfold get_issue_comments. by destruct (http_get env _ _ _). Qed.

(** The requests logged by the two fetchers. *)
Lemma get_issue_sent owner repo n c w :
  sent (get_issue env owner repo n c w).2
  = if invalid_url env (issue_url owner repo n) is Some _ then sent w
    else (sent w ++ [issue_url owner repo n])%list.
Proof.
  rewrite get_issue_world, http_get_world.
  by destruct (invalid_url env (issue_url owner repo n)).
Qed.

Lemma get_issue_comments_sent owner repo n c w :
  sent (get_issue_comments env owner repo n c w).2
  = if invalid_url env (comments_url owner repo n) is Some _ then sent w
    else (sent w ++ [comments_url owner repo n])%list.
Proof.
  rewrite get_issue_comments_world, http_get_world.
  by destruct (invalid_url env (comments_url owner repo n)).
Qed.

(** A URL that httpx refuses: the [InvalidURL] passes through both
    [except] clauses, and the world is as before. *)
Lemma get_issue_refused owner repo n c w text :
  invalid_url env (issue_url owner repo n) = Some text →
  get_issue env owner repo n c w = (Raise (PyExn InvalidURL text), w).
Proof. intros H. unfold get_issue, http_get, github. by rewrite H. Qed.

Lemma get_issue_comments_refused owner repo n c w text :
  invalid_url env (comments_url owner repo n) = Some text →
  get_issue_comments env owner repo n c w = (Raise (PyExn InvalidURL text), w).
Proof. intros H. unfold get_issue_comments, http_get, github. by rewrite H. Qed.

Lemma get_issue_accepted owner repo n c w j :
  (get_issue env owner repo n c w).1 = Return j →
  invalid_url env (issue_url owner repo n) = None.
Proof.
  destruct (invalid_url env (issue_url owner repo n)) as [text|] eqn:H; [| done].
  by rewrite (get_issue_refused _ _ _ _ _ _ H).
Qed.

Lemma get_issue_comments_accepted owner repo n c w j :
  (get_issue_comments env owner repo n c w).1 = Return j →
  invalid_url env (comments_url owner repo n) = None.
Proof.
  destruct (invalid_url env (comments_url owner repo n)) as [text|] eqn:H; [| done].
  by rewrite (get_issue_comments_refused _ _ _ _ _ _ H).
Qed.

(** The shape of [get_issue_data] when the cache does not answer. *)
Lemma get_issue_data_miss owner repo n c w :
  (_cache_get owner repo n c w).1 = None →
  let c1 := (_cache_get owner repo n c w).2 in
  let r1 := get_issue env owner repo n c1 w in
  let r2 := get_issue_comments env owner repo n c1 r1.2 in
  get_issue_data env owner repo n c w =
  match r1.1 with
  | Raise e => (Raise e, c1, r1.2)
  | Return issue_ =>
      match r2.1 with
      | Raise e => (Raise e, c1, r2.2)
      | Return comments_ =>
          (Return {| issue := issue_; comments := comments_ |},
           _cache_set owner repo n {| issue := issue_; comments := comments_ |} c1 r2.2,
           r2.2)
      end
  end.
Proof.
  intros Hmiss. unfold get_issue_data.
  destruct (_cache_get owner repo n c w) as [o c1]. simpl in *. subst o.
  destruct (get_issue env owner repo n c1 w) as [[j|e] w1]; simpl; [| done].
  by destruct (get_issue_comments env owner repo n c1 w1) as [[j'|e] w2].
Qed.

Lemma get_issue_data_hit owner repo n c w v :
  (_cache_get owner repo n c w).1 = Some v →
  get_issue_data env owner repo n c w = (Return v, c, w).
Proof.
  intros Hhit. unfold get_issue_data. by rewrite (_cache_get_hit _ _ _ _ _ _ Hhit).
Qed.


(** The result of [get_issue_data] on a miss, read off the two requests
    made with the client as given. *)
Lemma get_issue_data_miss_plain owner repo n c w :
  (_cache_get owner repo n c w).1 = None →
  let c1 := (_cache_get owner repo n c w).2 in
  get_issue_data env owner repo n c w =
  match get_issue env owner repo n c w with
  | (Raise e, w1) => (Raise e, c1, w1)
  | (Return issue_, w1) =>
      match get_issue_comments env owner repo n c w1 with
      | (Raise e, w2) => (Raise e, c1, w2)
      | (Return comments_, w2) =>
          (Return {| issue := issue_; comments := comments_ |},
           _cache_set owner repo n {| issue := issue_; comments := comments_ |} c1 w2,
           w2)
      end
  end.
Proof.
  intros Hmiss c1.
  assert (Hsame : ∀ w', get_issue env owner repo n c1 w' = get_issue env owner repo n c w'
                        ∧ get_issue_comments env owner repo n c1 w'
                          = get_issue_comments env owner repo n c w').
  { intros w'. unfold get_issue, get_issue_comments, http_get. subst c1.
    by rewrite (proj2 (_cache_get_config owner repo n c w)). }
  rewrite (get_issue_data_miss _ _ _ _ _ Hmiss). cbv zeta. fold c1.
  rewrite (proj1 (Hsame w)).
  destruct (get_issue env owner repo n c w) as [[j|e] w1]; simpl; [| done].
  rewrite (proj2 (Hsame w1)).
  by destruct (get_issue_comments env owner repo n c w1) as [[j'|e] w2].
Qed.

Lemma _cache_get_miss_gone owner repo n c w :
  (_cache_get owner repo n c w).1 = None →
  _cache (_cache_get owner repo n c w).2 !! (owner, repo, n) = None.
Proof.
  unfold _cache_get.
  destruct (_cache c !! (owner, repo, n)) eqn:Hc; simpl; [| done].
  destruct (clock w <? default 0 (_cache_expiry c !! (owner, repo, n))); simpl; [done |].
  intros _. apply lookup_delete_eq.
Qed.

(** The requests a call of [get_issue_data] sends. *)
Lemma get_issue_data_sent owner repo n c w :
  sent (get_issue_data env owner repo n c w).2 =
    match (_cache_get owner repo n c w).1 with
    | Some _ => sent w
    | None =>
        match invalid_url env (issue_url owner repo n) with
        | Some _ => sent w
        | None =>
            match (get_issue env owner repo n c w).1,
                  invalid_url env (comments_url owner repo n) with
            | Return _, None =>
                (sent w ++ [issue_url owner repo n; comments_url owner repo n])%list
            | _, _ => (sent w ++ [issue_url owner repo n])%list
            end
        end
    end.
Proof.
  destruct ((_cache_get owner repo n c w).1) as [v|] eqn:Hg.
  - by rewrite (get_issue_data_hit _ _ _ _ _ _ Hg).
  - rewrite (get_issue_data_miss_plain _ _ _ _ _ Hg). cbv zeta.
    pose proof (get_issue_sent owner repo n c w) as Hs1.
    pose proof (get_issue_accepted owner repo n c w) as Hacc.
    destruct (get_issue env owner repo n c w) as [[j|e] w1]; simpl in *.
    + rewrite (Hacc j eq_refl) in *.
      pose proof (get_issue_comments_sent owner repo n c w1) as Hs2.
      destruct (get_issue_comments env owner repo n c w1) as [[j'|e] w2]; simpl in *;
        rewrite Hs2, Hs1;
        destruct (invalid_url env (comments_url owner repo n));
        by rewrite <- ?app_assoc.
    + rewrite Hs1. by destruct (invalid_url env (issue_url owner repo n)).
Qed.

(** What a failed call leaves behind. *)
Lemma get_issue_data_failed owner repo n c w e :
  (get_issue_data env owner repo n c w).1.1 = Raise e →
  _cache (get_issue_data env owner repo n c w).1.2 !! (owner, repo, n) = None.
Proof.
  destruct ((_cache_get owner repo n c w).1) as [v|] eqn:Hg.
  - by rewrite (get_issue_data_hit _ _ _ _ _ _ Hg).
  - rewrite (get_issue_data_miss_plain _ _ _ _ _ Hg). cbv zeta.
    pose proof (_cache_get_miss_gone _ _ _ _ _ Hg) as Hgone.
    destruct (get_issue env owner repo n c w) as [[j|e'] w1]; simpl; [| done].
    by destruct (get_issue_comments env owner repo n c w1) as [[j'|e'] w2].
Qed.

(** What a call that was not answered by the cache and returned a bundle
    has done. *)
Lemma get_issue_data_returned owner repo n c w b c' w' :
  (_cache_get owner repo n c w).1 = None →
  get_issue_data env owner repo n c w = (Return b, c', w') →
  (get_issue env owner repo n c w).1 = Return (issue b)
  ∧ (get_issue_comments env owner repo n c (get_issue env owner repo n c w).2).1
    = Return (comments b)
  ∧ invalid_url env (issue_url owner repo n) = None
  ∧ invalid_url env (comments_url owner repo n) = None
  ∧ sent w' = (sent w ++ [issue_url owner repo n; comments_url owner repo n])%list
  ∧ c' = _cache_set owner repo n b (_cache_get owner repo n c w).2 w'.
Proof.
  intros Hmiss Hget.
  pose proof (get_issue_data_sent owner repo n c w) as Hsent.
  rewrite Hmiss, Hget in Hsent. simpl in Hsent.
  rewrite (get_issue_data_miss_plain _ _ _ _ _ Hmiss) in Hget. cbv zeta in Hget.
  pose proof (get_issue_accepted owner repo n c w) as Hacc.
  destruct (get_issue env owner repo n c w) as [[j|e] w1]; simpl in *; [| done].
  pose proof (get_issue_comments_accepted owner repo n c w1) as Hacc2.
  destruct (get_issue_comments env owner repo n c w1) as [[j'|e] w2]; simpl in *;
    [| done].
  injection Hget as <- <- <-. simpl.
  rewrite (Hacc j eq_refl), (Hacc2 j' eq_refl) in *. done.
Qed.

(** A call that returned a bundle and changed the list of requests was not
    answered by the cache. *)
Lemma get_issue_data_went_out owner repo n c w b c' w' :
  get_issue_data env owner repo n c w = (Return b, c', w') →
  sent w' ≠ sent w →
  (_cache_get owner repo n c w).1 = None.
Proof.
  intros Hget Hsent.
  destruct ((_cache_get owner repo n c w).1) as [v|] eqn:Hg; [| done].
  rewrite (get_issue_data_hit _ _ _ _ _ _ Hg) in Hget.
  injection Hget as -> -> ->. done.
Qed.

(** What a fetch that went to GitHub and succeeded leaves in the client. *)
Lemma get_issue_data_stored owner repo n c w b c' w' :
  get_issue_data env owner repo n c w = (Return b, c', w') →
  sent w' ≠ sent w →
  _cache c' !! (owner, repo, n) = Some b
  ∧ _cache_expiry c' !! (owner, repo, n) = Some (clock w' + ttl_seconds c).
Proof.
  intros Hget Hsent.
  pose proof (get_issue_data_went_out _ _ _ _ _ _ _ _ Hget Hsent) as Hmiss.
  destruct (get_issue_data_returned _ _ _ _ _ _ _ _ Hmiss Hget)
    as (_ & _ & _ & _ & _ & ->).
  simpl. rewrite !lookup_insert_eq.
  by rewrite (proj1 (_cache_get_config owner repo n c w)).
Qed.

End ClientFacts.

(** C1: once [get_issue_data] has returned a bundle for a triple, the
    bundle is the cache entry of the triple (with expiry the time of the
    store plus the TTL when it was fetched); and in every later state
    that still has this entry, a call with the same triple while the clock
    is before the expiry returns that very bundle and leaves the client
    (both cache dictionaries) and the world (the list of requests sent)
    exactly as they were. *)
Theorem C1_cached_bundle_served (env : Env) (owner repo : string) (n : Z)
    (c0 c1 : GitHubClient) (w0 w1 : world) (b : IssueBundle) :
  get_issue_data env owner repo n c0 w0 = (Return b, c1, w1) →
  _cache c1 !! (owner, repo, n) = Some b
  ∧ (sent w1 ≠ sent w0 →
     _cache_expiry c1 !! (owner, repo, n) = Some (clock w1 + ttl_seconds c0))
  ∧ (∀ c2 w2,
       _cache c2 !! (owner, repo, n) = Some b →
       _cache_expiry c2 !! (owner, repo, n) = _cache_expiry c1 !! (owner, repo, n) →
       clock w2 < default 0 (_cache_expiry c1 !! (owner, repo, n)) →
       get_issue_data env owner repo n c2 w2 = (Return b, c2, w2)).
Proof.
  intros Hget.
  assert (Hentry : _cache c1 !! (owner, repo, n) = Some b
                   ∧ (sent w1 ≠ sent w0 →
                      _cache_expiry c1 !! (owner, repo, n)
                      = Some (clock w1 + ttl_seconds c0))).
  { destruct ((_cache_get owner repo n c0 w0).1) as [v|] eqn:Hg.
    - rewrite (get_issue_data_hit env _ _ _ _ _ _ Hg) in Hget.
      injection Hget as -> -> ->.
      apply _cache_get_visible in Hg as [Hc _]. done.
    - rewrite (get_issue_data_miss env _ _ _ _ _ Hg) in Hget. cbv zeta in Hget.
      destruct ((get_issue env owner repo n _ w0).1); [| done].
      destruct ((get_issue_comments env owner repo n _ _).1); [| done].
      injection Hget as <- <- <-. simpl.
      rewrite !lookup_insert_eq.
      by rewrite (proj1 (_cache_get_config owner repo n c0 w0)). }
  destruct Hentry as [Hc He]. split; [exact Hc |]. split; [exact He |].
  intros c2 w2 Hc2 He2 Hnow.
  apply get_issue_data_hit, _cache_get_visible. by rewrite He2.
Qed.

Lemma C1_cached_bundle_served_witness :
  let c1 := _cache_set "facebook" "react" 1 Sample.bundle1 Sample.client0
              {| clock := 1002; sent := [] |} in
  let w2 := {| clock := 1301;
               sent := ["https://api.github.com/repos/facebook/react/issues/1";
                        "https://api.github.com/repos/facebook/react/issues/1/comments"] |} in
  get_issue_data (Sample.env ∅ "{}") "facebook" "react" 1 c1 w2
  = (Return Sample.bundle1, c1, w2).
Proof.
  intros c1 w2.
  refine (proj2 (proj2 (C1_cached_bundle_served (Sample.env ∅ "{}") "facebook" "react" 1
            Sample.client0 c1 Sample.world0
            {| clock := 1002; sent := sent w2 |} Sample.bundle1 _)) c1 w2 _ _ _);
    by vm_compute.
Defined.

(** C4: a 404 from the comments endpoint makes [get_issue_comments]
    return the empty list, and the bundle is then built and cached with no
    comments; a 404 from the issue endpoint makes [get_issue] raise the
    [HTTPException] with status 404, which [get_issue_data] lets through
    without touching the cache. *)
Theorem C4_not_found (env : Env) (owner repo : string) (n : Z)
    (c : GitHubClient) (w : world) (hdrs : list (string * string)) (text : string) :
  ((github env (sent w) (clock w) (comments_url owner repo n) (headers c)).1
     = HTTPStatusError 404 hdrs text →
   (get_issue_comments env owner repo n c w).1 = Return (JList []))
  ∧ ((github env (sent w) (clock w) (issue_url owner repo n) (headers c)).1
       = HTTPStatusError 404 hdrs text →
     (get_issue env owner repo n c w).1
       = Raise (HTTPException 404
                  (JStr ("Issue #" ++ PyStr.of_int n ++ " not found in "
                         ++ owner ++ "/" ++ repo ++ " or repository is private")))
     ∧ ((_cache_get owner repo n c w).1 = None →
        (get_issue_data env owner repo n c w).1.1
          = Raise (HTTPException 404
                     (JStr ("Issue #" ++ PyStr.of_int n ++ " not found in "
                            ++ owner ++ "/" ++ repo ++ " or repository is private")))
        ∧ _cache (get_issue_data env owner repo n c w).1.2 !! (owner, repo, n) = None))
  ∧ (∀ j w1,
       (_cache_get owner repo n c w).1 = None →
       get_issue env owner repo n c w = (Return j, w1) →
       (github env (sent w1) (clock w1) (comments_url owner repo n) (headers c)).1
         = HTTPStatusError 404 hdrs text →
       (get_issue_data env owner repo n c w).1.1
         = Return {| issue := j; comments := JList [] |}).
Proof.
  split.
  { intros H. unfold get_issue_comments.
    pose proof (http_get_outcome env c (comments_url owner repo n) w) as Ho.
    destruct (http_get env c (comments_url owner repo n) w) as [out w'].
    simpl in *. by rewrite Ho, H. }
  assert (Hsame : ∀ w', get_issue env owner repo n (_cache_get owner repo n c w).2 w'
                        = get_issue env owner repo n c w'
                        ∧ get_issue_comments env owner repo n
                            (_cache_get owner repo n c w).2 w'
                          = get_issue_comments env owner repo n c w').
  { intros w'. unfold get_issue, get_issue_comments, http_get.
    by rewrite (proj2 (_cache_get_config owner repo n c w)). }
  split.
  { intros H.
    assert (Hi : (get_issue env owner repo n c w).1
                 = Raise (HTTPException 404
                    (JStr ("Issue #" ++ PyStr.of_int n ++ " not found in "
                           ++ owner ++ "/" ++ repo ++ " or repository is private")))).
    { unfold get_issue.
      pose proof (http_get_outcome env c (issue_url owner repo n) w) as Ho.
      destruct (http_get env c (issue_url owner repo n) w) as [out w'].
      simpl in *. by rewrite Ho, H. }
    split; [exact Hi |]. intros Hmiss.
    rewrite (get_issue_data_miss env _ _ _ _ _ Hmiss). cbv zeta.
    rewrite (proj1 (Hsame w)), Hi. simpl. split; [done |].
    unfold _cache_get in *.
    destruct (_cache c !! (owner, repo, n)) eqn:Hc; simpl in *; [| done].
    destruct (clock w <? default 0 (_cache_expiry c !! (owner, repo, n))); [done |].
    simpl. by rewrite lookup_delete_eq. }
  intros j w1 Hmiss Hi H.
  rewrite (get_issue_data_miss env _ _ _ _ _ Hmiss). cbv zeta.
  rewrite (proj1 (Hsame w)), Hi. simpl.
  rewrite (proj2 (Hsame w1)).
  assert (Hcm : (get_issue_comments env owner repo n c w1).1 = Return (JList [])).
  { unfold get_issue_comments.
    pose proof (http_get_outcome env c (comments_url owner repo n) w1) as Ho.
    destruct (http_get env c (comments_url owner repo n) w1) as [out w'].
    simpl in *. by rewrite Ho, H. }
  by rewrite Hcm.
Qed.

Lemma C4_not_found_witness :
  (get_issue_comments (Sample.env ∅ "{}") "facebook" "react" 1
     Sample.client0 Sample.world0).1 = Return (JList [])
  ∧ (get_issue (Sample.env ∅ "{}") "ghost" "none" 999 Sample.client0 Sample.world0).1
    = Raise (HTTPException 404
               (JStr "Issue #999 not found in ghost/none or repository is private")).
Proof.
  split.
  - exact (proj1 (C4_not_found (Sample.env ∅ "{}") "facebook" "react" 1
                    Sample.client0 Sample.world0 [] "Client error '404 Not Found'")
             eq_refl).
  - exact (proj1 (proj1 (proj2 (C4_not_found (Sample.env ∅ "{}") "ghost" "none" 999
                    Sample.client0 Sample.world0 [] "Client error '404 Not Found'"))
             eq_refl)).
Defined.



(** ** Substrings and splitting *)

Module SplitFacts.
Import PyStr PyStrFacts.

Lemma append_assoc (a b c : string) : (a ++ b) ++ c = a ++ (b ++ c).
Proof. induction a as [|x a IH]; [done |]. by rewrite !append_cons, IH. Qed.

Lemma prefix_spec sub s : String.prefix sub s = true ↔ ∃ b, s = sub ++ b.
Proof.
  revert s. induction sub as [|x sub IH]; intros s.
  - split; [intros _; by exists s | by destruct s].
  - destruct s as [|y s]; simpl.
    + split; [done | by intros [b [=]]].
    + destruct (ascii_dec x y) as [->|Hne].
      * rewrite IH. split; intros [b Hb]; exists b.
        -- by rewrite append_cons, <- Hb.
        -- rewrite append_cons in Hb. by injection Hb.
      * split; [done |]. intros [b Hb]. rewrite append_cons in Hb. congruence.
Qed.

Lemma contains_spec sub s : contains sub s = true ↔ ∃ a b, s = a ++ sub ++ b.
Proof.
  induction s as [|y s IH].
  - cbn [contains]. rewrite orb_false_r, prefix_spec. split.
    + intros [b Hb]. by exists "", b.
    + intros (a & b & Hab). destruct a; [by exists b | done].
  - cbn [contains]. rewrite orb_true_iff, prefix_spec, IH. split.
    + intros [[b Hb] | (a & b & Hab)].
      * by exists "", b.
      * exists (String y a), b. by rewrite append_cons, <- Hab.
    + intros (a & b & Hab). destruct a as [|x a].
      * left. by exists b.
      * right. rewrite append_cons in Hab. injection Hab as -> ->. by exists a, b.
Qed.

(** Without an occurrence of the separator the text is the only piece. *)
Lemma split_scan_absent sep s :
  contains sep s = false → split_scan sep 0 s = (s, []).
Proof.
  induction s as [|y s IH]; [done |].
  cbn [contains]. intros [Hp Hc]%orb_false_iff.
  cbn [split_scan]. rewrite Hp, (IH Hc). done.
Qed.

Lemma no_slash_no_marker seg :
  contains "/" seg = false → contains "github.com/" seg = false.
Proof.
  intros Hs. destruct (contains "github.com/" seg) eqn:Hm; [| done].
  apply contains_spec in Hm as (a & b & ->).
  assert (contains "/" (a ++ "github.com/" ++ b) = true) as Hc; [| congruence].
  apply contains_spec. exists (a ++ "github.com"), b. by rewrite append_assoc.
Qed.

(** The marker cannot start inside the text that precedes another
    occurrence of it and run into that occurrence. *)
Lemma marker_no_overlap c p rest :
  String.prefix "github.com/" (String c (p ++ "github.com/" ++ rest)) = true →
  (10 ≤ String.length p)%nat.
Proof.
  intros H.
  do 10 (destruct p as [|? p];
         [exfalso; rewrite ?append_cons, ?append_nil in H; cbn [String.prefix] in H;
          repeat match type of H with
                 | context [ascii_dec ?a ?b] =>
                     destruct (ascii_dec a b); [| discriminate H]
                 end; congruence |]).
  simpl. lia.
Qed.

(** The last piece of a text cut at the marker, when the text ends with
    the marker followed by a slash-free segment. *)
Lemma split_scan_marker seg :
  contains "/" seg = false →
  ∀ pre skip, (skip ≤ String.length pre)%nat →
    ∃ h t, split_scan "github.com/" skip (pre ++ "github.com/" ++ seg)
           = (h, (t ++ [seg])%list).
Proof.
  intros Hseg. pose proof (no_slash_no_marker seg Hseg) as Hm.
  induction pre as [|c p IH]; intros skip Hskip.
  - simpl in Hskip. assert (skip = 0%nat) as -> by lia.
    rewrite ?append_cons, ?append_nil. cbn.
    rewrite (split_scan_absent _ _ Hm).
    assert (String.prefix "" seg = true) as -> by (by destruct seg).
    by exists "", [].
  - rewrite append_cons. destruct skip as [|k].
    + cbn [split_scan].
      destruct (String.prefix "github.com/" (String c (p ++ "github.com/" ++ seg)))
        eqn:Hp.
      * apply marker_no_overlap in Hp.
        destruct (IH (String.length "github.com/" - 1)%nat) as (h & t & ->);
          [simpl; lia |].
        by exists "", (h :: t).
      * destruct (IH 0%nat) as (h & t & ->); [lia |].
        by exists (String c h), t.
    + cbn [split_scan]. apply IH. simpl in Hskip. lia.
Qed.

Lemma last_piece_snoc h t seg : last_piece (h :: (t ++ [seg])%list) = seg.
Proof.
  unfold last_piece. change (h :: (t ++ [seg])%list) with ((h :: t) ++ [seg])%list.
  apply List.last_last.
Qed.

Lemma split_marker_last pre seg :
  contains "/" seg = false →
  last_piece (split "github.com/" (pre ++ "github.com/" ++ seg)) = seg.
Proof.
  intros Hseg. unfold split.
  destruct (split_scan_marker seg Hseg pre 0%nat) as (h & t & ->); [lia |].
  apply last_piece_snoc.
Qed.

Lemma split_slash_absent seg : contains "/" seg = false → split "/" seg = [seg].
Proof. intros H. unfold split. by rewrite (split_scan_absent _ _ H). Qed.

End SplitFacts.

(** ** Start-up of the analyser and the health check *)

(** When the constructor of the analyser goes through. *)
Lemma llm_analyzer_ready env :
  let p := PyStr.lower (getenv env "LLM_PROVIDER" "openai") in
  is_Some (LLM.llm_analyzer env) ↔
  (p = "openai" ∧ sdk_import env "openai" = None
   ∧ ∃ k, LLM.credential env "OPENAI_API_KEY" = Some k
          ∧ sdk_configure env "openai" k = None)
  ∨ (p = "gemini" ∧ sdk_import env "gemini" = None
     ∧ ∃ k, LLM.credential env "GEMINI_API_KEY" = Some k
            ∧ sdk_configure env "gemini" k = None).
Proof.
  intros p. unfold LLM.llm_analyzer, LLM.LLMAnalyzer_init, LLM.require_key. fold p.
  destruct (String.eqb_spec p "openai") as [Ho|Ho].
  - destruct (sdk_import env "openai") as [e|] eqn:Hi; simpl.
    + split; [by intros [? [=]] | intros [(_ & [=] & _) | (Hg & _)]]. congruence.
    + destruct (LLM.credential env "OPENAI_API_KEY") as [k|] eqn:Hk; simpl.
      * destruct (sdk_configure env "openai" k) as [e|] eqn:Hc; simpl.
        -- split; [by intros [? [=]] |].
           intros [(_ & _ & k' & [= <-] & Hc') | (Hg & _)]; congruence.
        -- split; [| by eauto]. intros _. left. eauto.
      * split; [by intros [? [=]] |].
        intros [(_ & _ & k' & [=] & _) | (Hg & _)]. congruence.
  - destruct (String.eqb_spec p "gemini") as [Hg|Hg].
    + destruct (sdk_import env "gemini") as [e|] eqn:Hi; simpl.
      * split; [by intros [? [=]] | intros [(? & _) | (_ & [=] & _)]]. congruence.
      * destruct (LLM.credential env "GEMINI_API_KEY") as [k|] eqn:Hk; simpl.
        -- destruct (sdk_configure env "gemini" k) as [e|] eqn:Hc; simpl.
           ++ split; [by intros [? [=]] |].
              intros [(? & _) | (_ & _ & k' & [= <-] & Hc')]; congruence.
           ++ split; [| by eauto]. intros _. right. eauto.
        -- split; [by intros [? [=]] |].
           intros [(? & _) | (_ & _ & k' & [=] & _)]. congruence.
    + split; [by intros [? [=]] |]. intros [(? & _) | (? & _)]; congruence.
Qed.

(** C8, amended: [/health] answers 200 with status [healthy] whatever the
    state of the analyser; its [llm_service] entry is [unavailable]
    exactly when the analyser singleton is [None], that is, unless the
    lower-cased selector (default [openai]) names one of the two
    providers, the SDK of that provider loads, and the key of that
    provider is set and not empty. *)
Theorem C8_health_reports_analyzer (env : Env) (started : Z) (w : world) :
  (∀ analyzer,
     (Main.health_check analyzer started w).1 = 200
     ∧ status (Main.health_check analyzer started w).2 = "healthy")
  ∧ (∀ analyzer,
       (dependencies (Main.health_check analyzer started w).2 ≫= (.!! "llm_service")
        = Some "unavailable" ↔ analyzer = None)
       ∧ (dependencies (Main.health_check analyzer started w).2 ≫= (.!! "llm_service")
          = Some "operational" ↔ is_Some analyzer))
  ∧ (LLM.llm_analyzer env = None ↔
     ¬ ((PyStr.lower (getenv env "LLM_PROVIDER" "openai") = "openai"
         ∧ sdk_import env "openai" = None
         ∧ ∃ k, LLM.credential env "OPENAI_API_KEY" = Some k
                ∧ sdk_configure env "openai" k = None)
        ∨ (PyStr.lower (getenv env "LLM_PROVIDER" "openai") = "gemini"
           ∧ sdk_import env "gemini" = None
           ∧ ∃ k, LLM.credential env "GEMINI_API_KEY" = Some k
                  ∧ sdk_configure env "gemini" k = None))).
Proof.
  split; [done |]. split.
  - intros [a|]; simpl; split; split;
      first [done | by intros [? [=]] | by eexists | by intros [=]].
  - rewrite <- (llm_analyzer_ready env). rewrite eq_None_not_Some. done.
Qed.

Example health_with_openai_key :
  let env := Sample.env Sample.with_openai_key "{}" in
  (Main.health_check (LLM.llm_analyzer env) 0 Sample.world0).2
  = {| status := "healthy"; version := "1.0.0"; uptime := Some 1000;
       dependencies := Some (<["github_api" := "operational"]>
                            (<["llm_service" := "operational"]> ∅)) |}.
Proof. by vm_compute. Qed.

(** [unavailable] does not mean that no credential was configured: with
    both keys set and a selector that names neither provider, the service
    is reported unavailable. *)
Lemma C8_counterexample :
  let env := Sample.env Sample.other_selector "{}" in
  LLM.credential env "OPENAI_API_KEY" = Some "sk-test"
  ∧ LLM.credential env "GEMINI_API_KEY" = Some "g-test"
  ∧ dependencies (Main.health_check (LLM.llm_analyzer env) 0 Sample.world0).2
      ≫= (.!! "llm_service") = Some "unavailable".
Proof. by vm_compute. Qed.

(** ** The request boundary *)

(** The response for a request turned down by [extract_owner_repo]. *)
Lemma post_analyze_bad_url env analyzer request client w d :
  0 < issue_number request →
  Main.extract_owner_repo env (repo_url request) = Raise (HTTPException 400 (JDict d)) →
  Main.post_analyze env analyzer request client w
  = ({| status_code := 400;
        content := Json (JDict (<["detail" := JDict d]> (<["status_code" := JInt 400]> ∅))) |},
     client, w).
Proof.
  intros Hpos Hurl. unfold Main.post_analyze, Main.analyze_issue.
  apply Z.ltb_lt in Hpos. rewrite Hpos. simpl. by rewrite Hurl.
Qed.

(** C5, amended: a repository URL that, once its trailing slashes are
    removed, does not contain [github.com], or that ends with
    [github.com/] followed by a single path segment, is turned down
    with status 400 and the [ErrorResponse] envelope tagged
    [invalid_url], before anything is fetched; so is
    [https://google.com/notgithub].  A non-positive issue number is turned
    down by the validation of the request body, with status 422, also
    before anything is fetched. *)
Theorem C5_invalid_input_rejected (env : Env) (analyzer : option LLMAnalyzer)
    (request : GitHubIssueRequest) (client : GitHubClient) (w : world) :
  let url := PyStr.rstrip_char "/" (repo_url request) in
  let envelope reason :=
    ErrorResponse_dict ("Invalid GitHub repository URL: " ++ reason)
      (Some "invalid_url") (Some {[ "input" := JStr url ]}) in
  let rejected reason :=
    Main.extract_owner_repo env (repo_url request)
      = Raise (HTTPException 400 (envelope reason))
    ∧ (0 < issue_number request →
       Main.post_analyze env analyzer request client w
       = ({| status_code := 400;
             content := Json (JDict (<["detail" := envelope reason]>
                                    (<["status_code" := JInt 400]> ∅))) |},
          client, w)) in
  ((∀ a b, url ≠ a ++ "github.com" ++ b) → rejected "Invalid GitHub URL")
  ∧ (∀ pre seg, url = pre ++ "github.com/" ++ seg → PyStr.contains "/" seg = false →
       rejected "Invalid GitHub repository URL format")
  ∧ (issue_number request ≤ 0 →
     Main.post_analyze env analyzer request client w
     = ({| status_code := 422;
           content := Json (JDict {[ "detail" :=
                        validation_errors env (repo_url request) (issue_number request) ]}) |},
        client, w))
  ∧ (∀ n, 0 < n →
       status_code (Main.post_analyze env analyzer
                      {| repo_url := "https://google.com/notgithub"; issue_number := n |}
                      client w).1.1 = 400).
Proof.
  intros url envelope rejected.
  assert (Hpost : ∀ reason,
            Main.extract_owner_repo env (repo_url request)
              = Raise (HTTPException 400 (envelope reason)) → rejected reason).
  { intros reason H. split; [exact H |]. intros Hpos.
    by apply post_analyze_bad_url. }
  split.
  { intros Hno. apply Hpost. unfold Main.extract_owner_repo. fold url.
    destruct (PyStr.contains "github.com" url) eqn:Hc; [| done].
    apply SplitFacts.contains_spec in Hc as (a & b & Hab). by destruct (Hno a b). }
  split.
  { intros pre seg Hurl Hseg. apply Hpost. unfold Main.extract_owner_repo. fold url.
    assert (PyStr.contains "github.com" url = true) as ->.
    { apply SplitFacts.contains_spec. exists pre, ("/" ++ seg). by rewrite Hurl. }
    simpl. rewrite Hurl at 1.
    rewrite (SplitFacts.split_marker_last pre seg Hseg).
    by rewrite (SplitFacts.split_slash_absent seg Hseg). }
  split.
  { intros Hn. unfold Main.post_analyze.
    assert ((0 <? issue_number request) = false) as Hneg by (apply Z.ltb_ge; lia).
    rewrite Hneg.
    done. }
  intros n Hn. unfold Main.post_analyze, Main.analyze_issue. simpl.
  apply Z.ltb_lt in Hn. by rewrite Hn.
Qed.

Lemma C5_invalid_input_rejected_witness :
  status_code (Main.post_analyze (Sample.env ∅ "{}") (Some Sample.openai)
                 {| repo_url := "https://github.com/facebook/"; issue_number := 1 |}
                 Sample.client0 Sample.world0).1.1 = 400
  ∧ status_code (Main.post_analyze (Sample.env ∅ "{}") (Some Sample.openai)
                   {| repo_url := "https://github.com/facebook/react"; issue_number := -3 |}
                   Sample.client0 Sample.world0).1.1 = 422
  ∧ Main.post_analyze (Sample.env ∅ "{}") (Some Sample.openai)
      {| repo_url := "https://google.com/notgithub"; issue_number := 1 |}
      Sample.client0 Sample.world0
    = ({| status_code := 400;
          content :=
            Json (JDict (<["detail" :=
                           ErrorResponse_dict
                             "Invalid GitHub repository URL: Invalid GitHub URL"
                             (Some "invalid_url")
                             (Some {[ "input" := JStr "https://google.com/notgithub" ]})]>
                        (<["status_code" := JInt 400]> ∅))) |},
       Sample.client0, Sample.world0).
Proof.
  split; [| split].
  - destruct (C5_invalid_input_rejected (Sample.env ∅ "{}") (Some Sample.openai)
                {| repo_url := "https://github.com/facebook/"; issue_number := 1 |}
                Sample.client0 Sample.world0) as (_ & Hseg & _).
    destruct (Hseg "https://" "facebook" eq_refl eq_refl) as [_ Hpost].
    by rewrite Hpost.
  - destruct (C5_invalid_input_rejected (Sample.env ∅ "{}") (Some Sample.openai)
                {| repo_url := "https://github.com/facebook/react"; issue_number := -3 |}
                Sample.client0 Sample.world0) as (_ & _ & Hnum & _).
    by rewrite Hnum.
  - destruct (C5_invalid_input_rejected (Sample.env ∅ "{}") (Some Sample.openai)
                {| repo_url := "https://google.com/notgithub"; issue_number := 1 |}
                Sample.client0 Sample.world0) as (Hhost & _).
    destruct Hhost as [_ Hpost].
    + intros a b Hab.
      assert (PyStr.contains "github.com" "https://google.com/notgithub" = true) as Hc
        by (apply SplitFacts.contains_spec; by exists a, b).
      by vm_compute in Hc.
    + by apply Hpost.
Defined.

(** Not every invalid input is answered with 400: the issue number zero
    is turned down with 422. *)
Lemma C5_counterexample :
  let request := {| repo_url := "https://github.com/facebook/react"; issue_number := 0 |} in
  let answer := (Main.post_analyze (Sample.env ∅ "{}") (Some Sample.openai) request
                   Sample.client0 Sample.world0).1.1 in
  issue_number request ≤ 0 ∧ status_code answer = 422 ∧ status_code answer ≠ 400.
Proof. by vm_compute. Qed.

(** A URL with the host and no path at all is not turned down: the test
    looks for [github.com], the cut is made at [github.com/]. *)
Lemma extract_owner_repo_host_only env :
  Main.extract_owner_repo env "https://github.com/" = Return ("https:", "").
Proof. reflexivity. Qed.

(** * Further properties *)

(** ** The issue fetcher *)

(** The value httpx gives for a header is "0" only when the header was
    sent once, with this value. *)
Lemma header_get_zero hdrs name dflt :
  dflt ≠ "0" →
  header_get hdrs name dflt = "0" ↔ header_values hdrs name = ["0"].
Proof.
  intros Hd. unfold header_get.
  destruct (header_values hdrs name) as [|v [|v' vs]].
  - split; [done | intros [=]].
  - cbn [join]. split; [by intros -> | by intros [= ->]].
  - cbn [join]. split; [| intros [=]].
    intros H. exfalso.
    destruct v as [|x v].
    + rewrite PyStrFacts.append_nil in H. by rewrite !PyStrFacts.append_cons in H.
    + rewrite PyStrFacts.append_cons in H. injection H as _ H.
      destruct v as [|y v]; [rewrite PyStrFacts.append_nil in H |];
        by rewrite !PyStrFacts.append_cons in H.
Qed.

(** X1: [get_issue] raises the 429 with the rate-limit dictionary exactly
    when GitHub answered 403 and the value httpx gives for
    [X-RateLimit-Remaining] is "0", that is, when the header was sent
    exactly once with the value 0 (the values of a header sent more than
    once are joined with a comma); the dictionary then carries the value
    of [X-RateLimit-Reset] (or "unknown").  Every other status but 404 is
    passed on unchanged with a text detail, and a request that could not
    be made gives 503.  For a URL that httpx refuses, its [InvalidURL] is
    raised as it is, not as an [HTTPException], and nothing was sent. *)
Theorem get_issue_error_statuses (env : Env) (owner repo : string) (n : Z)
    (c : GitHubClient) (w : world) :
  let out := (github env (sent w) (clock w) (issue_url owner repo n) (headers c)).1 in
  let raised := (get_issue env owner repo n c w).1 in
  (∀ d, raised = Raise (HTTPException 429 (JDict d)) ↔
        ∃ hdrs text,
          out = HTTPStatusError 403 hdrs text
          ∧ header_get hdrs "X-RateLimit-Remaining" "unknown" = "0"
          ∧ d = <["message" := JStr "GitHub API rate limit exceeded"]>
                (<["reset_time" := JStr (header_get hdrs "X-RateLimit-Reset" "unknown")]>
                (<["docs" := JStr "https://docs.github.com/en/rest/overview/resources-in-the-rest-api#rate-limiting"]> ∅)))
  ∧ (∀ hdrs, header_get hdrs "X-RateLimit-Remaining" "unknown" = "0" ↔
             header_values hdrs "X-RateLimit-Remaining" = ["0"])
  ∧ (∀ s hdrs text,
       out = HTTPStatusError s hdrs text →
       s ≠ 404 →
       ¬ (s = 403 ∧ header_get hdrs "X-RateLimit-Remaining" "unknown" = "0") →
       raised = Raise (HTTPException s (JStr ("GitHub API error: " ++ text))))
  ∧ (∀ text, out = RequestError text →
             raised = Raise (HTTPException 503
                               (JStr ("Failed to connect to GitHub API: " ++ text))))
  ∧ (∀ text, out = Refused text ↔ invalid_url env (issue_url owner repo n) = Some text)
  ∧ (∀ text, out = Refused text →
             get_issue env owner repo n c w = (Raise (PyExn InvalidURL text), w)).
Proof.
  intros out raised.
  assert (Hr : raised =
    match out with
    | Refused text => Raise (PyExn InvalidURL text)
    | Sent (Body j) => Return j
    | Sent (Undecodable text) => Raise (PyExn JSONDecodeError text)
    | Sent (HTTPStatusError status hdrs text) =>
        if status =? 404 then
          Raise (HTTPException 404
                   (JStr ("Issue #" ++ PyStr.of_int n ++ " not found in "
                          ++ owner ++ "/" ++ repo ++ " or repository is private")))
        else if (status =? 403)
                && String.eqb (header_get hdrs "X-RateLimit-Remaining" "unknown") "0" then
          Raise (HTTPException 429
                   (JDict (<["message" := JStr "GitHub API rate limit exceeded"]>
                          (<["reset_time" := JStr (header_get hdrs "X-RateLimit-Reset" "unknown")]>
                          (<["docs" := JStr "https://docs.github.com/en/rest/overview/resources-in-the-rest-api#rate-limiting"]> ∅)))))
        else Raise (HTTPException status (JStr ("GitHub API error: " ++ text)))
    | Sent (RequestError text) =>
        Raise (HTTPException 503 (JStr ("Failed to connect to GitHub API: " ++ text)))
    end).
  { subst raised out. unfold get_issue.
    pose proof (http_get_outcome env c (issue_url owner repo n) w) as Ho.
    destruct (http_get env c (issue_url owner repo n) w) as [o w']. simpl in *.
    by rewrite Ho. }
  rewrite Hr. clear Hr. split; [| split; [| split; [| split; [| split]]]].
  - intros d. destruct out as [[j|t|s hdrs t|t]|t];
      try (split; [done | by intros (? & ? & [=] & _)]).
    destruct (Z.eqb_spec s 404) as [->|H404].
    { split; [done |]. by intros (? & ? & [=] & _). }
    destruct (Z.eqb_spec s 403) as [->|H403]; simpl.
    + destruct (String.eqb_spec (header_get hdrs "X-RateLimit-Remaining" "unknown") "0")
        as [Hz|Hz].
      * split.
        -- intros [= <-]. by exists hdrs, t.
        -- by intros (hdrs' & t' & [= <- <-] & _ & ->).
      * split; [done |]. intros (hdrs' & t' & [= <- <-] & Hz' & _). done.
    + split; [done |]. intros (hdrs' & t' & [= -> <- <-] & _). done.
  - intros hdrs. by apply header_get_zero.
  - intros s hdrs text -> H404 Hrl.
    destruct (Z.eqb_spec s 404); [done |].
    destruct (Z.eqb_spec s 403) as [->|]; simpl; [| done].
    destruct (String.eqb_spec (header_get hdrs "X-RateLimit-Remaining" "unknown") "0");
      [| done].
    by destruct Hrl.
  - by intros text ->.
  - intros text. apply github_refused.
  - intros text Hout. apply get_issue_refused. by apply (github_refused env) in Hout.
Qed.

Lemma get_issue_error_statuses_witness :
  (get_issue (Scenario.env ∅ Scenario.rate_limited "{}") "facebook" "react" 1
     Sample.client0 Sample.world0).1
  = Raise (HTTPException 429
             (JDict (<["message" := JStr "GitHub API rate limit exceeded"]>
                    (<["reset_time" := JStr "1625097600"]>
                    (<["docs" := JStr "https://docs.github.com/en/rest/overview/resources-in-the-rest-api#rate-limiting"]> ∅)))))
  ∧ (get_issue (Scenario.env ∅ Scenario.limit_sent_twice "{}") "facebook" "react" 1
       Sample.client0 Sample.world0).1
    = Raise (HTTPException 403 (JStr "GitHub API error: Client error '403 Forbidden'"))
  ∧ (get_issue (Sample.offline "{}") "facebook" "react" 1
       Sample.client0 Sample.world0).1
    = Raise (HTTPException 503
               (JStr "Failed to connect to GitHub API: All connection attempts failed"))
  ∧ get_issue (Sample.env ∅ "{}") ("a" ++ PyStr.nl ++ "b") "react" 1
      Sample.client0 Sample.world0
    = (Raise (PyExn InvalidURL
                ("Invalid non-printable ASCII character in URL, '\n' at position 30.")),
       Sample.world0).
Proof.
  split; [| split; [| split]].
  - apply (proj1 (get_issue_error_statuses (Scenario.env ∅ Scenario.rate_limited "{}")
                    "facebook" "react" 1 Sample.client0 Sample.world0)).
    eexists _, _. split; [reflexivity |]. split; reflexivity.
  - apply (proj1 (proj2 (proj2 (get_issue_error_statuses
                    (Scenario.env ∅ Scenario.limit_sent_twice "{}")
                    "facebook" "react" 1 Sample.client0 Sample.world0)))
             403 [("x-ratelimit-remaining", "0"); ("x-ratelimit-remaining", "0")]
             "Client error '403 Forbidden'");
      [reflexivity | done |].
    intros [_ H]. by vm_compute in H.
  - apply (proj1 (proj2 (proj2 (proj2 (get_issue_error_statuses (Sample.offline "{}")
                    "facebook" "react" 1 Sample.client0 Sample.world0))))).
    reflexivity.
  - apply (proj2 (proj2 (proj2 (proj2 (proj2 (get_issue_error_statuses
                    (Sample.env ∅ "{}") ("a" ++ PyStr.nl ++ "b") "react" 1
                    Sample.client0 Sample.world0)))))).
    reflexivity.
Defined.

(** X2: when the issue was fetched and the comments endpoint answers with
    an error status other than 404, [get_issue_data] raises an
    [HTTPException] with that very status (a rate-limited 403 stays 403),
    after both requests were sent, and stores nothing for the triple. *)
Theorem comments_failure_discards_issue (env : Env) (owner repo : string) (n : Z)
    (c : GitHubClient) (w w1 : world) (j : json) (s : Z)
    (hdrs : list (string * string)) (text : string) :
  (_cache_get owner repo n c w).1 = None →
  get_issue env owner repo n c w = (Return j, w1) →
  (github env (sent w1) (clock w1) (comments_url owner repo n) (headers c)).1
    = HTTPStatusError s hdrs text →
  s ≠ 404 →
  (get_issue_data env owner repo n c w).1.1
    = Raise (HTTPException s (JStr ("Failed to fetch comments: " ++ text)))
  ∧ _cache (get_issue_data env owner repo n c w).1.2 !! (owner, repo, n) = None
  ∧ sent (get_issue_data env owner repo n c w).2
    = (sent w ++ [issue_url owner repo n; comments_url owner repo n])%list.
Proof.
  intros Hmiss Hi Hout Hs.
  rewrite (get_issue_data_miss_plain env _ _ _ _ _ Hmiss). cbv zeta. rewrite Hi.
  assert (Hacc : invalid_url env (issue_url owner repo n) = None).
  { apply (get_issue_accepted env owner repo n c w j). by rewrite Hi. }
  assert (Hacc2 : invalid_url env (comments_url owner repo n) = None).
  { destruct (invalid_url env (comments_url owner repo n)) as [t|] eqn:Hr; [| done].
    apply (github_refused env (sent w1) (clock w1) _ (headers c)) in Hr. congruence. }
  pose proof (get_issue_comments_sent env owner repo n c w1) as Hsent.
  rewrite Hacc2 in Hsent.
  assert (Hc : (get_issue_comments env owner repo n c w1).1
               = Raise (HTTPException s (JStr ("Failed to fetch comments: " ++ text)))).
  { unfold get_issue_comments.
    pose proof (http_get_outcome env c (comments_url owner repo n) w1) as Ho.
    destruct (http_get env c (comments_url owner repo n) w1) as [o w']. simpl in *.
    rewrite Ho, Hout. by destruct (Z.eqb_spec s 404). }
  destruct (get_issue_comments env owner repo n c w1) as [r w2]. simpl in *. subst r.
  simpl. split; [done |]. split; [by apply _cache_get_miss_gone |].
  rewrite Hsent.
  pose proof (get_issue_sent env owner repo n c w) as Hs1. rewrite Hi, Hacc in Hs1.
  simpl in Hs1. by rewrite Hs1, <- app_assoc.
Qed.

Lemma comments_failure_discards_issue_witness :
  (get_issue_data (Scenario.env ∅ Scenario.comments_refused "{}") "facebook" "react" 1
     Sample.client0 Sample.world0).1.1
  = Raise (HTTPException 403
             (JStr "Failed to fetch comments: Client error '403 Forbidden'")).
Proof.
  refine (proj1 (comments_failure_discards_issue
            (Scenario.env ∅ Scenario.comments_refused "{}") "facebook" "react" 1
            Sample.client0 Sample.world0
            {| clock := 1001;
               sent := ["https://api.github.com/repos/facebook/react/issues/1"] |}
            Sample.an_issue 403
            [("x-ratelimit-remaining", "0"); ("x-ratelimit-reset", "1625097600")]
            "Client error '403 Forbidden'" _ _ _ _));
    by vm_compute.
Defined.

(** X3: a call of [get_issue_data] answered by the cache sends nothing; a
    call that is not sends the request for the issue unless httpx refuses
    its URL and, only if that request succeeded and httpx does not refuse
    the URL of the comments, the request for the comments, in this order
    and nothing else; for a refused issue URL the call raises [InvalidURL]
    with the world as it was; and whenever the call fails the triple has
    no entry afterwards. *)
Theorem get_issue_data_requests (env : Env) (owner repo : string) (n : Z)
    (c : GitHubClient) (w : world) :
  let r := get_issue_data env owner repo n c w in
  sent r.2 =
    match (_cache_get owner repo n c w).1 with
    | Some _ => sent w
    | None =>
        match invalid_url env (issue_url owner repo n) with
        | Some _ => sent w
        | None =>
            match (get_issue env owner repo n c w).1,
                  invalid_url env (comments_url owner repo n) with
            | Return _, None =>
                (sent w ++ [issue_url owner repo n; comments_url owner repo n])%list
            | _, _ => (sent w ++ [issue_url owner repo n])%list
            end
        end
    end
  ∧ (∀ text, (_cache_get owner repo n c w).1 = None →
             invalid_url env (issue_url owner repo n) = Some text →
             r.1.1 = Raise (PyExn InvalidURL text) ∧ r.2 = w)
  ∧ ∀ e, r.1.1 = Raise e → _cache r.1.2 !! (owner, repo, n) = None.
Proof.
  intros r. split; [apply get_issue_data_sent |]. split.
  - intros text Hmiss Href. subst r.
    rewrite (get_issue_data_miss_plain env _ _ _ _ _ Hmiss). cbv zeta.
    by rewrite (get_issue_refused env _ _ _ _ _ _ Href).
  - intros e. apply get_issue_data_failed.
Qed.

Lemma get_issue_data_requests_witness :
  let r := get_issue_data (Sample.env ∅ "{}") "ghost" "none" 999
             Sample.client0 Sample.world0 in
  let r' := get_issue_data (Sample.env ∅ "{}") ("a" ++ PyStr.nl ++ "b") "none" 999
              Sample.client0 Sample.world0 in
  sent r.2 = ["https://api.github.com/repos/ghost/none/issues/999"]
  ∧ _cache r.1.2 !! ("ghost", "none", 999) = None
  ∧ r'.1.1 = Raise (PyExn InvalidURL
                      "Invalid non-printable ASCII character in URL, '\n' at position 30.")
  ∧ sent r'.2 = [].
Proof.
  intros r r'.
  destruct (get_issue_data_requests (Sample.env ∅ "{}") "ghost" "none" 999
              Sample.client0 Sample.world0) as (Hsent & _ & Hfail).
  destruct (get_issue_data_requests (Sample.env ∅ "{}") ("a" ++ PyStr.nl ++ "b") "none" 999
              Sample.client0 Sample.world0) as (_ & Href & _).
  split; [exact Hsent |].
  split; [eapply Hfail; by vm_compute |].
  destruct (Href "Invalid non-printable ASCII character in URL, '\n' at position 30.")
    as [Hraised Hworld]; [reflexivity | reflexivity |].
  split; [exact Hraised |]. subst r'. by rewrite Hworld.
Defined.

(** X4: a client whose two dictionaries hold the same keys keeps this
    through every lookup, store and fetch, with its TTL and its request
    headers unchanged; a new client is in this state. *)
Theorem cache_consistent_preserved (env : Env) (owner repo : string) (n : Z)
    (c : GitHubClient) (w : world) :
  (∀ ttl, cache_consistent (GitHubClient_init env ttl))
  ∧ (cache_consistent c →
     cache_consistent (_cache_get owner repo n c w).2
     ∧ (∀ v, cache_consistent (_cache_set owner repo n v c w))
     ∧ cache_consistent (get_issue_data env owner repo n c w).1.2)
  ∧ ttl_seconds (get_issue_data env owner repo n c w).1.2 = ttl_seconds c
  ∧ headers (get_issue_data env owner repo n c w).1.2 = headers c.
Proof.
  assert (Hget : ∀ c', cache_consistent c' →
                       cache_consistent (_cache_get owner repo n c' w).2).
  { intros c' Hc. unfold cache_consistent, _cache_get in *.
    destruct (_cache c' !! (owner, repo, n)); simpl; [| done].
    destruct (clock w <? default 0 (_cache_expiry c' !! (owner, repo, n))); simpl;
      [done |].
    by rewrite !dom_delete_L, Hc. }
  assert (Hset : ∀ c' w' v, cache_consistent c' →
                            cache_consistent (_cache_set owner repo n v c' w')).
  { intros c' w' v Hc. unfold cache_consistent, _cache_set in *. simpl.
    by rewrite !dom_insert_L, Hc. }
  pose proof (_cache_get_config owner repo n c w) as [Httl Hhdr].
  split; [done |]. split.
  - intros Hc. split; [by apply Hget |]. split; [intros v; by apply Hset |].
    destruct ((_cache_get owner repo n c w).1) as [v|] eqn:Hg.
    + by rewrite (get_issue_data_hit env _ _ _ _ _ _ Hg).
    + rewrite (get_issue_data_miss_plain env _ _ _ _ _ Hg). cbv zeta.
      destruct (get_issue env owner repo n c w) as [[j|e] w1]; simpl; [| by apply Hget].
      destruct (get_issue_comments env owner repo n c w1) as [[j'|e] w2]; simpl;
        [| by apply Hget].
      by apply Hset, Hget.
  - destruct ((_cache_get owner repo n c w).1) as [v|] eqn:Hg.
    + by rewrite (get_issue_data_hit env _ _ _ _ _ _ Hg).
    + rewrite (get_issue_data_miss_plain env _ _ _ _ _ Hg). cbv zeta.
      destruct (get_issue env owner repo n c w) as [[j|e] w1]; simpl; [| done].
      by destruct (get_issue_comments env owner repo n c w1) as [[j'|e] w2].
Qed.

Lemma cache_consistent_preserved_witness :
  cache_consistent
    (get_issue_data (Sample.env ∅ "{}") "facebook" "react" 1
       Sample.client0 Sample.world0).1.2.
Proof.
  apply (proj1 (proj2 (cache_consistent_preserved (Sample.env ∅ "{}")
                         "facebook" "react" 1 Sample.client0 Sample.world0))).
  reflexivity.
Defined.

(** X5: with a TTL of zero or less the cache never answers: after a fetch
    that went to GitHub, every lookup of the triple made when the clock has
    not gone back misses, and the next call sends a new request. *)
Theorem nonpositive_ttl_never_serves (env : Env) (owner repo : string) (n : Z)
    (c c' : GitHubClient) (w w' w2 : world) (b : IssueBundle) :
  ttl_seconds c ≤ 0 →
  get_issue_data env owner repo n c w = (Return b, c', w') →
  sent w' ≠ sent w →
  clock w' ≤ clock w2 →
  (_cache_get owner repo n c' w2).1 = None
  ∧ ∃ rest, sent (get_issue_data env owner repo n c' w2).2
            = (sent w2 ++ issue_url owner repo n :: rest)%list.
Proof.
  intros Httl Hget Hsent Hclock.
  destruct (get_issue_data_stored env _ _ _ _ _ _ _ _ Hget Hsent) as [_ He].
  pose proof (get_issue_data_went_out env _ _ _ _ _ _ _ _ Hget Hsent) as Hmiss0.
  destruct (get_issue_data_returned env _ _ _ _ _ _ _ _ Hmiss0 Hget)
    as (_ & _ & Hacc & _).
  assert (Hmiss : (_cache_get owner repo n c' w2).1 = None).
  { apply (_cache_get_expired owner repo n c' w2). rewrite He. simpl. lia. }
  split; [exact Hmiss |].
  rewrite get_issue_data_sent, Hmiss, Hacc.
  destruct ((get_issue env owner repo n c' w2).1);
    destruct (invalid_url env (comments_url owner repo n)); by eexists.
Qed.

Lemma nonpositive_ttl_never_serves_witness :
  let c := {| headers := []; _cache := ∅; _cache_expiry := ∅; ttl_seconds := 0 |} in
  let r := get_issue_data (Sample.env ∅ "{}") "facebook" "react" 1 c Sample.world0 in
  (_cache_get "facebook" "react" 1 r.1.2 r.2).1 = None.
Proof.
  intros c r.
  refine (proj1 (nonpositive_ttl_never_serves (Sample.env ∅ "{}") "facebook" "react" 1
                   c r.1.2 Sample.world0 r.2 r.2 Sample.bundle1 _ _ _ _));
    by vm_compute.
Defined.

(** X6: a new client has an empty cache, so its first call for any triple
    goes to GitHub whatever the TTL, unless httpx refuses the URL of the
    triple, in which case the call raises [InvalidURL] and leaves client
    and world as they were; and the client sends the header
    [Authorization: Bearer <token>] exactly when [GITHUB_TOKEN] is set and
    not empty. *)
Theorem new_client_fetches (env : Env) (ttl : Z) (owner repo : string) (n : Z)
    (w : world) :
  let c := GitHubClient_init env ttl in
  _cache_get owner repo n c w = (None, c)
  ∧ (invalid_url env (issue_url owner repo n) = None →
     ∃ rest, sent (get_issue_data env owner repo n c w).2
             = (sent w ++ issue_url owner repo n :: rest)%list)
  ∧ (∀ text, invalid_url env (issue_url owner repo n) = Some text →
             get_issue_data env owner repo n c w = (Raise (PyExn InvalidURL text), c, w))
  ∧ (∀ v, ("Authorization", v) ∈ headers c ↔
          ∃ token, environ env !! "GITHUB_TOKEN" = Some token
                   ∧ token ≠ "" ∧ v = "Bearer " ++ token).
Proof.
  intros c.
  assert (Hmiss : _cache_get owner repo n c w = (None, c)) by done.
  split; [exact Hmiss |]. split.
  { intros Hacc. rewrite get_issue_data_sent, Hmiss, Hacc. simpl.
    destruct ((get_issue env owner repo n c w).1);
      destruct (invalid_url env (comments_url owner repo n)); by eexists. }
  split.
  { intros text Href.
    rewrite (get_issue_data_miss_plain env owner repo n c w); [| by rewrite Hmiss].
    cbv zeta. rewrite (get_issue_refused env _ _ _ _ _ _ Href). by rewrite Hmiss. }
  intros v. subst c. unfold GitHubClient_init. simpl.
  destruct (environ env !! "GITHUB_TOKEN") as [token|] eqn:Ht.
  - destruct (String.eqb_spec token "") as [->|Hne].
    + rewrite !elem_of_cons, elem_of_nil. split.
      * intros [[=]|[[=]|[]]].
      * by intros (t & [= <-] & Hne & _).
    + rewrite !elem_of_cons, elem_of_nil. split.
      * intros [[=]|[[=]|[[= ->]|[]]]]. by exists token.
      * intros (t & [= <-] & _ & ->). right. right. by left.
  - rewrite !elem_of_cons, elem_of_nil. split.
    + intros [[=]|[[=]|[]]].
    + by intros (t & [=] & _).
Qed.

Lemma new_client_fetches_witness :
  let env := Sample.env {[ "GITHUB_TOKEN" := "t0" ]} "{}" in
  let c := GitHubClient_init env 300 in
  sent (get_issue_data env "facebook" "react" 1 c Sample.world0).2
  = ["https://api.github.com/repos/facebook/react/issues/1";
     "https://api.github.com/repos/facebook/react/issues/1/comments"]
  ∧ get_issue_data env ("a" ++ PyStr.nl ++ "b") "react" 1 c Sample.world0
    = (Raise (PyExn InvalidURL
                "Invalid non-printable ASCII character in URL, '\n' at position 30."),
       c, Sample.world0)
  ∧ ("Authorization", "Bearer t0") ∈ headers c.
Proof.
  intros env c.
  destruct (new_client_fetches env 300 "facebook" "react" 1 Sample.world0)
    as (_ & Hsends & _ & Hauth).
  destruct (new_client_fetches env 300 ("a" ++ PyStr.nl ++ "b") "react" 1 Sample.world0)
    as (_ & _ & Href & _).
  split; [| split].
  - destruct Hsends as [rest Hrest]; [reflexivity |]. reflexivity.
  - by apply Href.
  - apply Hauth. by exists "t0".
Defined.

(** ** The request handler *)

Lemma endpoint_raises_http env analyzer request client w e :
  (Main.analyze_issue env analyzer request client w).1.1 = Raise e →
  ∃ sc d, e = HTTPException sc d.
Proof.
  unfold Main.analyze_issue.
  destruct (match Main.extract_owner_repo env (repo_url request) with
            | Return (owner, repo) => _
            | Raise e0 => _
            end) as [[r c'] w'].
  simpl. destruct r as [a|[sc d|cls t]]; intros [= <-]; eauto.
Qed.

(** X7: the endpoint function of [/analyze] lets nothing but an
    [HTTPException] escape, so a request with a positive issue number is
    answered either with 200 and an analysis or by
    [http_exception_handler]; the body of such an answer is an object
    whose [status_code] entry equals the HTTP status and that has a
    [detail] entry. *)
Theorem analyze_answer_shape (env : Env) (analyzer : option LLMAnalyzer)
    (request : GitHubIssueRequest) (client : GitHubClient) (w : world) :
  0 < issue_number request →
  let r := (Main.post_analyze env analyzer request client w).1.1 in
  (∃ a, (Main.analyze_issue env analyzer request client w).1.1 = Return a
        ∧ r = {| status_code := 200; content := Analysis a |})
  ∨ (∃ sc d m,
       (Main.analyze_issue env analyzer request client w).1.1
         = Raise (HTTPException sc d)
       ∧ r = Main.http_exception_handler env sc d
       ∧ status_code r = sc
       ∧ content r = Json (JDict m)
       ∧ m !! "status_code" = Some (JInt sc)
       ∧ is_Some (m !! "detail")).
Proof.
  intros Hpos r. subst r. unfold Main.post_analyze.
  apply Z.ltb_lt in Hpos. rewrite Hpos. simpl.
  pose proof (endpoint_raises_http env analyzer request client w) as Hhttp.
  destruct (Main.analyze_issue env analyzer request client w) as [[res c'] w'].
  simpl in *. destruct res as [a|e].
  - left. by exists a.
  - right. destruct (Hhttp e eq_refl) as (sc & d & ->).
    exists sc, d. eexists. split; [done |]. split; [done |]. split; [done |].
    split; [reflexivity |]. split; [done |].
    rewrite lookup_insert_eq. by eexists.
Qed.

Lemma analyze_answer_shape_witness :
  let r := (Main.post_analyze (Sample.env ∅ Sample.reply_three) (Some Sample.openai)
              Sample.react1 Sample.client0 Sample.world0).1.1 in
  r = {| status_code := 200; content := Analysis Sample.analysis_three |}.
Proof.
  intros r. subst r.
  destruct (analyze_answer_shape (Sample.env ∅ Sample.reply_three) (Some Sample.openai)
              Sample.react1 Sample.client0 Sample.world0) as [(a & Ha & Hr)|H].
  - reflexivity.
  - cbv zeta in Hr. rewrite Hr. vm_compute in Ha. by injection Ha as <-.
  - destruct H as (sc & d & m & Ha & _). by vm_compute in Ha.
Defined.

(** X8: the analyser is looked for only after the bundle is there.  With
    no analyser, a request whose bundle is obtained is answered with 503
    and the [service_unavailable] envelope, and the client and the world
    are those the fetch left: on a cache miss both GitHub requests were
    sent and the bundle is stored; a request whose fetch fails is answered
    with the status of that failure instead. *)
Theorem analyzer_checked_after_fetch (env : Env) (request : GitHubIssueRequest)
    (client c1 : GitHubClient) (w w1 : world) (owner repo : string) :
  0 < issue_number request →
  Main.extract_owner_repo env (repo_url request) = Return (owner, repo) →
  (∀ bundle,
     get_issue_data env owner repo (issue_number request) client w
       = (Return bundle, c1, w1) →
     Main.post_analyze env None request client w
       = ({| status_code := 503;
             content :=
               Json (JDict (<["detail" :=
                                ErrorResponse_dict "LLM service is not available"
                                  (Some "service_unavailable") None]>
                           (<["status_code" := JInt 503]> ∅))) |}, c1, w1)
     ∧ ((_cache_get owner repo (issue_number request) client w).1 = None →
        sent w1 = (sent w ++ [issue_url owner repo (issue_number request);
                              comments_url owner repo (issue_number request)])%list
        ∧ _cache c1 !! (owner, repo, issue_number request) = Some bundle))
  ∧ (∀ sc d,
       get_issue_data env owner repo (issue_number request) client w
         = (Raise (HTTPException sc d), c1, w1) →
       (Main.post_analyze env None request client w).1.1
         = Main.http_exception_handler env sc d).
Proof.
  intros Hpos Hurl. apply Z.ltb_lt in Hpos. split.
  - intros bundle Hget. split.
    + unfold Main.post_analyze, Main.analyze_issue. rewrite Hpos. simpl.
      by rewrite Hurl, Hget.
    + intros Hmiss.
      destruct (get_issue_data_returned env _ _ _ _ _ _ _ _ Hmiss Hget)
        as (_ & _ & _ & _ & Hsent & ->).
      split; [exact Hsent |]. simpl. apply lookup_insert_eq.
  - intros sc d Hget. unfold Main.post_analyze, Main.analyze_issue.
    rewrite Hpos. simpl. by rewrite Hurl, Hget.
Qed.

Lemma analyzer_checked_after_fetch_witness :
  let r := Main.post_analyze (Sample.env ∅ "{}") None Sample.react1
             Sample.client0 Sample.world0 in
  status_code r.1.1 = 503
  ∧ sent r.2 = ["https://api.github.com/repos/facebook/react/issues/1";
                "https://api.github.com/repos/facebook/react/issues/1/comments"]
  ∧ _cache r.1.2 !! ("facebook", "react", 1) = Some Sample.bundle1.
Proof.
  intros r.
  destruct (analyzer_checked_after_fetch (Sample.env ∅ "{}") Sample.react1
              Sample.client0 r.1.2 Sample.world0 r.2 "facebook" "react")
    as [Hok _]; [done | by vm_compute |].
  destruct (Hok Sample.bundle1) as [Hpost Hmiss]; [by vm_compute |].
  destruct Hmiss as [Hsent Hc]; [by vm_compute |].
  subst r. split; [by rewrite Hpost | by split].
Defined.

(** ** Repository URLs *)

Module UrlFacts.
Import PyStr PyStrFacts SplitFacts.

Lemma rstrip_by_snoc p s c :
  p c = true → rstrip_by p (s ++ String c "") = rstrip_by p s.
Proof.
  intros Hc. induction s as [|x s IH].
  - rewrite append_nil. simpl. by rewrite Hc.
  - rewrite append_cons. simpl. by rewrite IH.
Qed.

Lemma prefix_slash c s : String.prefix "/" (String c s) = Ascii.eqb c "/".
Proof.
  cbn [String.prefix]. destruct (ascii_dec "/" c) as [<-|Hne].
  - by destruct s.
  - symmetry. apply Ascii.eqb_neq. congruence.
Qed.

Lemma contains_slash_cons c s :
  contains "/" (String c s) = Ascii.eqb c "/" || contains "/" s.
Proof. cbn [contains]. by rewrite prefix_slash. Qed.

(** Cutting at slashes distributes over a slash. *)
Lemma split_scan_slash_app a b :
  split_scan "/" 0 (a ++ "/" ++ b) =
  ((split_scan "/" 0 a).1,
   ((split_scan "/" 0 a).2 ++ (split_scan "/" 0 b).1 :: (split_scan "/" 0 b).2)%list).
Proof.
  induction a as [|x a IH].
  - rewrite append_nil. change ("/" ++ b) with (String "/" b).
    cbn [split_scan]. rewrite prefix_slash. simpl.
    by destruct (split_scan "/" 0 b).
  - rewrite append_cons. cbn [split_scan]. rewrite !prefix_slash.
    destruct (Ascii.eqb x "/"); simpl; rewrite IH;
      by destruct (split_scan "/" 0 a).
Qed.

Lemma split_slash_app a b : split "/" (a ++ "/" ++ b) = (split "/" a ++ split "/" b)%list.
Proof.
  unfold split. rewrite split_scan_slash_app.
  by destruct (split_scan "/" 0 a), (split_scan "/" 0 b).
Qed.

Lemma split_slash_head a b :
  contains "/" a = false → split "/" (a ++ "/" ++ b) = a :: split "/" b.
Proof. intros Ha. by rewrite split_slash_app, (split_slash_absent a Ha). Qed.

(** No piece of a text cut at slashes contains a slash. *)
Lemma split_scan_slash_pieces s :
  contains "/" (split_scan "/" 0 s).1 = false
  ∧ Forall (λ p, contains "/" p = false) (split_scan "/" 0 s).2.
Proof.
  induction s as [|x s [IH1 IH2]]; [by split |].
  cbn [split_scan]. rewrite prefix_slash.
  destruct (Ascii.eqb x "/") eqn:Hx; cbn [String.length Nat.sub];
    destruct (split_scan "/" 0 s) as [h t]; cbn [fst snd] in *.
  - split; [done |]. by constructor.
  - split; [| done]. by rewrite contains_slash_cons, Hx.
Qed.

Lemma split_slash_pieces s : Forall (λ p, contains "/" p = false) (split "/" s).
Proof.
  unfold split. pose proof (split_scan_slash_pieces s) as [H1 H2].
  destruct (split_scan "/" 0 s). by constructor.
Qed.

(** The last piece of a text cut at the marker is what follows the last
    occurrence of the marker. *)
Lemma split_scan_marker_last tail :
  contains "github.com/" tail = false →
  ∀ pre skip, (skip ≤ String.length pre)%nat →
    ∃ h t, split_scan "github.com/" skip (pre ++ "github.com/" ++ tail)
           = (h, (t ++ [tail])%list).
Proof.
  intros Hm. induction pre as [|c p IH]; intros skip Hskip.
  - simpl in Hskip. assert (skip = 0%nat) as -> by lia.
    rewrite ?append_cons, ?append_nil. cbn.
    rewrite (split_scan_absent _ _ Hm).
    assert (String.prefix "" tail = true) as -> by (by destruct tail).
    by exists "", [].
  - rewrite append_cons. destruct skip as [|k].
    + cbn [split_scan].
      destruct (String.prefix "github.com/" (String c (p ++ "github.com/" ++ tail)))
        eqn:Hp.
      * apply marker_no_overlap in Hp.
        destruct (IH (String.length "github.com/" - 1)%nat) as (h & t & ->);
          [simpl; lia |].
        by exists "", (h :: t).
      * destruct (IH 0%nat) as (h & t & ->); [lia |].
        by exists (String c h), t.
    + cbn [split_scan]. apply IH. simpl in Hskip. lia.
Qed.

Lemma split_marker_tail pre tail :
  contains "github.com/" tail = false →
  last_piece (split "github.com/" (pre ++ "github.com/" ++ tail)) = tail.
Proof.
  intros Hm. unfold split.
  destruct (split_scan_marker_last tail Hm pre 0%nat) as (h & t & ->); [lia |].
  apply last_piece_snoc.
Qed.

Lemma split_marker_absent url :
  contains "github.com/" url = false →
  last_piece (split "github.com/" url) = url.
Proof. intros Hm. unfold split. by rewrite (split_scan_absent _ _ Hm). Qed.

(** The first two pieces of [a/b] and of [a/b/...]. *)
Lemma split_slash_two a b rest :
  contains "/" a = false → contains "/" b = false →
  rest = "" ∨ (∃ r, rest = "/" ++ r) →
  ∃ more, split "/" (a ++ "/" ++ b ++ rest) = a :: b :: more.
Proof.
  intros Ha Hb [-> | [r ->]].
  - exists []. rewrite (split_slash_head a _ Ha).
    assert (b ++ "" = b) as -> by (clear; induction b as [|x b IH]; [done |];
                                   by rewrite append_cons, IH).
    by rewrite (split_slash_absent b Hb).
  - exists (split "/" r). rewrite (split_slash_head a _ Ha).
    by rewrite (split_slash_head b _ Hb).
Qed.

End UrlFacts.

(** X9: trailing slashes do not matter to [extract_owner_repo]. *)
Theorem extract_owner_repo_trailing_slash (env : Env) (repo_url : string) :
  Main.extract_owner_repo env (repo_url ++ "/") = Main.extract_owner_repo env repo_url
  ∧ PyStr.ends_with_char (Ascii.eqb "/") (PyStr.rstrip_char "/" repo_url) = false.
Proof.
  split.
  - unfold Main.extract_owner_repo, PyStr.rstrip_char.
    by rewrite UrlFacts.rstrip_by_snoc.
  - apply PyStrFacts.rstrip_by_tail.
Qed.

(** X10: a URL that, without its trailing slashes, ends with
    [github.com/owner/repo], possibly followed by further segments, gives
    the pair (owner, repo), provided the marker [github.com/] does not
    occur again in what follows it. *)
Theorem extract_owner_repo_accepts (env : Env) (repo_url pre owner repo rest : string) :
  PyStr.rstrip_char "/" repo_url = pre ++ "github.com/" ++ owner ++ "/" ++ repo ++ rest →
  PyStr.contains "/" owner = false →
  PyStr.contains "/" repo = false →
  rest = "" ∨ (∃ r, rest = "/" ++ r) →
  PyStr.contains "github.com/" (owner ++ "/" ++ repo ++ rest) = false →
  Main.extract_owner_repo env repo_url = Return (owner, repo).
Proof.
  intros Hurl Ho Hr Hrest Hm. unfold Main.extract_owner_repo. rewrite Hurl.
  assert (PyStr.contains "github.com"
            (pre ++ "github.com/" ++ owner ++ "/" ++ repo ++ rest) = true) as ->.
  { apply SplitFacts.contains_spec. by exists pre, ("/" ++ owner ++ "/" ++ repo ++ rest). }
  simpl. rewrite (UrlFacts.split_marker_tail pre _ Hm).
  by destruct (UrlFacts.split_slash_two owner repo rest Ho Hr Hrest) as [more ->].
Qed.

Lemma extract_owner_repo_accepts_witness :
  Main.extract_owner_repo (Sample.env ∅ "{}") "http://www.github.com/facebook/react/issues/5/"
  = Return ("facebook", "react").
Proof.
  apply (extract_owner_repo_accepts (Sample.env ∅ "{}") _ "http://www." "facebook" "react"
           "/issues/5"); try reflexivity.
  right. by exists "issues/5".
Defined.

(** X11: whatever the URL, [extract_owner_repo] either returns an owner
    and a repository name that contain no slash, and then the URL mentions
    [github.com], or raises the [HTTPException] with status 400 whose
    detail is the [invalid_url] envelope naming the URL without its
    trailing slashes. *)
Theorem extract_owner_repo_result (env : Env) (repo_url : string) :
  let url := PyStr.rstrip_char "/" repo_url in
  match Main.extract_owner_repo env repo_url with
  | Return (owner, repo) =>
      (∃ a b, url = a ++ "github.com" ++ b)
      ∧ PyStr.contains "/" owner = false
      ∧ PyStr.contains "/" repo = false
  | Raise e =>
      ∃ reason,
        (reason = "Invalid GitHub URL" ∨ reason = "Invalid GitHub repository URL format")
        ∧ e = HTTPException 400
                (ErrorResponse_dict ("Invalid GitHub repository URL: " ++ reason)
                   (Some "invalid_url") (Some {[ "input" := JStr url ]}))
  end.
Proof.
  intros url. unfold Main.extract_owner_repo. fold url.
  destruct (PyStr.contains "github.com" url) eqn:Hc; simpl.
  - pose proof (UrlFacts.split_slash_pieces
                  (PyStr.last_piece (PyStr.split "github.com/" url))) as Hp.
    destruct (PyStr.split "/" (PyStr.last_piece (PyStr.split "github.com/" url)))
      as [|owner [|repo more]].
    + exists "Invalid GitHub repository URL format". by split; [right |].
    + exists "Invalid GitHub repository URL format". by split; [right |].
    + apply Forall_cons in Hp as [Ho Hp]. apply Forall_cons in Hp as [Hr _].
      split; [by apply SplitFacts.contains_spec | done].
  - exists "Invalid GitHub URL". by split; [left |].
Qed.

(** X12: when the URL mentions [github.com] but never [github.com/], it
    is cut at its slashes as a whole: its first two segments are returned
    as owner and repository name (for [https://github.com] these are
    [https:] and the empty text), and a URL without any slash is turned
    down with 400. *)
Theorem extract_owner_repo_marker_without_slash (env : Env) (repo_url : string) :
  let url := PyStr.rstrip_char "/" repo_url in
  PyStr.contains "github.com" url = true →
  PyStr.contains "github.com/" url = false →
  (∀ a b rest,
     url = a ++ "/" ++ b ++ rest →
     PyStr.contains "/" a = false → PyStr.contains "/" b = false →
     rest = "" ∨ (∃ r, rest = "/" ++ r) →
     Main.extract_owner_repo env repo_url = Return (a, b))
  ∧ (PyStr.contains "/" url = false →
     Main.extract_owner_repo env repo_url
     = Raise (HTTPException 400
                (ErrorResponse_dict
                   "Invalid GitHub repository URL: Invalid GitHub repository URL format"
                   (Some "invalid_url") (Some {[ "input" := JStr url ]})))).
Proof.
  intros url Hc Hm. split.
  - intros a b rest Hurl Ha Hb Hrest. unfold Main.extract_owner_repo. fold url.
    rewrite Hc. simpl. rewrite (UrlFacts.split_marker_absent url Hm), Hurl.
    by destruct (UrlFacts.split_slash_two a b rest Ha Hb Hrest) as [more ->].
  - intros Hs. unfold Main.extract_owner_repo. fold url.
    rewrite Hc. simpl. rewrite (UrlFacts.split_marker_absent url Hm).
    by rewrite (SplitFacts.split_slash_absent url Hs).
Qed.

Lemma extract_owner_repo_marker_without_slash_witness :
  Main.extract_owner_repo (Sample.env ∅ "{}") "https://github.com/" = Return ("https:", "")
  ∧ ∃ d, Main.extract_owner_repo (Sample.env ∅ "{}") "github.com"
         = Raise (HTTPException 400 d).
Proof.
  split.
  - apply (proj1 (extract_owner_repo_marker_without_slash (Sample.env ∅ "{}")
                    "https://github.com/" eq_refl eq_refl) "https:" "" "/github.com");
      try reflexivity.
    right. by exists "github.com".
  - eexists.
    apply (proj2 (extract_owner_repo_marker_without_slash (Sample.env ∅ "{}")
                    "github.com" eq_refl eq_refl)).
    reflexivity.
Defined.

(** ** The link drawn by the front end *)

Lemma last_two_snoc l a b : last_two (l ++ [a; b]) = [a; b].
Proof.
  unfold last_two. rewrite length_app. simpl.
  replace (List.length l + 2 - 2)%nat with (List.length l) by lia.
  apply drop_app_length.
Qed.

(** X13: the front end links to the last two segments of the URL: for a
    URL that, without its trailing slashes, ends with [.../a/b] the path is
    [a/b] and the link is [https://github.com/a/b/issues/n].  This is the
    pair the backend extracts when [a/b] directly follows [github.com/]. *)
Theorem repo_path_last_two (repo_url x a b : string) (n : Z) :
  PyStr.rstrip_char "/" repo_url = x ++ "/" ++ a ++ "/" ++ b →
  PyStr.contains "/" a = false →
  PyStr.contains "/" b = false →
  Frontend.repo_path repo_url = a ++ "/" ++ b
  ∧ Frontend.issue_link repo_url n
    = "https://github.com/" ++ a ++ "/" ++ b ++ "/issues/" ++ PyStr.of_int n
  ∧ (∀ env pre,
       x = pre ++ "github.com" →
       PyStr.contains "github.com/" (a ++ "/" ++ b) = false →
       Main.extract_owner_repo env repo_url = Return (a, b)).
Proof.
  intros Hurl Ha Hb.
  assert (Hp : Frontend.repo_path repo_url = a ++ "/" ++ b).
  { unfold Frontend.repo_path. rewrite Hurl.
    rewrite UrlFacts.split_slash_app, (UrlFacts.split_slash_head a b Ha).
    rewrite (SplitFacts.split_slash_absent b Hb).
    by rewrite last_two_snoc. }
  split; [exact Hp |]. split.
  { unfold Frontend.issue_link. rewrite Hp.
    by rewrite !SplitFacts.append_assoc. }
  intros env pre -> Hm. unfold Main.extract_owner_repo. rewrite Hurl.
  assert (PyStr.contains "github.com" ((pre ++ "github.com") ++ "/" ++ a ++ "/" ++ b)
          = true) as ->.
  { apply SplitFacts.contains_spec. exists pre, ("/" ++ a ++ "/" ++ b).
    by rewrite SplitFacts.append_assoc. }
  simpl.
  assert ((pre ++ "github.com") ++ "/" ++ a ++ "/" ++ b
          = pre ++ "github.com/" ++ a ++ "/" ++ b) as ->
    by (by rewrite SplitFacts.append_assoc).
  rewrite (UrlFacts.split_marker_tail pre _ Hm).
  rewrite (UrlFacts.split_slash_head a b Ha).
  by rewrite (SplitFacts.split_slash_absent b Hb).
Qed.

Lemma repo_path_last_two_witness :
  Frontend.repo_path "https://github.com/facebook/react/" = "facebook/react"
  ∧ Frontend.repo_path "https://github.com/facebook/react/issues/5" = "issues/5".
Proof.
  split.
  - apply (repo_path_last_two "https://github.com/facebook/react/"
             "https://github.com" "facebook" "react" 1); reflexivity.
  - apply (repo_path_last_two "https://github.com/facebook/react/issues/5"
             "https://github.com/facebook/react" "issues" "5" 1); reflexivity.
Defined.

(** ** The prompt *)

Section PromptFacts.
Context (env : Env).

Lemma subscript_return v k x :
  subscript env v k = Return x → ∃ d, v = JDict d ∧ d !! k = Some x.
Proof.
  destruct v as [| | | | | |d]; try done. simpl.
  destruct (d !! k) eqn:Hk; [| done]. intros [= ->]. eauto.
Qed.

Lemma subscript_raise v k e :
  subscript env v k = Raise e →
  ∃ cls text, e = PyExn cls text ∧ (cls = KeyError ∨ cls = TypeError).
Proof.
  destruct v as [| | | | | |d]; simpl;
    try (intros [= <-]; eexists _, _; split; [reflexivity | by right]).
  destruct (d !! k); [done |].
  intros [= <-]. eexists _, _. split; [reflexivity | by left].
Qed.

Lemma format_comments_raise i cs acc e :
  LLM.format_comments env i cs acc = Raise e →
  ∃ cls text, e = PyExn cls text ∧ (cls = KeyError ∨ cls = TypeError).
Proof.
  revert i acc. induction cs as [|comment cs IH]; intros i acc; [done |].
  cbn [LLM.format_comments].
  destruct (subscript env comment "user") as [user|e1] eqn:H1; simpl;
    [| intros [= <-]; by eapply subscript_raise].
  destruct (subscript env user "login") as [login|e2] eqn:H2; simpl;
    [| intros [= <-]; by eapply subscript_raise].
  destruct (subscript env comment "body") as [body|e3] eqn:H3; simpl;
    [| intros [= <-]; by eapply subscript_raise].
  apply IH.
Qed.

(** The loop over the comments in closed form. *)
Lemma format_comments_blocks i cs acc :
  match comment_blocks env i cs with
  | Some blocks => LLM.format_comments env i cs acc = Return (acc ++ blocks)
  | None => ∃ e, LLM.format_comments env i cs acc = Raise e
  end.
Proof.
  revert i acc. induction cs as [|comment cs IH]; intros i acc.
  - simpl. f_equal. clear. induction acc as [|x acc IH]; [done |].
    by rewrite PyStrFacts.append_cons, <- IH.
  - cbn [comment_blocks LLM.format_comments]. unfold comment_parts.
    destruct comment as [| | | | | |c];
      try (simpl; by eexists).
    simpl. destruct (c !! "user") as [user|] eqn:Hu; simpl; [| by eexists].
    destruct user as [| | | | | |u]; try (simpl; by eexists).
    simpl. destruct (u !! "login") as [login|] eqn:Hl; simpl.
    + destruct (c !! "body") as [body|] eqn:Hb; simpl; [| by eexists].
      specialize (IH (i + 1) (acc ++ PyStr.nl ++ "--- Comment " ++ PyStr.of_int i
                               ++ " by " ++ py_str env login ++ " ---" ++ PyStr.nl
                               ++ py_str env body ++ PyStr.nl)).
      destruct (comment_blocks env (i + 1) cs) as [rest|]; [| exact IH].
      rewrite IH. f_equal. unfold comment_block.
      by rewrite !SplitFacts.append_assoc.
    + destruct (c !! "body"); simpl; by eexists.
Qed.

End PromptFacts.

(** X14: the comments are written to the prompt in the order received,
    numbered from 1 without gaps, each as the block of its number, author
    login and body; a comment without [user.login] or [body] makes the
    loop fail; and the numbering of a list continues where the list before
    it stopped. *)
Theorem comments_numbered_in_order (env : Env) (cs cs' : list json) (acc : string)
    (i : Z) :
  (∀ t, LLM.format_comments env i cs acc = Return t ↔
        ∃ blocks, comment_blocks env i cs = Some blocks ∧ t = acc ++ blocks)
  ∧ comment_blocks env i (cs ++ cs')
    = match comment_blocks env i cs,
            comment_blocks env (i + Z.of_nat (List.length cs)) cs' with
      | Some b, Some b' => Some (b ++ b')
      | _, _ => None
      end.
Proof.
  split.
  - intros t. pose proof (format_comments_blocks env i cs acc) as H.
    destruct (comment_blocks env i cs) as [blocks|].
    + rewrite H. split.
      * intros [= <-]. by exists blocks.
      * by intros (b & [= <-] & ->).
    + destruct H as [e ->]. split; [done | by intros (b & [=] & _)].
  - revert i. induction cs as [|comment cs IH]; intros i.
    + simpl. rewrite Z.add_0_r. by destruct (comment_blocks env i cs').
    + cbn [app comment_blocks List.length].
      destruct (comment_parts comment) as [[login body]|].
      * rewrite IH.
        replace (i + 1 + Z.of_nat (List.length cs))
          with (i + Z.of_nat (S (List.length cs))) by lia.
        destruct (comment_blocks env (i + 1) cs) as [b|]; [| done].
        destruct (comment_blocks env (i + Z.of_nat (S (List.length cs))) cs')
          as [b'|]; [| done].
        by rewrite SplitFacts.append_assoc.
      * done.
Qed.

Lemma comments_numbered_in_order_witness :
  LLM.format_comments (Sample.env ∅ "{}") 1 [Scenario.a_comment; Scenario.a_comment] "Comments:"
  = Return ("Comments:" ++ PyStr.nl ++ "--- Comment 1 by bob ---" ++ PyStr.nl
            ++ "Same here" ++ PyStr.nl ++ PyStr.nl ++ "--- Comment 2 by bob ---"
            ++ PyStr.nl ++ "Same here" ++ PyStr.nl).
Proof.
  apply (proj1 (comments_numbered_in_order (Sample.env ∅ "{}")
                  [Scenario.a_comment; Scenario.a_comment] [] "Comments:" 1)).
  eexists. split; reflexivity.
Defined.

(** X15: a prompt is built only for a bundle whose issue is an object with
    [number], [title], [state], [created_at], [updated_at] and a [user]
    object with a [login] ([body] is not required); and when it cannot be
    built the [KeyError] or [TypeError] leaves [analyze_issue] as it is,
    not as one of the two errors the function raises for the provider
    reply. *)
Theorem prompt_needs_issue_fields (env : Env) (self : LLMAnalyzer) (bundle : IssueBundle) :
  (∀ prompt,
     LLM._format_issue_data env bundle = Return prompt →
     ∃ d u,
       issue bundle = JDict d
       ∧ is_Some (d !! "number") ∧ is_Some (d !! "title") ∧ is_Some (d !! "state")
       ∧ d !! "user" = Some (JDict u) ∧ is_Some (u !! "login")
       ∧ is_Some (d !! "created_at") ∧ is_Some (d !! "updated_at"))
  ∧ (∀ e,
       LLM._format_issue_data env bundle = Raise e →
       LLM.analyze_issue env self bundle = Raise e
       ∧ ∃ cls text, e = PyExn cls text ∧ (cls = KeyError ∨ cls = TypeError)).
Proof.
  unfold LLM.analyze_issue, LLM._format_issue_data.
  set (ct := if truthy (comments bundle) then _ else _).
  assert (Hct : ∀ e, ct = Raise e →
                     ∃ cls text, e = PyExn cls text ∧ (cls = KeyError ∨ cls = TypeError)).
  { subst ct. destruct (truthy (comments bundle)); [| done].
    destruct (comments bundle);
      try (intros e [= <-]; eexists _, _; split; [reflexivity | by right]).
    intros e. apply format_comments_raise. }
  destruct ct as [text|e0]; cbn [rbind].
  2: { split; [by intros ? [=] |]. intros e [= <-]. split; [done |]. by apply Hct. }
  destruct (subscript env (issue bundle) "number") as [number|e1] eqn:H1; cbn [rbind].
  2: { split; [by intros ? [=] |]. intros e [= <-]. split; [done |].
       by eapply subscript_raise. }
  destruct (subscript_return env _ _ _ H1) as (d & Hd & Hn). rewrite Hd in *.
  destruct (subscript env (JDict d) "title") as [title|e2] eqn:H2; cbn [rbind].
  2: { split; [by intros ? [=] |]. intros e [= <-]. split; [done |].
       by eapply subscript_raise. }
  destruct (subscript env (JDict d) "state") as [state|e3] eqn:H3; cbn [rbind].
  2: { split; [by intros ? [=] |]. intros e [= <-]. split; [done |].
       by eapply subscript_raise. }
  destruct (subscript env (JDict d) "user") as [user|e4] eqn:H4; cbn [rbind].
  2: { split; [by intros ? [=] |]. intros e [= <-]. split; [done |].
       by eapply subscript_raise. }
  destruct (subscript env user "login") as [login|e5] eqn:H5; cbn [rbind].
  2: { split; [by intros ? [=] |]. intros e [= <-]. split; [done |].
       by eapply subscript_raise. }
  destruct (subscript env (JDict d) "created_at") as [created|e6] eqn:H6; cbn [rbind].
  2: { split; [by intros ? [=] |]. intros e [= <-]. split; [done |].
       by eapply subscript_raise. }
  destruct (subscript env (JDict d) "updated_at") as [updated|e7] eqn:H7; cbn [rbind].
  2: { split; [by intros ? [=] |]. intros e [= <-]. split; [done |].
       by eapply subscript_raise. }
  split; [| by intros ? [=]]. intros prompt _.
  destruct (subscript_return env _ _ _ H2) as (? & [= <-] & Ht).
  destruct (subscript_return env _ _ _ H3) as (? & [= <-] & Hs).
  destruct (subscript_return env _ _ _ H4) as (? & [= <-] & Hu).
  destruct (subscript_return env _ _ _ H5) as (u & -> & Hl).
  destruct (subscript_return env _ _ _ H6) as (? & [= <-] & Hc).
  destruct (subscript_return env _ _ _ H7) as (? & [= <-] & Hup).
  exists d, u. rewrite Hn, Ht, Hs, Hu, Hl, Hc, Hup. by repeat split.
Qed.

Lemma prompt_needs_issue_fields_witness :
  let bundle := {| issue := JDict {[ "number" := JInt 1 ]}; comments := JList [] |} in
  LLM.analyze_issue (Sample.env ∅ "{}") Sample.openai bundle
  = Raise (PyExn KeyError "<fault>").
Proof.
  intros bundle.
  apply (proj2 (prompt_needs_issue_fields (Sample.env ∅ "{}") Sample.openai bundle)).
  reflexivity.
Defined.

(** ** The reply of the provider *)

(** X16: for a reply that decodes to an object whose [suggested_labels]
    is a non-empty list of texts and whose [summary] and
    [potential_impact] are texts or absent, [analyze_issue] returns the
    analysis made of the given summary and impact (empty when absent), the
    normalised type and priority, and the first five labels in the order
    given; the request is then answered with 200 and this analysis. *)
Theorem well_formed_reply_analysed (env : Env) (self : LLMAnalyzer) (bundle : IssueBundle)
    (content : string) (d : gmap string json) (ls : list string) (s p : string) :
  replied env self bundle (Some content) →
  json_loads env content = inl (JDict d) →
  d !! "suggested_labels" = Some (JList (List.map JStr ls)) →
  ls ≠ [] →
  text_field d "summary" = Some s →
  text_field d "potential_impact" = Some p →
  ∃ ty prio,
    LLM.normalize_type env (JDict d) = Return (IssueType_value ty)
    ∧ LLM.normalize_priority env (JDict d) = Return prio
    ∧ LLM.analyze_issue env self bundle
      = Return {| summary := s; type := ty; priority_score := prio;
                  suggested_labels := List.firstn 5 ls; potential_impact := p |}
    ∧ ∀ request client w c1 w1,
        fetched env request client w bundle c1 w1 →
        Main.post_analyze env (Some self) request client w
        = ({| status_code := 200;
              content := Analysis {| summary := s; type := ty; priority_score := prio;
                                     suggested_labels := List.firstn 5 ls;
                                     potential_impact := p |} |}, c1, w1).
Proof.
  intros Hrep Hload Hl Hne Hs Hp.
  destruct (analyze_issue_well_formed env _ _ _ _ _ _ _ Hrep Hload Hl Hne Hs Hp)
    as (ty & prio & Hty & Hprio & Ha).
  exists ty, prio. split; [exact Hty |]. split; [exact Hprio |].
  split; [exact Ha |].
  intros request client w c1 w1 Hf.
  rewrite (post_analyze_fetched env self _ _ _ _ _ _ Hf). by rewrite Ha.
Qed.

Lemma well_formed_reply_analysed_witness :
  LLM.analyze_issue (Sample.env ∅ Sample.reply_eight) Sample.openai Sample.bundle1
  = Return Sample.analysis_eight.
Proof.
  destruct (well_formed_reply_analysed (Sample.env ∅ Sample.reply_eight) Sample.openai
              Sample.bundle1 Sample.reply_eight Sample.doc_eight
              ["a"; "b"; "c"; "d"; "e"; "f"; "g"; "h"] "" "")
    as (ty & prio & Hty & Hprio & Ha & _).
  - apply sample_replied.
  - reflexivity.
  - reflexivity.
  - discriminate.
  - reflexivity.
  - reflexivity.
  - rewrite Ha. vm_compute in Hty, Hprio.
    injection Hprio as <-. injection Hty as Hty.
    by destruct ty.
Defined.

(** X17: what follows the fifth label has no influence on the analysis,
    whatever it is: an invalid entry in sixth position does no harm. *)
Theorem labels_past_fifth_ignored (env : Env) (d : gmap string json)
    (l extra : list json) :
  (5 ≤ List.length l)%nat →
  LLM.build_analysis env (JDict (<["suggested_labels" := JList (l ++ extra)]> d))
  = LLM.build_analysis env (JDict (<["suggested_labels" := JList l]> d)).
Proof.
  intros Hlen. unfold LLM.build_analysis, LLM.normalize_type, LLM.normalize_priority,
    LLM.normalize_labels. simpl.
  rewrite !lookup_insert_eq. rewrite !lookup_insert_ne by done. simpl.
  by rewrite take_app_le.
Qed.

Lemma labels_past_fifth_ignored_witness :
  LLM.build_analysis (Sample.env ∅ "{}")
    (JDict {[ "suggested_labels" :=
                JList (List.map JStr ["a"; "b"; "c"; "d"; "e"] ++ [JNull; JList []]) ]})
  = Return {| summary := ""; type := OTHER; priority_score := "1";
              suggested_labels := ["a"; "b"; "c"; "d"; "e"]; potential_impact := "" |}.
Proof.
  change ({[ "suggested_labels" :=
               JList (List.map JStr ["a"; "b"; "c"; "d"; "e"] ++ [JNull; JList []]) ]}
          : gmap string json)
    with (<["suggested_labels" :=
              JList (List.map JStr ["a"; "b"; "c"; "d"; "e"] ++ [JNull; JList []])]>
            (∅ : gmap string json)).
  rewrite (labels_past_fifth_ignored (Sample.env ∅ "{}") ∅
             (List.map JStr ["a"; "b"; "c"; "d"; "e"]) [JNull; JList []]);
    [reflexivity | simpl; lia].
Defined.

(** X18: a reply that is valid JSON but not an object (a list, a text, a
    number, [null]) and an OpenAI answer without content never give an
    analysis; both leave [analyze_issue] as the plain [Exception], not as
    the [ValueError] of an undecodable reply. *)
Theorem non_object_reply_rejected (env : Env) (self : LLMAnalyzer) (bundle : IssueBundle) :
  (∀ content parsed,
     replied env self bundle (Some content) →
     json_loads env content = inl parsed →
     (∀ d, parsed ≠ JDict d) →
     LLM.analyze_issue env self bundle
     = Raise (PyExn Exception_ ("Error during LLM analysis: "
                                ++ fault_text env (NoAttribute parsed "get"))))
  ∧ (replied env self bundle None →
     LLM.analyze_issue env self bundle
     = Raise (PyExn Exception_ ("Error during LLM analysis: "
                                ++ fault_text env NotADocument))).
Proof.
  split.
  - intros content parsed Hrep Hload Hobj.
    rewrite (analyze_issue_replied env _ _ _ Hrep). simpl. rewrite Hload. simpl.
    destruct parsed as [| | | | | |d]; try reflexivity. by destruct (Hobj d).
  - intros Hrep. by rewrite (analyze_issue_replied env _ _ _ Hrep).
Qed.

Lemma non_object_reply_rejected_witness :
  LLM.analyze_issue (Sample.env ∅ "[]") Sample.openai Sample.bundle1
  = Raise (PyExn Exception_ "Error during LLM analysis: <fault>").
Proof.
  apply (proj1 (non_object_reply_rejected (Sample.env ∅ "[]") Sample.openai
                  Sample.bundle1) "[]" (JList []) (sample_replied ∅ "[]") eq_refl).
  intros d. discriminate.
Defined.

(** X19: an analysis is returned only for a reply whose
    [suggested_labels] is a list with at least one entry; a text, a
    number, [null] or an object in its place never gives one.  The labels
    returned are the first five entries, one for one and in order. *)
Theorem returned_labels_from_list (env : Env) (self : LLMAnalyzer) (bundle : IssueBundle)
    (a : IssueAnalysis) :
  LLM.analyze_issue env self bundle = Return a →
  ∃ content d l,
    replied env self bundle (Some content)
    ∧ json_loads env content = inl (JDict d)
    ∧ d !! "suggested_labels" = Some (JList l)
    ∧ l ≠ []
    ∧ validate_strs env (List.firstn 5 l) = Some (suggested_labels a)
    ∧ List.length (suggested_labels a) = Nat.min 5 (List.length l).
Proof.
  intros Ha.
  destruct (analyze_issue_return env _ _ _ Ha) as (content & parsed & Hrep & Hload & Hb).
  destruct (build_analysis_return env _ _ Hb)
    as (d & ls & -> & _ & _ & Hl & Hv & [Hlen _] & _).
  exists content, d. unfold LLM.normalize_labels in Hl. simpl in Hl.
  destruct (d !! "suggested_labels") as [[| | | | |l|]|] eqn:Hd; simpl in Hl; try done.
  - injection Hl as <-. exists l. split; [done |]. split; [done |]. split; [done |].
    pose proof (validate_strs_length env _ _ Hv) as Hn.
    rewrite List.length_firstn in Hn.
    split; [| split; [exact Hv | exact Hn]].
    intros ->. simpl in Hn. lia.
  - injection Hl as <-. simpl in Hv. injection Hv as Hv.
    rewrite <- Hv in Hlen. simpl in Hlen. lia.
Qed.

Lemma returned_labels_from_list_witness :
  ∃ l, Sample.doc_three !! "suggested_labels" = Some (JList l)
       ∧ validate_strs (Sample.env ∅ Sample.reply_three) (List.firstn 5 l)
         = Some (suggested_labels Sample.analysis_three).
Proof.
  destruct (returned_labels_from_list (Sample.env ∅ Sample.reply_three) Sample.openai
              Sample.bundle1 Sample.analysis_three)
    as (content & d & l & (prompt & Hfmt & Hrep) & Hload & Hl & _ & Hv & _).
  - by vm_compute.
  - vm_compute in Hrep. injection Hrep as <-.
    vm_compute in Hload. injection Hload as <-.
    by exists l.
Defined.

(** ** Letter case in the type *)

Module CaseFacts.
Import PyStr.

Lemma lower_char_idem c : lower_char (lower_char c) = lower_char c.
Proof. by destruct c as [[] [] [] [] [] [] [] []]. Qed.

Lemma isspace_lower_char c : isspace (lower_char c) = isspace c.
Proof. by destruct c as [[] [] [] [] [] [] [] []]. Qed.

Lemma lower_idem s : lower (lower s) = lower s.
Proof.
  unfold lower. induction s as [|c s IH]; [done |].
  simpl. by rewrite lower_char_idem, IH.
Qed.

Lemma lstrip_lower s : lstrip_by isspace (lower s) = lower (lstrip_by isspace s).
Proof.
  unfold lower. induction s as [|c s IH]; [done |].
  simpl. rewrite isspace_lower_char. by destruct (isspace c).
Qed.

Lemma rstrip_lower s : rstrip_by isspace (lower s) = lower (rstrip_by isspace s).
Proof.
  unfold lower. induction s as [|c s IH]; [done |].
  simpl. rewrite IH, isspace_lower_char.
  destruct (rstrip_by isspace s); simpl; [by destruct (isspace c) | done].
Qed.

Lemma strip_lower s : strip (lower s) = lower (strip s).
Proof. unfold strip. by rewrite lstrip_lower, rstrip_lower. Qed.

End CaseFacts.

(** X20: the letter case of the type the provider gives does not matter
    (lower-casing it beforehand changes nothing), and the normalisation is
    idempotent: the value it yields, given back as the type, is yielded
    again; in particular every value of [IssueType] is kept and is read
    back as its member. *)
Theorem type_normalisation_stable (env : Env) (d : gmap string json) (s : string) :
  LLM.normalize_type env (JDict (<["type" := JStr (PyStr.lower s)]> d))
  = LLM.normalize_type env (JDict (<["type" := JStr s]> d))
  ∧ (∀ r, LLM.normalize_type env (JDict d) = Return r →
          LLM.normalize_type env (JDict (<["type" := JStr r]> d)) = Return r)
  ∧ (∀ t, LLM.normalize_type env (JDict (<["type" := JStr (IssueType_value t)]> d))
          = Return (IssueType_value t)
          ∧ IssueType_of (IssueType_value t) = Some t).
Proof.
  assert (Hfix : ∀ t, LLM.normalize_type env
                        (JDict (<["type" := JStr (IssueType_value t)]> d))
                      = Return (IssueType_value t)).
  { intros t. rewrite normalize_type_dict, lookup_insert_eq. by destruct t. }
  split; [| split].
  - rewrite !normalize_type_dict, !lookup_insert_eq. cbv zeta. simpl.
    unfold LLM.clean_type. simpl.
    by rewrite CaseFacts.strip_lower, CaseFacts.lower_idem.
  - intros r Hr.
    destruct (normalize_type_member env d) as (ty & Hty & _).
    rewrite Hty in Hr. injection Hr as <-. apply Hfix.
  - intros t. split; [apply Hfix | apply IssueType_of_value].
Qed.

Lemma type_normalisation_stable_witness :
  LLM.normalize_type (Sample.env ∅ "{}")
    (JDict (<["type" := JStr "feature_request"]> Sample.doc_eight))
  = Return "feature_request".
Proof.
  apply (proj1 (proj2 (type_normalisation_stable (Sample.env ∅ "{}")
                         Sample.doc_eight ""))).
  reflexivity.
Defined.

(** ** Start-up of the analyser *)

(** X21: the selector [LLM_PROVIDER] is read without regard to letter
    case; an analyser that was constructed has the lower-cased selector as
    its provider, one of [openai] and [gemini], and the key of that
    provider is set (the key of the other one is not looked at); with the
    SDK loaded and the key missing the constructor raises the
    [ValueError] naming the variable, and with any other selector the
    [ValueError] for an unsupported provider. *)
Theorem analyzer_init_selects_provider (env : Env) :
  let p := PyStr.lower (getenv env "LLM_PROVIDER" "openai") in
  (∀ a, LLM.LLMAnalyzer_init env = Return a →
        provider a = p
        ∧ ((p = "openai" ∧ is_Some (LLM.credential env "OPENAI_API_KEY"))
           ∨ (p = "gemini" ∧ is_Some (LLM.credential env "GEMINI_API_KEY"))))
  ∧ (p = "openai" → sdk_import env "openai" = None →
     LLM.credential env "OPENAI_API_KEY" = None →
     LLM.LLMAnalyzer_init env
     = Raise (PyExn ValueError "OPENAI_API_KEY environment variable is not set"))
  ∧ (p = "gemini" → sdk_import env "gemini" = None →
     LLM.credential env "GEMINI_API_KEY" = None →
     LLM.LLMAnalyzer_init env
     = Raise (PyExn ValueError "GEMINI_API_KEY environment variable is not set"))
  ∧ (p ≠ "openai" → p ≠ "gemini" →
     LLM.LLMAnalyzer_init env
     = Raise (PyExn ValueError "Unsupported LLM_PROVIDER. Use 'openai' or 'gemini'.")).
Proof.
  intros p. unfold LLM.LLMAnalyzer_init, LLM.require_key. fold p.
  split; [| split; [| split]].
  - intros a.
    destruct (String.eqb_spec p "openai") as [Ho|Ho].
    + destruct (sdk_import env "openai"); simpl; [done |].
      destruct (LLM.credential env "OPENAI_API_KEY") as [k|]; simpl; [| done].
      destruct (sdk_configure env "openai" k); simpl; [done |].
      intros [= <-]. split; [done |]. left. split; [done | by eexists].
    + destruct (String.eqb_spec p "gemini") as [Hg|Hg]; [| done].
      destruct (sdk_import env "gemini"); simpl; [done |].
      destruct (LLM.credential env "GEMINI_API_KEY") as [k|]; simpl; [| done].
      destruct (sdk_configure env "gemini" k); simpl; [done |].
      intros [= <-]. split; [done |]. right. split; [done | by eexists].
  - intros Hp Hi Hk. rewrite Hp. simpl. by rewrite Hi, Hk.
  - intros Hp Hi Hk. rewrite Hp. simpl. by rewrite Hi, Hk.
  - intros Ho Hg.
    destruct (String.eqb_spec p "openai"); [done |].
    by destruct (String.eqb_spec p "gemini").
Qed.

Lemma analyzer_init_selects_provider_witness :
  let vars : gmap string string :=
    <["LLM_PROVIDER" := "Gemini"]> (<["GEMINI_API_KEY" := "g-test"]> ∅) in
  provider <$> LLM.llm_analyzer (Scenario.env vars Sample.service "{}") = Some "gemini"
  ∧ LLM.LLMAnalyzer_init (Sample.env ∅ "{}")
    = Raise (PyExn ValueError "OPENAI_API_KEY environment variable is not set").
Proof.
  intros vars. split.
  - destruct (LLM.LLMAnalyzer_init (Scenario.env vars Sample.service "{}"))
      as [a|e] eqn:Hinit; [| by vm_compute in Hinit].
    destruct (proj1 (analyzer_init_selects_provider
                       (Scenario.env vars Sample.service "{}")) a Hinit) as [Hp _].
    unfold LLM.llm_analyzer. rewrite Hinit. simpl. by rewrite Hp.
  - by apply (proj1 (proj2 (analyzer_init_selects_provider (Sample.env ∅ "{}")))).
Defined.

(** ** The front end on the answers of the backend *)

Lemma score_of_char c :
  (if Frontend.isdigit c then
     match Frontend.int_of_char c with
     | Some n => n
     | None => 1
     end
   else 1)
  = if (48 <=? PyStr.code c)%nat && (PyStr.code c <=? 57)%nat
    then Z.of_nat (PyStr.code c) - 48 else 1.
Proof. by destruct c as [[] [] [] [] [] [] [] []]. Qed.

Lemma class_of_char c :
  Frontend.get_priority_class
    (if (48 <=? PyStr.code c)%nat && (PyStr.code c <=? 57)%nat
     then Z.of_nat (PyStr.code c) - 48 else 1)
  = if (52 <=? PyStr.code c)%nat && (PyStr.code c <=? 57)%nat then "priority-high"
    else if (PyStr.code c =? 51)%nat then "priority-medium"
    else "priority-low".
Proof. by destruct c as [[] [] [] [] [] [] [] []]. Qed.

(** X22: for a priority text over U+0000..U+00FF, the range of texts of
    this development, the class the front end gives depends only on the
    first character of the text once stripped: [priority-high] for the
    ASCII digits 4 to 9, [priority-medium] for 3, [priority-low] for every
    other character of the range (the digits 0 to 2, the superscript
    digits, which [isdigit] accepts and [int] refuses, letters, signs) and
    for an empty text; so the priority "1" the backend uses when the
    provider gives none is shown as low.  Decimal digits of other scripts,
    which [isdigit] and [int] accept as well, lie outside the range and are
    not covered. *)
Theorem priority_class_by_first_character (env : Env) (result_ : gmap string json) :
  Frontend.priority_class env result_
  = match PyStr.strip (py_str env (default (JStr "1") (result_ !! "priority_score"))) with
    | String c _ =>
        if (52 <=? PyStr.code c)%nat && (PyStr.code c <=? 57)%nat then "priority-high"
        else if (PyStr.code c =? 51)%nat then "priority-medium"
        else "priority-low"
    | EmptyString => "priority-low"
    end
  ∧ (∀ a, Frontend.priority_class env (IssueAnalysis_json a)
          = Frontend.priority_class env {[ "priority_score" := JStr (priority_score a) ]})
  ∧ (∀ a, priority_score a = "1" →
          Frontend.priority_class env (IssueAnalysis_json a) = "priority-low").
Proof.
  assert (Hgen : ∀ r : gmap string json,
            Frontend.priority_class env r
            = match PyStr.strip (py_str env (default (JStr "1") (r !! "priority_score"))) with
              | String c _ =>
                  if (52 <=? PyStr.code c)%nat && (PyStr.code c <=? 57)%nat
                  then "priority-high"
                  else if (PyStr.code c =? 51)%nat then "priority-medium"
                  else "priority-low"
              | EmptyString => "priority-low"
              end).
  { intros r. unfold Frontend.priority_class, Frontend.prio_num. cbv zeta.
    destruct (PyStr.strip _) as [|c rest]; [done |].
    by rewrite score_of_char, class_of_char. }
  assert (Hp : ∀ a, IssueAnalysis_json a !! "priority_score"
                    = Some (JStr (priority_score a))).
  { intros a. unfold IssueAnalysis_json.
    rewrite !lookup_insert_ne by done. apply lookup_insert_eq. }
  split; [apply Hgen |]. split.
  - intros a. by rewrite !Hgen, Hp, lookup_singleton_eq.
  - intros a Ha. by rewrite Hgen, Hp, Ha.
Qed.

Lemma priority_class_by_first_character_witness :
  Frontend.priority_class (Sample.env ∅ "{}") (IssueAnalysis_json Sample.analysis_three)
  = "priority-low"
  ∧ Frontend.priority_class (Sample.env ∅ "{}") (IssueAnalysis_json Sample.analysis_eight)
    = "priority-high".
Proof.
  split.
  - by apply (proj2 (proj2 (priority_class_by_first_character (Sample.env ∅ "{}") ∅))).
  - by rewrite (proj1 (priority_class_by_first_character (Sample.env ∅ "{}") _)).
Defined.

(** X23: the front end draws a tag for the first four labels only: of an
    analysis with five labels, the most the backend returns, the fifth is
    not shown. *)
Theorem at_most_four_labels_shown (env : Env) (a : IssueAnalysis) :
  Frontend.shown_labels env (IssueAnalysis_json a)
  = Return (JList (List.map JStr (List.firstn 4 (suggested_labels a))))
  ∧ (List.length (List.firstn 4 (suggested_labels a)) ≤ 4)%nat
  ∧ (List.length (suggested_labels a) = 5%nat →
     ∃ fifth, suggested_labels a = (List.firstn 4 (suggested_labels a) ++ [fifth])%list).
Proof.
  split; [| split].
  - unfold Frontend.shown_labels, IssueAnalysis_json.
    rewrite !lookup_insert_ne by done. rewrite lookup_insert_eq. simpl.
    by rewrite firstn_map.
  - rewrite List.length_firstn. lia.
  - intros H5. destruct (suggested_labels a) as [|l1 [|l2 [|l3 [|l4 [|l5 [|l6 ls]]]]]];
      try done. by exists l5.
Qed.

Lemma at_most_four_labels_shown_witness :
  Frontend.shown_labels (Sample.env ∅ "{}") (IssueAnalysis_json Sample.analysis_eight)
  = Return (JList [JStr "a"; JStr "b"; JStr "c"; JStr "d"])
  ∧ suggested_labels Sample.analysis_eight = ["a"; "b"; "c"; "d"; "e"].
Proof.
  destruct (at_most_four_labels_shown (Sample.env ∅ "{}") Sample.analysis_eight)
    as (Hshown & _ & Hfifth).
  split; [exact Hshown |].
  destruct Hfifth as [fifth H]; [reflexivity |]. reflexivity.
Defined.

(** X24: the front end never fails on an answer of [/analyze]: it gets an
    object with a [detail] whenever the status is one of 400 to 599,
    shows that detail (never its fallback text) and renders no analysis;
    and it gets the analysis object when the answer is 200. *)
Theorem front_end_shows_backend_detail (env : Env) (error_text : string)
    (analyzer : option LLMAnalyzer) (request : GitHubIssueRequest)
    (client : GitHubClient) (w : world) :
  let r := (Main.post_analyze env analyzer request client w).1.1 in
  (400 ≤ status_code r < 600 →
   ∃ m d, content r = Json (JDict m)
          ∧ m !! "detail" = Some d
          ∧ Frontend.analyze_issue env error_text r
            = Return (None, ["Error: " ++ py_str env d]))
  ∧ (∀ a, r = {| status_code := 200; content := Analysis a |} →
          Frontend.analyze_issue env error_text r
          = Return (Some (JDict (IssueAnalysis_json a)), []))
  ∧ ∃ shown, Frontend.analyze_issue env error_text r = Return shown.
Proof.
  intros r.
  assert (Hshape : (∃ a, r = {| status_code := 200; content := Analysis a |})
                   ∨ (∃ m d, content r = Json (JDict m) ∧ m !! "detail" = Some d)).
  { subst r. destruct (Z.ltb_spec 0 (issue_number request)) as [Hpos|Hneg].
    - unfold Main.post_analyze. apply Z.ltb_lt in Hpos. rewrite Hpos. simpl.
      pose proof (endpoint_raises_http env analyzer request client w) as Hhttp.
      destruct (Main.analyze_issue env analyzer request client w) as [[res c'] w'].
      simpl in *. destruct res as [a|e]; [left; by exists a |].
      right. destruct (Hhttp e eq_refl) as (sc & d & ->).
      unfold Main.http_exception_handler. simpl.
      eexists _, _. split; [reflexivity |]. by rewrite lookup_insert_eq.
    - right. unfold Main.post_analyze.
      assert ((0 <? issue_number request) = false) as -> by (apply Z.ltb_ge; lia).
      simpl. eexists _, _. split; [reflexivity |]. by rewrite lookup_singleton_eq. }
  assert (Herr : ∀ m d, content r = Json (JDict m) → m !! "detail" = Some d →
                        400 ≤ status_code r < 600 →
                        Frontend.analyze_issue env error_text r
                        = Return (None, ["Error: " ++ py_str env d])).
  { intros m d Hm Hd Hs. unfold Frontend.analyze_issue. rewrite Hm.
    assert ((400 <=? status_code r) && (status_code r <? 600) = true) as ->.
    { apply andb_true_iff. split; [apply Z.leb_le | apply Z.ltb_lt]; lia. }
    simpl. by rewrite Hd. }
  split; [| split].
  - intros Hs. destruct Hshape as [[a Ha]|(m & d & Hm & Hd)].
    + rewrite Ha in Hs. simpl in Hs. lia.
    + exists m, d. split; [done |]. split; [done |]. by apply (Herr m d).
  - intros a ->. reflexivity.
  - destruct Hshape as [[a ->]|(m & d & Hm & Hd)]; [by eexists |].
    destruct ((400 <=? status_code r) && (status_code r <? 600)) eqn:Hs.
    + eexists. apply (Herr m d Hm Hd).
      apply andb_true_iff in Hs as [H1%Z.leb_le H2%Z.ltb_lt]. lia.
    + unfold Frontend.analyze_issue. rewrite Hs. by eexists.
Qed.

Lemma front_end_shows_backend_detail_witness :
  Frontend.analyze_issue (Sample.env ∅ "{}") "404 Client Error"
    (Main.post_analyze (Sample.env ∅ "{}") (Some Sample.openai)
       {| repo_url := "https://github.com/ghost/none"; issue_number := 999 |}
       Sample.client0 Sample.world0).1.1
  = Return (None, ["Error: Issue #999 not found in ghost/none or repository is private"]).
Proof.
  destruct (proj1 (front_end_shows_backend_detail (Sample.env ∅ "{}") "404 Client Error"
                     (Some Sample.openai)
                     {| repo_url := "https://github.com/ghost/none"; issue_number := 999 |}
                     Sample.client0 Sample.world0))
    as (m & d & Hm & Hd & Hshow).
  - by vm_compute.
  - rewrite Hshow. vm_compute in Hm. injection Hm as <-.
    vm_compute in Hd. by injection Hd as <-.
Defined.

(** X25: every type the backend can return has a tag of its own in the
    front end, and [other-tag] is what [other] and any text that is not one
    of the other four values get. *)
Theorem type_tags_cover_issue_types (s : string) :
  (Frontend.get_issue_type_tag s = "other-tag" ↔
   s ≠ "bug" ∧ s ≠ "feature_request" ∧ s ≠ "documentation" ∧ s ≠ "question")
  ∧ (∀ t t', Frontend.get_issue_type_tag (IssueType_value t)
             = Frontend.get_issue_type_tag (IssueType_value t') → t = t')
  ∧ (∀ a, Frontend.get_issue_type_tag (IssueType_value (type a)) = "other-tag" ↔
          type a = OTHER).
Proof.
  split; [| split].
  - unfold Frontend.get_issue_type_tag, Frontend.type_classes.
    destruct (decide (s = "bug")) as [->|H1]; [by split; [| intros []] |].
    rewrite lookup_insert_ne by done.
    destruct (decide (s = "feature_request")) as [->|H2];
      [by split; [| intros (_ & [] & _)] |].
    rewrite lookup_insert_ne by done.
    destruct (decide (s = "documentation")) as [->|H3];
      [by split; [| intros (_ & _ & [] & _)] |].
    rewrite lookup_insert_ne by done.
    destruct (decide (s = "question")) as [->|H4];
      [by split; [| intros (_ & _ & _ & [])] |].
    rewrite lookup_insert_ne by done. by rewrite lookup_empty.
  - by intros [] [].
  - intros a. by destruct (type a).
Qed.
